(** * The tailscaled embedded web server (cmd/tailscaled/web)

    A shallow embedding of the access gate ([requireTailscale],
    [isLocalhost], [isTailscaleIP]), the three route handlers, the
    per-platform CPU samplers and metrics collectors, and the per-platform
    shutdown actuators, with the properties of the design document that
    concern them.

    Go values are modelled as follows.
    - [uint64], [uint32], [uint8]: [Z], with the wrap-around of every
      operation that can overflow written out ([u64]).
    - [string]: [String.string], a sequence of bytes as in Go.
    - [error]: [option string], [None] being [nil].
    - [float64]: a type with the three operations the code uses
      ([Float64]); its IEEE 754 instance ([ieee64]) is binary64 as
      [SpecFloat] specifies it, rounding to nearest, ties to even.
    - Standard-library functions the code calls ([net.SplitHostPort],
      [netip.ParseAddr], [Addr.String], [http.Error], [http.ServeMux],
      [path.Clean], [strings.Fields], [strings.Split],
      [strconv.ParseUint], [strconv.ParseInt]) are transcribed from the
      Go standard library in modules named after their packages.
    - Files, system calls and commands are the boundary: a function that
      reads one takes what the read returns as an argument. *)

From Stdlib Require Import ZArith List Bool String Ascii Lia DecimalString.
From Stdlib Require Import QArith SpecFloat Permutation DecimalN.
Import ListNotations.

Open Scope list_scope.
Open Scope string_scope.
Open Scope Z_scope.

(** ** Bytes and strings *)

(** [s[i]] as a number. *)
Definition byte_of (c : ascii) : Z := Z.of_N (N_of_ascii c).

(** [string(byte(n))] for [0 <= n < 256]. *)
Definition char_of (n : Z) : ascii := ascii_of_N (Z.to_N n).

Definition len (s : string) : Z := Z.of_nat (String.length s).

(** [strings.HasPrefix(s, prefix)]. *)
Definition HasPrefix (s prefix : string) : bool := String.prefix prefix s.

(** [bytealg.IndexByteString(s, c)]: the part before the first [c] and the
    part after it, or [None] when [c] does not occur (Go's [-1]). *)
Fixpoint cutByte (c : ascii) (s : string) : option (string * string) :=
  match s with
  | EmptyString => None
  | String d rest =>
      if Ascii.eqb d c then Some (EmptyString, rest)
      else match cutByte c rest with
           | Some (before, after) => Some (String d before, after)
           | None => None
           end
  end.

(** [bytealg.LastIndexByteString(s, c)], in the same form. *)
Fixpoint cutLastByte (c : ascii) (s : string) : option (string * string) :=
  match s with
  | EmptyString => None
  | String d rest =>
      match cutLastByte c rest with
      | Some (before, after) => Some (String d before, after)
      | None => if Ascii.eqb d c then Some (EmptyString, rest) else None
      end
  end.

Definition containsByte (c : ascii) (s : string) : bool :=
  match cutByte c s with Some _ => true | None => false end.

(** [strings.Contains(s, substr)]. *)
Fixpoint Contains (s substr : string) : bool :=
  String.prefix substr s
  || match s with
     | EmptyString => false
     | String _ rest => Contains rest substr
     end.

(** [xs[i] = v]; the index is in range wherever the code writes. *)
Fixpoint set_nth (xs : list Z) (i : nat) (v : Z) : list Z :=
  match xs, i with
  | [], _ => []
  | _ :: tl, O => v :: tl
  | x :: tl, S j => x :: set_nth tl j v
  end.

Definition set_at (xs : list Z) (i v : Z) : list Z := set_nth xs (Z.to_nat i) v.

Definition get_at (xs : list Z) (i : Z) : Z := nth (Z.to_nat i) xs 0.

(** ** Package net/netip *)

Module netip.

(** The [z] field of an [Addr]: the zero value, IPv4, IPv6 without a zone,
    or IPv6 with a zone name. *)
Inductive zone : Type :=
| z0
| z4
| z6noz
| z6zone (name : string).

Definition zone_eqb (a b : zone) : bool :=
  match a, b with
  | z0, z0 => true
  | z4, z4 => true
  | z6noz, z6noz => true
  | z6zone x, z6zone y => String.eqb x y
  | _, _ => false
  end.

(** [type Addr struct { addr uint128; z unique.Handle[addrDetail] }], the
    128-bit value as its two 64-bit halves. *)
Record Addr : Type := mkAddr { addr_hi : Z; addr_lo : Z; addr_z : zone }.

(** Go's [==] on [Addr]. *)
Definition Addr_eqb (a b : Addr) : bool :=
  (addr_hi a =? addr_hi b) && (addr_lo a =? addr_lo b)
  && zone_eqb (addr_z a) (addr_z b).

Definition Is4 (ip : Addr) : bool := zone_eqb (addr_z ip) z4.

Definition Is6 (ip : Addr) : bool :=
  negb (zone_eqb (addr_z ip) z0) && negb (zone_eqb (addr_z ip) z4).

Definition Is4In6 (ip : Addr) : bool :=
  Is6 ip && (addr_hi ip =? 0) && (Z.shiftr (addr_lo ip) 32 =? 0xffff).

Definition AddrFrom4 (a : list Z) : Addr :=
  mkAddr 0
         (Z.lor 0xffff00000000
            (Z.lor (Z.shiftl (get_at a 0) 24)
               (Z.lor (Z.shiftl (get_at a 1) 16)
                  (Z.lor (Z.shiftl (get_at a 2) 8) (get_at a 3)))))
         z4.

(** [byteorder.BEUint64] of eight bytes. *)
Definition BEUint64 (b : list Z) : Z :=
  fold_left (fun acc x => Z.lor (Z.shiftl acc 8) x) (firstn 8 b) 0.

Definition AddrFrom16 (a : list Z) : Addr :=
  mkAddr (BEUint64 (firstn 8 a)) (BEUint64 (skipn 8 a)) z6noz.

Definition IPv6Unspecified : Addr := mkAddr 0 0 z6noz.

Definition WithZone (ip : Addr) (zn : string) : Addr :=
  if negb (Is6 ip) then ip
  else if String.eqb zn "" then mkAddr (addr_hi ip) (addr_lo ip) z6noz
  else mkAddr (addr_hi ip) (addr_lo ip) (z6zone zn).

Definition Unmap (ip : Addr) : Addr :=
  if Is4In6 ip then mkAddr (addr_hi ip) (addr_lo ip) z4 else ip.

Definition Zone (ip : Addr) : string :=
  match addr_z ip with
  | z6zone name => name
  | _ => ""
  end.

(** [As4]: the four bytes of [uint32(ip.addr.lo)], big-endian.  On an IPv6
    address that is not IPv4-mapped Go panics: [None]. *)
Definition As4 (ip : Addr) : option (list Z) :=
  if Is4 ip || Is4In6 ip then
    let v := Z.land (addr_lo ip) 0xffffffff in
    Some [ Z.land (Z.shiftr v 24) 0xff; Z.land (Z.shiftr v 16) 0xff;
           Z.land (Z.shiftr v 8) 0xff; Z.land v 0xff ]
  else if zone_eqb (addr_z ip) z0 then Some [0; 0; 0; 0]
  else None.

(** *** Parsing *)

Definition isDigit (c : ascii) : bool :=
  (48 <=? byte_of c) && (byte_of c <=? 57).

(** The loop of [parseIPv4Fields] over [s = in[off:end]].  [first] is
    [i == 0], [prevDot] is [s[i-1] == '.']. *)
Fixpoint parseIPv4Fields_loop (s : string) (first prevDot : bool)
         (val pos digLen : Z) (fields : list Z) : option (list Z) :=
  match s with
  | EmptyString =>
      if pos <? 3 then None (* IPv4 address too short *)
      else Some (set_at fields 3 val)
  | String c rest =>
      if isDigit c then
        if (digLen =? 1) && (val =? 0) then
          None (* IPv4 field has octet with leading zero *)
        else
          let val := val * 10 + (byte_of c - 48) in
          let digLen := digLen + 1 in
          if 255 <? val then None (* IPv4 field has value >255 *)
          else parseIPv4Fields_loop rest false false val pos digLen fields
      else if Ascii.eqb c "." then
        if first || String.eqb rest "" || prevDot then
          None (* IPv4 field must have at least one digit *)
        else if pos =? 3 then None (* IPv4 address too long *)
        else parseIPv4Fields_loop rest false true 0 (pos + 1) 0
                                  (set_at fields pos val)
      else None (* unexpected character *)
  end.

Definition parseIPv4Fields (s : string) : option (list Z) :=
  parseIPv4Fields_loop s true false 0 0 0 [0; 0; 0; 0].

Definition parseIPv4 (s : string) : option Addr :=
  match parseIPv4Fields s with
  | Some fields => Some (AddrFrom4 fields)
  | None => None
  end.

Definition hexval (c : ascii) : option Z :=
  let b := byte_of c in
  if (48 <=? b) && (b <=? 57) then Some (b - 48)
  else if (97 <=? b) && (b <=? 102) then Some (b - 97 + 10)
  else if (65 <=? b) && (b <=? 70) then Some (b - 65 + 10)
  else None.

(** The inner loop of [parseIPv6] reading one hex group: the number of
    digits read, their value and the rest of the string.  [acc] stays below
    [2^20], so its [uint32] never wraps. *)
Fixpoint scanHex (s : string) (off acc : Z) : option (Z * Z * string) :=
  match s with
  | EmptyString => Some (off, acc, s)
  | String c rest =>
      match hexval c with
      | None => Some (off, acc, s)
      | Some d =>
          let acc := Z.shiftl acc 4 + d in
          if 3 <? off then None (* each group must have 4 or less digits *)
          else if 0xffff <? acc then None (* IPv6 field has value >=2^16 *)
          else scanHex rest (off + 1) acc
      end
  end.

(** [ip[i:i+4]] receives the four fields of an embedded IPv4 address. *)
Definition put4 (ip : list Z) (i : Z) (f : list Z) : list Z :=
  set_at (set_at (set_at (set_at ip i (get_at f 0)) (i + 1) (get_at f 1))
                 (i + 2) (get_at f 2)) (i + 3) (get_at f 3).

(** The main loop of [parseIPv6], [for i < 16 { ... }]; [i] grows by two
    in every iteration that continues, so eight iterations exhaust it.
    The result is the state at the loop's exit: [(s, i, ellipsis, ip)]. *)
Fixpoint parseIPv6_loop (fuel : nat) (s : string) (i ellipsis : Z)
         (ip : list Z) : option (string * Z * Z * list Z) :=
  match fuel with
  | O => Some (s, i, ellipsis, ip)
  | S fuel =>
      if 16 <=? i then Some (s, i, ellipsis, ip)
      else
        match scanHex s 0 0 with
        | None => None
        | Some (off, acc, rest) =>
            if off =? 0 then
              None (* each colon-separated field must have a digit *)
            else if HasPrefix rest "." then
              if (ellipsis <? 0) && negb (i =? 12) then
                None (* embedded IPv4 must replace the final 2 fields *)
              else if 16 <? i + 4 then None (* too many hex fields *)
              else
                match parseIPv4Fields s with
                | None => None
                | Some f => Some ("", i + 4, ellipsis, put4 ip i f)
                end
            else
              let ip := set_at (set_at ip i (Z.shiftr acc 8))
                               (i + 1) (Z.land acc 0xff) in
              let i := i + 2 in
              match rest with
              | EmptyString => Some (rest, i, ellipsis, ip)
              | String c s1 =>
                  if negb (Ascii.eqb c ":") then
                    None (* unexpected character, want colon *)
                  else
                    match s1 with
                    | EmptyString =>
                        None (* colon must be followed by more characters *)
                    | String c1 s2 =>
                        if Ascii.eqb c1 ":" then
                          if 0 <=? ellipsis then
                            None (* multiple :: in address *)
                          else if String.eqb s2 "" then Some (s2, i, i, ip)
                          else parseIPv6_loop fuel s2 i i ip
                        else parseIPv6_loop fuel s1 i ellipsis ip
                    end
              end
        end
  end.

(** The expansion of the ellipsis: the [i - ellipsis] bytes parsed after it
    move to the end and [n = 16 - i] zero bytes fill the gap. *)
Definition expandEllipsis (ip : list Z) (i ellipsis : Z) : list Z :=
  let n := 16 - i in
  (firstn (Z.to_nat ellipsis) ip
   ++ repeat 0 (Z.to_nat n)
   ++ firstn (Z.to_nat (i - ellipsis)) (skipn (Z.to_nat ellipsis) ip))%list.

Definition parseIPv6 (input : string) : option Addr :=
  let split :=
    match cutByte "%" input with
    | Some (s, zn) => if String.eqb zn "" then None else Some (s, zn)
    | None => Some (input, "")
    end in
  match split with
  | None => None (* zone must be a non-empty string *)
  | Some (s, zn) =>
      let ip := repeat 0 16 in
      let lead := HasPrefix s "::" in
      let ellipsis := if lead then 0 else -1 in
      let s := if lead then String.substring 2 (String.length s - 2) s
               else s in
      if lead && String.eqb s "" then Some (WithZone IPv6Unspecified zn)
      else
        match parseIPv6_loop 8 s 0 ellipsis ip with
        | None => None
        | Some (s, i, ellipsis, ip) =>
            if negb (String.eqb s "") then
              None (* trailing garbage after address *)
            else if i <? 16 then
              if ellipsis <? 0 then None (* address string too short *)
              else Some (WithZone (AddrFrom16 (expandEllipsis ip i ellipsis))
                                  zn)
            else if 0 <=? ellipsis then
              None (* the :: must expand to at least one field of zeros *)
            else Some (WithZone (AddrFrom16 ip) zn)
        end
  end.

(** [ParseAddr]: the first of ['.'], [':'], ['%'] in [s] selects the
    parser. *)
Fixpoint ParseAddr_scan (rest s : string) : option Addr :=
  match rest with
  | EmptyString => None (* unable to parse IP *)
  | String c rest =>
      if Ascii.eqb c "." then parseIPv4 s
      else if Ascii.eqb c ":" then parseIPv6 s
      else if Ascii.eqb c "%" then None (* missing IPv6 address *)
      else ParseAddr_scan rest s
  end.

Definition ParseAddr (s : string) : option Addr := ParseAddr_scan s s.

(** *** Formatting *)

Definition digits (n : Z) : string :=
  String (char_of (if n <? 10 then 48 + n else 97 + (n - 10))) "".

Definition appendDecimal (b : string) (x : Z) : string :=
  let b := if 100 <=? x then b ++ digits (x / 100) else b in
  let b := if 10 <=? x then b ++ digits (x / 10 mod 10) else b in
  b ++ digits (x mod 10).

Definition appendHex (b : string) (x : Z) : string :=
  let b := if 0x1000 <=? x then b ++ digits (Z.shiftr x 12) else b in
  let b := if 0x100 <=? x then b ++ digits (Z.land (Z.shiftr x 8) 0xf)
           else b in
  let b := if 0x10 <=? x then b ++ digits (Z.land (Z.shiftr x 4) 0xf)
           else b in
  b ++ digits (Z.land x 0xf).

Definition v4 (ip : Addr) (i : Z) : Z :=
  Z.land (Z.shiftr (addr_lo ip) ((3 - i) * 8)) 0xff.

Definition v6u16 (ip : Addr) (i : Z) : Z :=
  let half := if (i / 4) mod 2 =? 0 then addr_hi ip else addr_lo ip in
  Z.land (Z.shiftr half ((3 - i mod 4) * 16)) 0xffff.

Definition appendTo4 (ret : string) (ip : Addr) : string :=
  let ret := appendDecimal ret (v4 ip 0) ++ "." in
  let ret := appendDecimal ret (v4 ip 1) ++ "." in
  let ret := appendDecimal ret (v4 ip 2) ++ "." in
  appendDecimal ret (v4 ip 3).

Definition appendZone (ret : string) (ip : Addr) : string :=
  if negb (zone_eqb (addr_z ip) z6noz) then ret ++ "%" ++ Zone ip else ret.

Definition appendTo4In6 (ret : string) (ip : Addr) : string :=
  let ret := ret ++ "::ffff:" in
  let ret := appendTo4 ret (Unmap ip) in
  appendZone ret ip.

(** The run of zero groups starting at [j]: the first index at or after
    [j] whose group is not zero. *)
Fixpoint zeroRunEnd (fuel : nat) (ip : Addr) (j : Z) : Z :=
  match fuel with
  | O => j
  | S fuel =>
      if (j <? 8) && (v6u16 ip j =? 0) then zeroRunEnd fuel ip (j + 1) else j
  end.

(** The first loop of [appendTo6]: the longest run of at least two zero
    groups, the earliest among equals; [(255, 255)] when there is none. *)
Fixpoint longestZeroRun (fuel : nat) (ip : Addr) (i zeroStart zeroEnd : Z)
  : Z * Z :=
  match fuel with
  | O => (zeroStart, zeroEnd)
  | S fuel =>
      let j := zeroRunEnd 8 ip i in
      let l := j - i in
      if (2 <=? l) && (zeroEnd - zeroStart <? l)
      then longestZeroRun fuel ip (i + 1) i j
      else longestZeroRun fuel ip (i + 1) zeroStart zeroEnd
  end.

(** The second loop of [appendTo6]. *)
Fixpoint appendGroups (fuel : nat) (ip : Addr) (zeroStart zeroEnd i : Z)
         (ret : string) : string :=
  match fuel with
  | O => ret
  | S fuel =>
      if 8 <=? i then ret
      else if i =? zeroStart then
        let ret := ret ++ "::" in
        let i := zeroEnd in
        if 8 <=? i then ret
        else appendGroups fuel ip zeroStart zeroEnd (i + 1)
                          (appendHex ret (v6u16 ip i))
      else
        let ret := if 0 <? i then ret ++ ":" else ret in
        appendGroups fuel ip zeroStart zeroEnd (i + 1)
                     (appendHex ret (v6u16 ip i))
  end.

Definition appendTo6 (ret : string) (ip : Addr) : string :=
  let '(zeroStart, zeroEnd) := longestZeroRun 8 ip 0 255 255 in
  appendZone (appendGroups 8 ip zeroStart zeroEnd 0 ret) ip.

(** [Addr.String]. *)
Definition String (ip : Addr) : string :=
  match addr_z ip with
  | z0 => "invalid IP"
  | z4 => appendTo4 "" ip
  | _ => if Is4In6 ip then appendTo4In6 "" ip else appendTo6 "" ip
  end.

End netip.

(** ** Package net *)

Module net.

(** [SplitHostPort]: [host:port], [[host]:port]; [None] is an [AddrError]
    (missing port, too many colons, a misplaced bracket). *)
Definition SplitHostPort (hostport : string) : option (string * string) :=
  match cutLastByte ":" hostport with
  | None => None (* missing port in address *)
  | Some (before, port) =>
      let i := len before in
      if HasPrefix hostport "[" then
        match cutByte "]" hostport with
        | None => None (* missing ']' in address *)
        | Some (upto, after) =>
            let end_ := len upto in
            if end_ + 1 =? len hostport then None (* missing port *)
            else if end_ + 1 =? i then
              let host := String.substring 1 (String.length upto - 1) upto in
              if containsByte "["
                   (String.substring 1 (String.length hostport - 1) hostport)
              then None (* unexpected '[' in address *)
              else if containsByte "]" after
              then None (* unexpected ']' in address *)
              else Some (host, port)
            else None (* too many colons, or missing port *)
        end
      else
        let host := before in
        if containsByte ":" host then None (* too many colons in address *)
        else if containsByte "[" hostport then None
        else if containsByte "]" hostport then None
        else Some (host, port)
  end.

End net.

(** ** Effects

    A handler acts on the world through calls: on its [ResponseWriter], on
    the logger, on the operating system.  The calls are recorded in order
    in a trace; [Go body] is a [go] statement, [body] being the trace of the
    goroutine it starts.  The operating system's state, as far as the code
    depends on it, is the [os] component. *)

Definition error : Type := option string.

#[warnings="-register-all"]
Inductive Event : Type :=
| Logf (format : string)
| HeaderDel (key : string)
| HeaderSet (key value : string)
| WriteHeader (code : Z)
| Write (data : string)
| Flush
| Called (fn : string)
| Sleep (ms : Z)
| Exec (argv : list string)
| Syscall (proc : string) (args : list Z)
| Go (body : list Event).

Record World (OS : Type) : Type := mkWorld { os : OS; trace : list Event }.
Arguments mkWorld {OS} _ _.
Arguments os {OS} _.
Arguments trace {OS} _.

Definition M (OS A : Type) : Type := World OS -> A * World OS.

Definition ret {OS A : Type} (a : A) : M OS A := fun w => (a, w).

Definition bind {OS A B : Type} (m : M OS A) (k : A -> M OS B) : M OS B :=
  fun w => let (a, w') := m w in k a w'.

Declare Scope go_scope.
Delimit Scope go_scope with go.
Notation "x <- m ;; k" := (bind m (fun x => k))
  (at level 61, m at next level, right associativity) : go_scope.
Notation "m ;; k" := (bind m (fun _ => k))
  (at level 61, right associativity) : go_scope.
Open Scope go_scope.

Definition emit {OS : Type} (e : Event) : M OS unit :=
  fun w => (tt, mkWorld (os w) (trace w ++ [e])%list).

Definition getOS {OS : Type} : M OS OS := fun w => (os w, w).

Definition putOS {OS : Type} (o : OS) : M OS unit :=
  fun w => (tt, mkWorld o (trace w)).

(** [go f()]: the goroutine starts from the present state of the system;
    what it does is recorded in the [Go] event, after everything the
    caller did before the statement. *)
Definition go {OS : Type} (f : M OS unit) : M OS unit :=
  fun w => (tt, mkWorld (os w)
                  (trace w ++ [Go (trace (snd (f (mkWorld (os w) []))))])%list).

Definition exec {OS : Type} (m : M OS unit) (w : World OS) : World OS :=
  snd (m w).

Definition nl : string := String "010"%char "".

(** ** Package path *)

Module path.

(** The backtracking of [Clean] at a [..] element: [out.w--], then
    [for out.w > dotdot && out.index(out.w) != '/' { out.w-- }]; the new
    length of the buffer. *)
Fixpoint backtrack (out : string) (dotdot : nat) (w : nat) : nat :=
  match w with
  | O => O
  | S w' =>
      if (dotdot <? w)%nat
         && negb (match String.get w out with
                  | Some c => Ascii.eqb c "/"
                  | None => false
                  end)
      then backtrack out dotdot w'
      else w
  end.

(** A path element and what follows it: the bytes before the next slash,
    and the rest from that slash on. *)
Fixpoint element (s : string) : string * string :=
  match s with
  | EmptyString => ("", "")
  | String c rest =>
      if Ascii.eqb c "/" then ("", s)
      else let (e, r) := element rest in (String c e, r)
  end.

(** Whether [s] is at its end or at a slash: [r == n || path[r] == '/']. *)
Definition atBoundary (s : string) : bool :=
  match s with
  | EmptyString => true
  | String c _ => Ascii.eqb c "/"
  end.

(** The loop of [Clean]: [rest] is [path[r:]], [out] the buffer written so
    far.  Every turn reads at least one byte, so as many turns as [path]
    has bytes are enough. *)
Fixpoint Clean_loop (turns : nat) (rooted : bool) (rest out : string)
         (dotdot : nat) : string :=
  match turns with
  | O => out
  | S turns =>
      match rest with
      | EmptyString => out
      | String c rest1 =>
          if Ascii.eqb c "/" then
            (* empty path element *)
            Clean_loop turns rooted rest1 out dotdot
          else if Ascii.eqb c "." && atBoundary rest1 then
            (* . element *)
            Clean_loop turns rooted rest1 out dotdot
          else
            match rest1 with
            | String c1 rest2 =>
                if Ascii.eqb c "." && Ascii.eqb c1 "." && atBoundary rest2
                then
                  (* .. element: remove to last / *)
                  if (dotdot <? String.length out)%nat then
                    let w := backtrack out dotdot (String.length out - 1) in
                    Clean_loop turns rooted rest2 (substring 0 w out) dotdot
                  else if negb rooted then
                    let out := if (0 <? String.length out)%nat
                               then out ++ "/" else out in
                    let out := out ++ ".." in
                    Clean_loop turns rooted rest2 out (String.length out)
                  else Clean_loop turns rooted rest2 out dotdot
                else
                  (* real path element *)
                  let out :=
                    if rooted && negb (String.length out =? 1)%nat
                       || negb rooted && negb (String.length out =? 0)%nat
                    then out ++ "/" else out in
                  let (e, r) := element rest in
                  Clean_loop turns rooted r (out ++ e) dotdot
            | EmptyString =>
                (* real path element *)
                let out :=
                  if rooted && negb (String.length out =? 1)%nat
                     || negb rooted && negb (String.length out =? 0)%nat
                  then out ++ "/" else out in
                let (e, r) := element rest in
                Clean_loop turns rooted r (out ++ e) dotdot
            end
      end
  end.

(** [path.Clean]. *)
Definition Clean (p : string) : string :=
  match p with
  | EmptyString => "."
  | String c rest =>
      let rooted := Ascii.eqb c "/" in
      let out :=
        if rooted
        then Clean_loop (String.length p) rooted rest "/" 1
        else Clean_loop (String.length p) rooted p "" 0 in
      if (String.length out =? 0)%nat then "." else out
  end.

End path.

(** ** Package net/http *)

Module http.

Definition MethodGet : string := "GET".
Definition MethodPost : string := "POST".

Definition StatusOK : Z := 200.
Definition StatusForbidden : Z := 403.
Definition StatusNotFound : Z := 404.
Definition StatusMethodNotAllowed : Z := 405.
Definition StatusInternalServerError : Z := 500.

(** [url.Values], the parsed query: keys with their values. *)
Definition Values : Type := list (string * list string).

(** [Values.Get]: the first value of the key, [""] when there is none. *)
Fixpoint Get (v : Values) (key : string) : string :=
  match v with
  | [] => ""
  | (k, vs) :: rest =>
      if String.eqb k key then match vs with x :: _ => x | [] => "" end
      else Get rest key
  end.

(** The fields of [*http.Request] the handlers read; [Path] is
    [r.URL.Path]. *)
Record Request : Type := mkRequest {
  Method : string;
  Path : string;
  Query : Values;
  RemoteAddr : string
}.

(** What a handler can find out about its [ResponseWriter] besides
    calling it: whether it implements [http.Flusher]. *)
Record ResponseWriter : Type := mkResponseWriter { isFlusher : bool }.

(** The [ResponseWriter] of net/http's server; it implements
    [http.Flusher]. *)
Definition response : ResponseWriter := mkResponseWriter true.

Definition HandlerFunc (OS : Type) : Type :=
  ResponseWriter -> Request -> M OS unit.

(** [fmt.Fprintf(w, ...)] with the text already formatted. *)
Definition Fprintf {OS : Type} (text : string) : M OS unit :=
  emit (Write text).

(** [http.Error(w, error, code)]. *)
Definition Error {OS : Type} (msg : string) (code : Z) : M OS unit :=
  emit (HeaderDel "Content-Length") ;;
  emit (HeaderSet "Content-Type" "text/plain; charset=utf-8") ;;
  emit (HeaderSet "X-Content-Type-Options" "nosniff") ;;
  emit (WriteHeader code) ;;
  emit (Write (msg ++ nl)).

Definition NotFound {OS : Type} : HandlerFunc OS :=
  fun _ _ => Error "404 page not found" StatusNotFound.

(** The status line the client receives: the code of the first
    [WriteHeader], or 200 when the body is written, the response is
    flushed or the handler returns before any. *)
Fixpoint statusOf (t : list Event) : Z :=
  match t with
  | [] => StatusOK
  | WriteHeader code :: _ => code
  | Write _ :: _ => StatusOK
  | Flush :: _ => StatusOK
  | _ :: t => statusOf t
  end.

(** The body the client receives: the data of the [Write]s in order. *)
Fixpoint bodyOf (t : list Event) : string :=
  match t with
  | [] => ""
  | Write data :: t => data ++ bodyOf t
  | _ :: t => bodyOf t
  end.

(** [ServeMux]: the registered patterns with their handlers. *)
Definition ServeMux (OS : Type) : Type := list (string * HandlerFunc OS).

Definition NewServeMux {OS : Type} : ServeMux OS := [].

Definition HandleFunc {OS : Type} (mux : ServeMux OS) (pattern : string)
           (handler : HandlerFunc OS) : ServeMux OS :=
  (mux ++ [(pattern, handler)])%list.

Fixpoint endsWithSlash (s : string) : bool :=
  match s with
  | EmptyString => false
  | String c EmptyString => Ascii.eqb c "/"
  | String _ rest => endsWithSlash rest
  end.

(** A pattern that ends in a slash matches the paths below it, any other
    pattern matches one path. *)
Definition patternMatches (pattern path : string) : bool :=
  if endsWithSlash pattern then HasPrefix path pattern
  else String.eqb path pattern.

(** Of the patterns that match, the most specific wins: the longest. *)
Fixpoint findHandler {OS : Type} (mux : ServeMux OS) (path : string)
         (best : option (string * HandlerFunc OS))
  : option (string * HandlerFunc OS) :=
  match mux with
  | [] => best
  | (pattern, h) :: rest =>
      if patternMatches pattern path then
        match best with
        | Some (p, _) =>
            if len p <? len pattern then findHandler rest path (Some (pattern, h))
            else findHandler rest path best
        | None => findHandler rest path (Some (pattern, h))
        end
      else findHandler rest path best
  end.

(** [cleanPath]: the canonical form of a URL path, with its trailing
    slash kept. *)
Definition cleanPath (p : string) : string :=
  match p with
  | EmptyString => "/"
  | String c _ =>
      let p := if Ascii.eqb c "/" then p else ("/" ++ p)%string in
      let np := path.Clean p in
      if endsWithSlash p && negb (String.eqb np "/") then
        if (String.length p =? String.length np + 1)%nat && HasPrefix p np
        then p
        else (np ++ "/")%string
      else np
  end.

(** [ServeMux.ServeHTTP] for a request whose path is in canonical form,
    [cleanPath (Path r) = Path r]: dispatch to the handler of the matching
    pattern, 404 when none matches.  A request whose path is not in that
    form is answered by [ServeMux] itself, with a redirect to the cleaned
    path and without a handler being called; that answer is not modelled,
    and what is proved of [ServeHTTP] is proved of canonical paths. *)
Definition ServeHTTP {OS : Type} (mux : ServeMux OS) : HandlerFunc OS :=
  fun w r =>
    match findHandler mux (Path r) None with
    | Some (_, h) => h w r
    | None => NotFound w r
    end.

End http.

(** ** metrics.go *)

(** [float64], as far as the code computes with it: conversion from an
    unsigned integer (the constants [0] and [100] included), division and
    multiplication. *)
Class Float64 (F : Type) : Type := {
  of_uint64 : Z -> F;
  fdiv : F -> F -> F;
  fmul : F -> F -> F
}.

(** IEEE 754 binary64 with rounding to nearest, ties to even: what Go's
    [float64] computes. *)
Definition ieee64 : Float64 spec_float := {|
  of_uint64 n := binary_normalize 53 1024 n 0 false;
  fdiv := SFdiv 53 1024;
  fmul := SFmul 53 1024
|}.

(** The expression of the design document, [100 * (1 - idle_delta /
    total_delta)], evaluated in binary64 as it is written: the quotient,
    the difference and the product are each rounded.  The samplers
    compute another expression; this one is only compared with theirs. *)
Definition formula64 (dTotal dIdle : Z) : spec_float :=
  SFmul 53 1024 (@of_uint64 spec_float ieee64 100)
        (SFsub 53 1024 (@of_uint64 spec_float ieee64 1)
               (SFdiv 53 1024 (@of_uint64 spec_float ieee64 dIdle)
                      (@of_uint64 spec_float ieee64 dTotal))).

(** The binary64 values that are numbers with the sign bit clear: +0, the
    positive finite numbers and +infinity. *)
Definition nonnegative64 (f : spec_float) : bool :=
  match f with
  | S754_zero false | S754_infinity false | S754_finite false _ _ => true
  | _ => false
  end.

Section Metrics.

Context {F : Type} `{Float64 F}.

(** [type SystemMetrics struct]. *)
Record SystemMetrics : Type := mkSystemMetrics {
  CPUPercent : F;
  MemoryUsed : Z;
  MemoryTotal : Z;
  MemoryPercent : F;
  DiskUsed : Z;
  DiskTotal : Z;
  DiskPercent : F;
  NetworkBytesSent : Z;
  NetworkBytesRecv : Z;
  UptimeSeconds : Z
}.

(** [&SystemMetrics{}]: every field at its zero value. *)
Definition zeroMetrics : SystemMetrics :=
  mkSystemMetrics (of_uint64 0) 0 0 (of_uint64 0) 0 0 (of_uint64 0) 0 0 0.

End Metrics.

Arguments SystemMetrics F : clear implicits.

(** ** web.go *)

(** The peer-roster collaborator, [*ipnlocal.LocalBackend], as the gate
    consumes it: [StatusWithoutPeers()] returns a status whose [Self] may
    be nil and otherwise lists the node's own addresses. *)
Record PeerStatus : Type := mkPeerStatus { TailscaleIPs : list netip.Addr }.
Record Status : Type := mkStatus { Self : option PeerStatus }.
Record LocalBackend : Type := mkLocalBackend { StatusWithoutPeers : Status }.

(** [type Server struct]; [logf] is the [Logf] event. *)
Record Server : Type := mkServer { addr : string; lb : option LocalBackend }.

(** [New(logf, addr)]. *)
Definition New (addr : string) : Server := mkServer addr None.

(** [SetLocalBackend]. *)
Definition SetLocalBackend (s : Server) (b : LocalBackend) : Server :=
  mkServer (addr s) (Some b).

(** [isLocalhost]. *)
Definition isLocalhost (ip : string) : bool :=
  String.eqb ip "127.0.0.1" || String.eqb ip "::1" || String.eqb ip "localhost".

(** [isTailscaleIP].  [As4] is called on IPv4 addresses only, where it
    does not panic. *)
Definition isTailscaleIP (a : netip.Addr) : bool :=
  if netip.Is4 a then
    match netip.As4 a with
    | Some bytes =>
        (get_at bytes 0 =? 100) && (Z.land (get_at bytes 1) 0xC0 =? 64)
    | None => false
    end
  else if netip.Is6 a then
    let str := netip.String a in
    HasPrefix str "fd7a:115c:a1e0:"
  else false.

(** The client IP of [requireTailscale]: [r.RemoteAddr] without its port
    when [net.SplitHostPort] accepts it, [r.RemoteAddr] as it is
    otherwise. *)
Definition clientIPOf (remoteAddr : string) : string :=
  match net.SplitHostPort remoteAddr with
  | Some (host, _) => host
  | None => remoteAddr
  end.

(** The roster check of [requireTailscale]: with a backend whose status
    has a [Self], whether one of [Self.TailscaleIPs] is equal to [a]. *)
Definition isOwnTailscaleIP (s : Server) (a : netip.Addr) : bool :=
  match lb s with
  | Some b =>
      match Self (StatusWithoutPeers b) with
      | Some self => existsb (fun ip => netip.Addr_eqb ip a) (TailscaleIPs self)
      | None => false
      end
  | None => false
  end.

(** [%d] of an unsigned integer. *)
Definition itoa (n : Z) : string :=
  DecimalString.NilZero.string_of_uint (N.to_uint (Z.to_N n)).

Section Web.

Context {F : Type} `{Float64 F}.

(** The operating system under the server: [os.Hostname()], the metrics
    collector [GetSystemMetrics()] and the shutdown actuator
    [ShutdownSystem(force)] of the platform the binary is built for, and
    [%.2f] of a [float64]. *)
Variable OS : Type.
Variable Hostname : OS -> string * error.
Variable GetSystemMetrics : M OS (SystemMetrics F * error).
Variable ShutdownSystem : bool -> M OS error.
Variable fmt2f : F -> string.

Definition logf (format : string) : M OS unit := emit (Logf format).

(** [requireTailscale]. *)
Definition requireTailscale (s : Server) (next : http.HandlerFunc OS)
  : http.HandlerFunc OS :=
  fun w r =>
    let clientIP := clientIPOf (http.RemoteAddr r) in
    if isLocalhost clientIP then next w r
    else
      match netip.ParseAddr clientIP with
      | None =>
          logf "Invalid client IP %s: %v" ;;
          http.Error "Forbidden" http.StatusForbidden
      | Some a =>
          if isTailscaleIP a then next w r
          else if isOwnTailscaleIP s a then next w r
          else
            logf "Blocked request from non-Tailscale IP: %s" ;;
            http.Error "Forbidden: Only accessible from Tailscale network"
                       http.StatusForbidden
      end.

(** [handleRoot]. *)
Definition handleRoot (s : Server) : http.HandlerFunc OS :=
  fun w r =>
    if negb (String.eqb (http.Method r) http.MethodGet) then
      http.Error "Method not allowed" http.StatusMethodNotAllowed
    else
      o <- getOS ;;
      let (hostname, err) := Hostname o in
      hostname <- match err with
                  | Some _ =>
                      logf "Failed to get hostname: %v" ;; ret "unknown"
                  | None => ret hostname
                  end ;;
      emit (HeaderSet "Content-Type" "text/plain") ;;
      http.Fprintf ("hostname: " ++ hostname ++ nl).

Fixpoint FprintfAll (texts : list string) : M OS unit :=
  match texts with
  | [] => ret tt
  | t :: rest => http.Fprintf t ;; FprintfAll rest
  end.

Definition gauge (name help value : string) (last : bool) : list string :=
  [ "# HELP " ++ name ++ " " ++ help ++ nl;
    "# TYPE " ++ name ++ " gauge" ++ nl;
    name ++ " " ++ value ++ nl ++ (if last then "" else nl) ].

Definition counter (name help value : string) (last : bool) : list string :=
  [ "# HELP " ++ name ++ " " ++ help ++ nl;
    "# TYPE " ++ name ++ " counter" ++ nl;
    name ++ " " ++ value ++ nl ++ (if last then "" else nl) ].

(** [handleMetrics]. *)
Definition handleMetrics (s : Server) : http.HandlerFunc OS :=
  fun w r =>
    if negb (String.eqb (http.Method r) http.MethodGet) then
      http.Error "Method not allowed" http.StatusMethodNotAllowed
    else
      emit (Called "GetSystemMetrics") ;;
      res <- GetSystemMetrics ;;
      let (metrics, err) := res : SystemMetrics F * error in
      match err with
      | Some e =>
          logf "Failed to get metrics: %v" ;;
          http.Error ("Failed to get metrics: " ++ e)
                     http.StatusInternalServerError
      | None =>
          emit (HeaderSet "Content-Type" "text/plain; version=0.0.4") ;;
          FprintfAll
            (gauge "system_cpu_usage_percent" "CPU usage percentage"
                   (fmt2f (CPUPercent metrics)) false
             ++ gauge "system_memory_used_bytes" "Memory used in bytes"
                      (itoa (MemoryUsed metrics)) false
             ++ gauge "system_memory_total_bytes" "Total memory in bytes"
                      (itoa (MemoryTotal metrics)) false
             ++ gauge "system_memory_usage_percent" "Memory usage percentage"
                      (fmt2f (MemoryPercent metrics)) false
             ++ gauge "system_disk_used_bytes" "Disk used in bytes"
                      (itoa (DiskUsed metrics)) false
             ++ gauge "system_disk_total_bytes" "Total disk space in bytes"
                      (itoa (DiskTotal metrics)) false
             ++ gauge "system_disk_usage_percent" "Disk usage percentage"
                      (fmt2f (DiskPercent metrics)) false
             ++ counter "system_network_bytes_sent" "Network bytes sent"
                        (itoa (NetworkBytesSent metrics)) false
             ++ counter "system_network_bytes_recv" "Network bytes received"
                        (itoa (NetworkBytesRecv metrics)) false
             ++ counter "system_uptime_seconds" "System uptime in seconds"
                        (itoa (UptimeSeconds metrics)) true)%list
      end.

(** [handleShutdown]. *)
Definition handleShutdown (s : Server) : http.HandlerFunc OS :=
  fun w r =>
    if negb (String.eqb (http.Method r) http.MethodPost) then
      http.Error "Method not allowed (use POST)" http.StatusMethodNotAllowed
    else
      let force := String.eqb (http.Get (http.Query r) "force") "true" in
      let shutdownType := if force then "forced" else "graceful" in
      logf "Shutdown requested via web API (%s)" ;;
      emit (HeaderSet "Content-Type" "text/plain") ;;
      http.Fprintf ("Shutdown initiated (" ++ shutdownType ++ ")..." ++ nl) ;;
      (if http.isFlusher w then emit Flush else ret tt) ;;
      go (err <- ShutdownSystem force ;;
          match err with
          | Some _ => logf "Shutdown failed: %v"
          | None => ret tt
          end).

(** [Server.Start]: the mux that the [http.Server] it starts serves. *)
Definition Start (s : Server) : http.ServeMux OS :=
  let mux := http.NewServeMux in
  let mux := http.HandleFunc mux "/" (requireTailscale s (handleRoot s)) in
  let mux := http.HandleFunc mux "/metrics"
                             (requireTailscale s (handleMetrics s)) in
  let mux := http.HandleFunc mux "/shutdown"
                             (requireTailscale s (handleShutdown s)) in
  mux.

(** One request through the server of [Start], from a world in which
    nothing has been written yet. *)
Definition serve (s : Server) (r : http.Request) (o : OS) : World OS :=
  exec (http.ServeHTTP (Start s) http.response r) (mkWorld o []).

End Web.

(** ** Unsigned arithmetic and time *)

(** A result of [uint64] arithmetic, reduced modulo [2^64]. *)
Definition u64 (n : Z) : Z := n mod 2 ^ 64.

(** [time.Time]: the zero value or an instant; [time.Now()] returns an
    instant. *)
Inductive Time : Type :=
| zeroTime
| instant (ns : Z).

Definition IsZero (t : Time) : bool :=
  match t with zeroTime => true | instant _ => false end.

(** [time.Sleep(d)], [d] in milliseconds. *)
Definition time_Sleep {OS : Type} (ms : Z) : M OS unit := emit (Sleep ms).

(** The outcome of every command the process may run:
    [exec.Command(argv...).Run()]. *)
Definition Commands : Type := list string -> error.

Definition Run (argv : list string) : M Commands error :=
  fun w => (os w argv, mkWorld (os w) (trace w ++ [Exec argv])%list).

(** ** Packages strings and strconv *)

Module strings.

(** The table [asciiSpace]: tab, line feed, vertical tab, form feed,
    carriage return, space. *)
Definition isAsciiSpace (c : ascii) : bool :=
  let b := byte_of c in
  (b =? 9) || (b =? 10) || (b =? 11) || (b =? 12) || (b =? 13) || (b =? 32).

(** The width in bytes of the white-space rune at the head of [s], 0 when
    there is none: an ASCII space, or the UTF-8 encoding of one of the
    other runes of [unicode.IsSpace], U+0085, U+00A0, U+1680, U+2000 to
    U+200A, U+2028, U+2029, U+202F, U+205F, U+3000.  Their first bytes are
    never continuation bytes, so they are found wherever they stand. *)
Definition spaceWidth (s : string) : nat :=
  match s with
  | EmptyString => 0%nat
  | String c rest =>
      if isAsciiSpace c then 1%nat
      else
        match rest with
        | EmptyString => 0%nat
        | String d rest' =>
            let b0 := byte_of c in
            let b1 := byte_of d in
            if (b0 =? 0xC2) && ((b1 =? 0x85) || (b1 =? 0xA0)) then 2%nat
            else
              match rest' with
              | EmptyString => 0%nat
              | String e _ =>
                  let b2 := byte_of e in
                  if (b0 =? 0xE1) && (b1 =? 0x9A) && (b2 =? 0x80) then 3%nat
                  else if (b0 =? 0xE2) && (b1 =? 0x80)
                          && (((0x80 <=? b2) && (b2 <=? 0x8A))
                              || (b2 =? 0xA8) || (b2 =? 0xA9) || (b2 =? 0xAF))
                  then 3%nat
                  else if (b0 =? 0xE2) && (b1 =? 0x81) && (b2 =? 0x9F)
                  then 3%nat
                  else if (b0 =? 0xE3) && (b1 =? 0x80) && (b2 =? 0x80)
                  then 3%nat
                  else 0%nat
              end
        end
  end.

(** A field that has ended joins the fields found, unless it is empty. *)
Definition endField (field : string) (found : list string) : list string :=
  if String.eqb field "" then found else field :: found.

(** The scan of [Fields]: [skip] bytes of a white-space rune remain to be
    passed, [field] is the field being read, [found] the fields found so
    far, last first. *)
Fixpoint Fields_loop (s : string) (skip : nat) (field : string)
         (found : list string) : list string :=
  match s with
  | EmptyString => rev (endField field found)
  | String c rest =>
      match skip with
      | S k => Fields_loop rest k field found
      | O =>
          match spaceWidth s with
          | O => Fields_loop rest 0 (field ++ String c "") found
          | S k => Fields_loop rest k "" (endField field found)
          end
      end
  end.

(** [strings.Fields(s)]: the maximal runs of bytes between white space. *)
Definition Fields (s : string) : list string := Fields_loop s 0 "" [].

(** [strings.HasSuffix(s, suffix)]. *)
Definition HasSuffix (s suffix : string) : bool :=
  let n := String.length s in
  let m := String.length suffix in
  (m <=? n)%nat && String.eqb (substring (n - m) m s) suffix.

(** [strings.TrimSuffix(s, suffix)]. *)
Definition TrimSuffix (s suffix : string) : string :=
  if HasSuffix s suffix
  then substring 0 (String.length s - String.length suffix) s
  else s.

(** The scan of [Split] for a separator of one byte: [piece] is the piece
    being read. *)
Fixpoint Split_loop (sep : ascii) (s : string) (piece : string)
  : list string :=
  match s with
  | EmptyString => [piece]
  | String c rest =>
      if Ascii.eqb c sep then piece :: Split_loop sep rest ""
      else Split_loop sep rest (piece ++ String c "")
  end.

(** [strings.Split(s, sep)] for a separator [sep] of one byte: the pieces
    of [s] between the separators, one more than there are separators. *)
Definition Split (s : string) (sep : ascii) : list string :=
  Split_loop sep s "".

(** The search of [Index]: [i] is the index of the head of [s] in the
    text. *)
Fixpoint Index_loop (s substr : string) (i : Z) : Z :=
  if String.prefix substr s then i
  else
    match s with
    | EmptyString => -1
    | String _ rest => Index_loop rest substr (i + 1)
    end.

(** [strings.Index(s, substr)]: the index of the first instance of
    [substr] in [s], or -1. *)
Definition Index (s substr : string) : Z := Index_loop s substr 0.

End strings.

Module strconv.

Definition maxUint64 : Z := 2 ^ 64 - 1.

(** The loop of [ParseUint(s, 10, 64)] over the bytes of [s]; [cutoff] is
    [maxUint64/10 + 1]. *)
Fixpoint ParseUint_loop (s : string) (n : Z) : Z * error :=
  match s with
  | EmptyString => (n, None)
  | String c rest =>
      if (48 <=? byte_of c) && (byte_of c <=? 57) then
        let d := byte_of c - 48 in
        if maxUint64 / 10 + 1 <=? n then
          (maxUint64, Some "value out of range")
        else
          let n := n * 10 in
          let n1 := (n + d) mod 2 ^ 64 in
          if (n1 <? n) || (maxUint64 <? n1) then
            (maxUint64, Some "value out of range")
          else ParseUint_loop rest n1
      else (0, Some "invalid syntax")
  end.

(** [strconv.ParseUint(s, 10, 64)]: the value and the error; 0 with a
    syntax error, the largest [uint64] with a range error. *)
Definition ParseUint (s : string) : Z * error :=
  if String.eqb s "" then (0, Some "invalid syntax") else ParseUint_loop s 0.

(** [strconv.ParseInt(s, 10, 64)]: an optional sign, then [ParseUint]; the
    value is an [int64]. *)
Definition ParseInt (s : string) : Z * error :=
  match s with
  | EmptyString => (0, Some "invalid syntax")
  | String c rest =>
      let neg := Ascii.eqb c "-" in
      let s := if Ascii.eqb c "+" || neg then rest else s in
      let (un, err) := ParseUint s in
      match err with
      | Some "invalid syntax" => (0, err)
      | _ =>
          let cutoff := 2 ^ 63 in
          if negb neg && (cutoff <=? un) then
            (cutoff - 1, Some "value out of range")
          else if neg && (cutoff <? un) then
            (- cutoff, Some "value out of range")
          else (if neg then - un else un, None)
      end
  end.

End strconv.

(** ** metrics_linux.go, shutdown_linux.go *)

Module Linux.

(** [type cpuStats struct]. *)
Record cpuStats : Type := mkCpuStats {
  user : Z;
  nice : Z;
  system : Z;
  idle : Z;
  iowait : Z;
  irq : Z;
  total : Z;
  time : Time
}.

(** [var lastCPUStats cpuStats] when the process starts. *)
Definition zeroStats : cpuStats := mkCpuStats 0 0 0 0 0 0 0 zeroTime.

(** What [getCPUUsage] gets from /proc/stat: an error (the file cannot be
    opened or is empty, its first line does not start with ["cpu "] or has
    fewer than eight fields), or fields 1 to 6 of the line as
    [strconv.ParseUint] returns them, each a [uint64]. *)
Inductive ProcStat : Type :=
| ReadError (err : string)
| Fields (user nice system idle iowait irq : Z).

Section Sampler.

Context {F : Type} `{Float64 F}.

(** [getCPUUsage], with the global [lastCPUStats] passed in and out. *)
Definition getCPUUsage (read : ProcStat) (now : Time) (lastCPUStats : cpuStats)
  : (F * error) * cpuStats :=
  match read with
  | ReadError err => ((of_uint64 0, Some err), lastCPUStats)
  | Fields fuser fnice fsystem fidle fiowait firq =>
      let stats :=
        mkCpuStats fuser fnice fsystem fidle fiowait firq
                   (u64 (fuser + fnice + fsystem + fidle + fiowait + firq))
                   now in
      if 0 <? total lastCPUStats then
        let totalDelta := u64 (total stats - total lastCPUStats) in
        let idleDelta := u64 (idle stats - idle lastCPUStats) in
        if 0 <? totalDelta then
          let usage :=
            fmul (fdiv (of_uint64 (u64 (totalDelta - idleDelta)))
                       (of_uint64 totalDelta))
                 (of_uint64 100) in
          ((usage, None), stats)
        else ((of_uint64 0, None), stats)
      else ((of_uint64 0, None), stats)
  end.

End Sampler.

(** What a function gets from a file it reads line by line: the error of
    [os.Open], or the lines [bufio.Scanner] yields, in order. *)
Inductive FileRead : Type :=
| OpenError (err : string)
| Lines (lines : list string).

(** The first part of [getCPUUsage]: what it gets from /proc/stat, read
    as a file.  The numbers are parsed with their errors dropped. *)
Definition readProcStat (file : FileRead) : ProcStat :=
  match file with
  | OpenError err => ReadError err
  | Lines [] => ReadError "failed to read /proc/stat"
  | Lines (line :: _) =>
      if negb (HasPrefix line "cpu ") then
        ReadError "unexpected /proc/stat format"
      else
        let fields := strings.Fields line in
        if (List.length fields <? 8)%nat then
          ReadError "insufficient fields in /proc/stat"
        else
          Fields (fst (strconv.ParseUint (nth 1 fields "")))
                 (fst (strconv.ParseUint (nth 2 fields "")))
                 (fst (strconv.ParseUint (nth 3 fields "")))
                 (fst (strconv.ParseUint (nth 4 fields "")))
                 (fst (strconv.ParseUint (nth 5 fields "")))
                 (fst (strconv.ParseUint (nth 6 fields "")))
  end.

(** The variables of [getMemoryUsage]: [total], [memFree], [memAvailable],
    [buffers], [cached]. *)
Record meminfo : Type := mkMeminfo {
  memTotal : Z;
  memFree : Z;
  memAvailable : Z;
  buffers : Z;
  cached : Z
}.

(** The body of the loop of [getMemoryUsage] for one line. *)
Definition meminfoLine (m : meminfo) (line : string) : meminfo :=
  let fields := strings.Fields line in
  match fields with
  | key :: field1 :: _ =>
      let value := fst (strconv.ParseUint field1) in
      let value := u64 (value * 1024) in
      if String.eqb key "MemTotal:" then
        mkMeminfo value (memFree m) (memAvailable m) (buffers m) (cached m)
      else if String.eqb key "MemFree:" then
        mkMeminfo (memTotal m) value (memAvailable m) (buffers m) (cached m)
      else if String.eqb key "MemAvailable:" then
        mkMeminfo (memTotal m) (memFree m) value (buffers m) (cached m)
      else if String.eqb key "Buffers:" then
        mkMeminfo (memTotal m) (memFree m) (memAvailable m) value (cached m)
      else if String.eqb key "Cached:" then
        mkMeminfo (memTotal m) (memFree m) (memAvailable m) (buffers m) value
      else m
  | _ => m (* len(fields) < 2 *)
  end.

(** [getMemoryUsage]: [(used, total, err)], from /proc/meminfo. *)
Definition getMemoryUsage (file : FileRead) : Z * Z * error :=
  match file with
  | OpenError err => (0, 0, Some err)
  | Lines lines =>
      let m := fold_left meminfoLine lines (mkMeminfo 0 0 0 0 0) in
      let total := memTotal m in
      let used :=
        if 0 <? memAvailable m then u64 (total - memAvailable m)
        else u64 (u64 (u64 (total - memFree m) - buffers m) - cached m) in
      (used, total, None)
  end.

(** What [syscall.Statfs("/", &stat)] returns: an error, or the fields of
    [stat] the code reads; [Bsize] is an [int64]. *)
Inductive Statfs : Type :=
| StatfsError (err : string)
| StatfsOk (Blocks Bavail Bsize : Z).

(** [getDiskUsage]: [(used, total, err)]. *)
Definition getDiskUsage (stat : Statfs) : Z * Z * error :=
  match stat with
  | StatfsError err => (0, 0, Some err)
  | StatfsOk Blocks Bavail Bsize =>
      let total := u64 (Blocks * u64 Bsize) in
      let free := u64 (Bavail * u64 Bsize) in
      let used := u64 (total - free) in
      (used, total, None)
  end.

(** The body of the loop of [getNetworkStats] for one line: [(sent,
    recv)]. *)
Definition netdevLine (totals : Z * Z) (line : string) : Z * Z :=
  let (sent, recv) := totals in
  let fields := strings.Fields line in
  if (List.length fields <? 10)%nat then totals
  else if HasPrefix (nth 0 fields "") "lo:" then totals
  else
    let (r, rerr) := strconv.ParseUint (nth 1 fields "") in
    let recv := match rerr with None => u64 (recv + r) | Some _ => recv end in
    let (s, serr) := strconv.ParseUint (nth 9 fields "") in
    let sent := match serr with None => u64 (sent + s) | Some _ => sent end in
    (sent, recv).

(** [getNetworkStats]: [(sent, recv, err)], from /proc/net/dev; the first
    two lines are the header. *)
Definition getNetworkStats (file : FileRead) : Z * Z * error :=
  match file with
  | OpenError err => (0, 0, Some err)
  | Lines lines =>
      let (sent, recv) := fold_left netdevLine (skipn 2 lines) (0, 0) in
      (sent, recv, None)
  end.

Section Collector.

Context {F : Type} `{Float64 F}.

(** [strconv.ParseFloat(s, 64)] and the conversion [uint64(f)] of its
    result, which [getUptime] applies to the first field of /proc/uptime. *)
Variable ParseFloat : string -> F * error.
Variable uint64_of_float : F -> Z.

(** [getUptime]. *)
Definition getUptime (file : FileRead) : Z * error :=
  match file with
  | OpenError err => (0, Some err)
  | Lines [] => (0, Some "failed to read /proc/uptime")
  | Lines (text :: _) =>
      match strings.Fields text with
      | [] => (0, Some "unexpected /proc/uptime format")
      | field0 :: _ =>
          let (uptime, err) := ParseFloat field0 in
          match err with
          | Some e => (0, Some e)
          | None => (uint64_of_float uptime, None)
          end
      end
  end.

(** What the collector reads in one call. *)
Record Proc : Type := mkProc {
  stat : ProcStat;
  now : Time;
  meminfoFile : FileRead;
  rootfs : Statfs;
  netdev : FileRead;
  uptimeFile : FileRead
}.

Definition isNil (e : error) : bool :=
  match e with None => true | Some _ => false end.

(** [getSystemMetrics], with the global [lastCPUStats] passed in and out.
    [metrics] starts as [&SystemMetrics{}] and is assigned field by
    field. *)
Definition getSystemMetrics (p : Proc) (lastCPUStats : cpuStats)
  : (SystemMetrics F * error) * cpuStats :=
  let metrics := zeroMetrics in
  (* Get CPU usage *)
  let '((cpu, err), lastCPUStats) := getCPUUsage (stat p) (now p) lastCPUStats in
  let mCPUPercent := if isNil err then cpu else CPUPercent metrics in
  (* Get memory usage *)
  let '(memUsed, memTotal, err) := getMemoryUsage (meminfoFile p) in
  let mMemoryUsed := if isNil err then memUsed else MemoryUsed metrics in
  let mMemoryTotal := if isNil err then memTotal else MemoryTotal metrics in
  let mMemoryPercent :=
    if isNil err && (0 <? memTotal)
    then fmul (fdiv (of_uint64 memUsed) (of_uint64 memTotal)) (of_uint64 100)
    else MemoryPercent metrics in
  (* Get disk usage *)
  let '(diskUsed, diskTotal, err) := getDiskUsage (rootfs p) in
  let mDiskUsed := if isNil err then diskUsed else DiskUsed metrics in
  let mDiskTotal := if isNil err then diskTotal else DiskTotal metrics in
  let mDiskPercent :=
    if isNil err && (0 <? diskTotal)
    then fmul (fdiv (of_uint64 diskUsed) (of_uint64 diskTotal)) (of_uint64 100)
    else DiskPercent metrics in
  (* Get network stats *)
  let '(sent, recv, err) := getNetworkStats (netdev p) in
  let mNetworkBytesSent := if isNil err then sent else NetworkBytesSent metrics in
  let mNetworkBytesRecv := if isNil err then recv else NetworkBytesRecv metrics in
  (* Get uptime *)
  let '(uptime, err) := getUptime (uptimeFile p) in
  let mUptimeSeconds := if isNil err then uptime else UptimeSeconds metrics in
  ((mkSystemMetrics mCPUPercent mMemoryUsed mMemoryTotal mMemoryPercent
                    mDiskUsed mDiskTotal mDiskPercent
                    mNetworkBytesSent mNetworkBytesRecv mUptimeSeconds,
    None),
   lastCPUStats).

End Collector.

(** [shutdownSystem]. *)
Definition shutdownSystem (force : bool) : M Commands error :=
  time_Sleep 100 ;;
  if force then
    err <- Run ["systemctl"; "poweroff"; "-i"; "--force"] ;;
    match err with
    | Some _ => Run ["shutdown"; "-h"; "now"]
    | None => ret None
    end
  else
    err <- Run ["shutdown"; "-h"; "+1"] ;;
    match err with
    | Some _ => Run ["systemctl"; "poweroff"]
    | None => ret None
    end.

End Linux.

(** ** shutdown_darwin.go, metrics_darwin.go *)

Module Darwin.

(** [shutdownSystem]. *)
Definition shutdownSystem (force : bool) : M Commands error :=
  time_Sleep 100 ;;
  if force then Run ["sudo"; "shutdown"; "-h"; "now"]
  else Run ["sudo"; "shutdown"; "-h"; "+1"].

(** What [cmd.Output()] returns: the error, or the standard output of the
    command. *)
Inductive Output : Type :=
| OutputError (err : string)
| OutputText (output : string).

(** [parseVMStatValue]. *)
Definition parseVMStatValue (line : string) : Z :=
  let parts := strings.Fields line in
  if (2 <=? List.length parts)%nat then
    let valStr :=
      strings.TrimSuffix (nth (List.length parts - 1) parts "") "." in
    match strconv.ParseUint valStr with
    | (val, None) => val
    | (_, Some _) => 0
    end
  else 0.

(** The body of the loop of [getNetworkStats] for a line that is not the
    first: [(sent, recv)]. *)
Definition netstatLine (totals : Z * Z) (line : string) : Z * Z :=
  let (sent, recv) := totals in
  let fields := strings.Fields line in
  if (10 <=? List.length fields)%nat then
    if (0 <? List.length fields)%nat && HasPrefix (nth 0 fields "") "lo"
    then totals
    else
      let (r, rerr) := strconv.ParseUint (nth 6 fields "") in
      let recv := match rerr with None => u64 (recv + r) | Some _ => recv end in
      let (s, serr) := strconv.ParseUint (nth 9 fields "") in
      let sent := match serr with None => u64 (sent + s) | Some _ => sent end in
      (sent, recv)
  else totals.

(** [getNetworkStats]: [(sent, recv, err)], from the output of
    [netstat -ibn]; the line of index 0 is the header. *)
Definition getNetworkStats (out : Output) : Z * Z * error :=
  match out with
  | OutputError err => (0, 0, Some err)
  | OutputText output =>
      let lines := strings.Split output "010"%char in
      let (sent, recv) := fold_left netstatLine (skipn 1 lines) (0, 0) in
      (sent, recv, None)
  end.

(** [getUptime]; [unix] is [time.Now().Unix()], an [int64], and the
    difference is converted to [uint64]. *)
Definition getUptime (out : Output) (unix : Z) : Z * error :=
  match out with
  | OutputError err => (0, Some err)
  | OutputText line =>
      if Contains line "sec = " then
        let start := Z.to_nat (strings.Index line "sec = " + 6) in
        let rest := substring start (String.length line - start) line in
        let end_ := strings.Index rest "," in
        if 0 <? end_ then
          let bootTimeStr := substring start (Z.to_nat end_) line in
          match strconv.ParseInt bootTimeStr with
          | (bootTime, None) => (u64 (unix - bootTime), None)
          | (_, Some _) => (0, Some "could not parse uptime")
          end
        else (0, Some "could not parse uptime")
      else (0, Some "could not parse uptime")
  end.

End Darwin.

(** ** metrics_windows.go, shutdown_windows.go *)

Module Windows.

(** [syscall.Filetime]. *)
Record Filetime : Type := mkFiletime { LowDateTime : Z; HighDateTime : Z }.

(** [type memoryStatusEx struct]. *)
Record memoryStatusEx : Type := mkMemoryStatusEx {
  dwLength : Z;
  dwMemoryLoad : Z;
  ullTotalPhys : Z;
  ullAvailPhys : Z;
  ullTotalPageFile : Z;
  ullAvailPageFile : Z;
  ullTotalVirtual : Z;
  ullAvailVirtual : Z;
  ullAvailExtendedVirtual : Z
}.

(** [type cpuTimes struct]. *)
Record cpuTimes : Type := mkCpuTimes {
  idle : Z;
  kernel : Z;
  user : Z;
  time : Time
}.

(** [var lastCPUTimes cpuTimes] when the process starts. *)
Definition zeroTimes : cpuTimes := mkCpuTimes 0 0 0 zeroTime.

(** What the kernel32 procedures return when the collector calls them:
    [ret] and [err] of [Call], and the values written through the
    pointers. *)
Record Kernel32 : Type := mkKernel32 {
  GetSystemTimes : Z * error * (Filetime * Filetime * Filetime);
  GlobalMemoryStatusEx : Z * error * memoryStatusEx;
  GetDiskFreeSpaceExW : Z * error * (Z * Z * Z);
  GetTickCount64 : Z
}.

(** [fileTimeToUint64]; both halves are [uint32], the result fits. *)
Definition fileTimeToUint64 (ft : Filetime) : Z :=
  Z.lor (Z.shiftl (HighDateTime ft) 32) (LowDateTime ft).

(** [syscall.UTF16PtrFromString]: an error when the string contains a NUL
    byte. *)
Definition UTF16PtrFromString (s : string) : error :=
  if containsByte "000"%char s then Some "invalid argument" else None.

Section Collector.

Context {F : Type} `{Float64 F}.

(** [getCPUUsage], with the global [lastCPUTimes] passed in and out. *)
Definition getCPUUsage (k : Kernel32) (now : Time) (lastCPUTimes : cpuTimes)
  : (F * error) * cpuTimes :=
  let '(ret, err, (idleTime, kernelTime, userTime)) := GetSystemTimes k in
  if ret =? 0 then ((of_uint64 0, err), lastCPUTimes)
  else
    let idle_ := fileTimeToUint64 idleTime in
    let kernel_ := fileTimeToUint64 kernelTime in
    let user_ := fileTimeToUint64 userTime in
    if IsZero (time lastCPUTimes) then
      ((of_uint64 0, None), mkCpuTimes idle_ kernel_ user_ now)
    else
      let idleDelta := u64 (idle_ - idle lastCPUTimes) in
      let kernelDelta := u64 (kernel_ - kernel lastCPUTimes) in
      let userDelta := u64 (user_ - user lastCPUTimes) in
      let totalDelta := u64 (kernelDelta + userDelta) in
      let usage :=
        if 0 <? totalDelta then
          fmul (fdiv (of_uint64 (u64 (totalDelta - idleDelta)))
                     (of_uint64 totalDelta))
               (of_uint64 100)
        else of_uint64 0 in
      ((usage, None), mkCpuTimes idle_ kernel_ user_ now).

(** [getMemoryUsage]: [(used, total, err)]. *)
Definition getMemoryUsage (k : Kernel32) : Z * Z * error :=
  let '(ret, err, memStatus) := GlobalMemoryStatusEx k in
  if ret =? 0 then (0, 0, err)
  else
    let total := ullTotalPhys memStatus in
    let used := u64 (total - ullAvailPhys memStatus) in
    (used, total, None).

(** [getDiskUsage]: [(used, total, err)]. *)
Definition getDiskUsage (k : Kernel32) : Z * Z * error :=
  match UTF16PtrFromString "C:\" with
  | Some e => (0, 0, Some e)
  | None =>
      let '(ret, err, (freeBytesAvailable, totalBytes, totalFreeBytes)) :=
        GetDiskFreeSpaceExW k in
      if ret =? 0 then (0, 0, err)
      else
        let total := totalBytes in
        let used := u64 (total - totalFreeBytes) in
        (used, total, None)
  end.

(** [getUptime]. *)
Definition getUptime (k : Kernel32) : Z * error :=
  let ret := GetTickCount64 k in
  if ret =? 0 then (0, Some "failed to get tick count")
  else (ret / 1000, None).

Definition isNil (e : error) : bool :=
  match e with None => true | Some _ => false end.

(** [getSystemMetrics], with the global [lastCPUTimes] passed in and out.
    [metrics] starts as [&SystemMetrics{}] and is assigned field by
    field. *)
Definition getSystemMetrics (k : Kernel32) (now : Time) (lastCPUTimes : cpuTimes)
  : (SystemMetrics F * error) * cpuTimes :=
  let metrics := zeroMetrics in
  (* Get CPU usage *)
  let '((cpu, err), lastCPUTimes) := getCPUUsage k now lastCPUTimes in
  let mCPUPercent := if isNil err then cpu else CPUPercent metrics in
  (* Get memory usage *)
  let '(memUsed, memTotal, err) := getMemoryUsage k in
  let mMemoryUsed := if isNil err then memUsed else MemoryUsed metrics in
  let mMemoryTotal := if isNil err then memTotal else MemoryTotal metrics in
  let mMemoryPercent :=
    if isNil err && (0 <? memTotal)
    then fmul (fdiv (of_uint64 memUsed) (of_uint64 memTotal)) (of_uint64 100)
    else MemoryPercent metrics in
  (* Get disk usage *)
  let '(diskUsed, diskTotal, err) := getDiskUsage k in
  let mDiskUsed := if isNil err then diskUsed else DiskUsed metrics in
  let mDiskTotal := if isNil err then diskTotal else DiskTotal metrics in
  let mDiskPercent :=
    if isNil err && (0 <? diskTotal)
    then fmul (fdiv (of_uint64 diskUsed) (of_uint64 diskTotal)) (of_uint64 100)
    else DiskPercent metrics in
  (* Get network stats: set to 0 *)
  let mNetworkBytesSent := 0 in
  let mNetworkBytesRecv := 0 in
  (* Get uptime *)
  let '(uptime, err) := getUptime k in
  let mUptimeSeconds := if isNil err then uptime else UptimeSeconds metrics in
  ((mkSystemMetrics mCPUPercent mMemoryUsed mMemoryTotal mMemoryPercent
                    mDiskUsed mDiskTotal mDiskPercent
                    mNetworkBytesSent mNetworkBytesRecv mUptimeSeconds,
    None),
   lastCPUTimes).

End Collector.

Definition TOKEN_ADJUST_PRIVILEGES : Z := 0x0020.
Definition TOKEN_QUERY : Z := 0x0008.
Definition SE_PRIVILEGE_ENABLED : Z := 0x00000002.
Definition EWX_POWEROFF : Z := 0x00000008.
Definition EWX_FORCE : Z := 0x00000004.

(** What the advapi32 and user32 procedures return when the actuator
    calls them: [ret] and [err] of [Call]; [ExitWindowsEx] by its flags.
    [GetCurrentProcess] is the error of [windows.GetCurrentProcess()],
    which only the variant of the actuator built on golang.org/x/sys calls. *)
Record Win32 : Type := mkWin32 {
  GetCurrentProcess : error;
  OpenProcessToken : Z * error;
  LookupPrivilegeValue : Z * error;
  AdjustTokenPrivileges : Z * error;
  ExitWindowsEx : Z -> Z * error
}.

(** [proc.Call(args...)]: the call is recorded, its result comes from the
    system.  Pointer arguments are left out of [args]. *)
Definition Call (proc : string) (args : list Z) (result : Win32 -> Z * error)
  : M Win32 (Z * error) :=
  fun w => (result (os w), mkWorld (os w) (trace w ++ [Syscall proc args])%list).

(** The part of [shutdownSystem] that follows the opening of the process
    token, common to both variants; [defer CloseHandle(token)] runs when it
    returns. *)
Definition shutdownWithToken (force : bool) : M Win32 error :=
  res <- match UTF16PtrFromString "SeShutdownPrivilege" with
         | Some e => ret (Some e)
         | None =>
             r <- Call "LookupPrivilegeValueW" [0] LookupPrivilegeValue ;;
             let (ret_, err) := r : Z * error in
             if ret_ =? 0 then ret err
             else
               r <- Call "AdjustTokenPrivileges" [0; 0; 0; 0]
                         AdjustTokenPrivileges ;;
               let (ret_, err) := r : Z * error in
               if ret_ =? 0 then ret err
               else
                 let flags := EWX_POWEROFF in
                 let flags := if force then Z.lor flags EWX_FORCE else flags in
                 r <- Call "ExitWindowsEx" [flags; 0]
                           (fun k => ExitWindowsEx k flags) ;;
                 let (ret_, err) := r : Z * error in
                 if ret_ =? 0 then ret err else ret None
         end ;;
  emit (Syscall "CloseHandle" []) ;;
  ret res.

(** [shutdownSystem] of shutdown_windows.go (package syscall). *)
Definition shutdownSystem (force : bool) : M Win32 error :=
  time_Sleep 100 ;;
  r <- Call "OpenProcessToken" [Z.lor TOKEN_ADJUST_PRIVILEGES TOKEN_QUERY]
            OpenProcessToken ;;
  let (ret_, err) := r : Z * error in
  if ret_ =? 0 then ret err
  else shutdownWithToken force.

(** [shutdownSystem] of the variant on golang.org/x/sys/windows, which
    checks the error of [windows.GetCurrentProcess()] first. *)
Definition shutdownSystem_xsys (force : bool) : M Win32 error :=
  time_Sleep 100 ;;
  o <- getOS ;;
  match GetCurrentProcess o with
  | Some e => ret (Some e)
  | None =>
      r <- Call "OpenProcessToken" [Z.lor TOKEN_ADJUST_PRIVILEGES TOKEN_QUERY]
                OpenProcessToken ;;
      let (ret_, err) := r : Z * error in
      if ret_ =? 0 then ret err
      else shutdownWithToken force
  end.

End Windows.

Arguments requireTailscale {OS} s next w r.
Arguments logf {OS} format.

(** ** The decision of the access gate *)

(** The node's own addresses as the roster reports them; none without a
    backend or without a [Self]. *)
Definition ownIPs (s : Server) : list netip.Addr :=
  match lb s with
  | Some b =>
      match Self (StatusWithoutPeers b) with
      | Some self => TailscaleIPs self
      | None => []
      end
  | None => []
  end.

(** Whether [requireTailscale] passes a request from [remoteAddr] on: the
    disjunction of the three conditions under which it calls [next]. *)
Definition admits (s : Server) (remoteAddr : string) : bool :=
  let clientIP := clientIPOf remoteAddr in
  isLocalhost clientIP
  || match netip.ParseAddr clientIP with
     | Some a => isTailscaleIP a || isOwnTailscaleIP s a
     | None => false
     end.

(** The two refusals of [requireTailscale]: a log line and a 403. *)
Definition refusal {OS : Type} (format msg : string) : M OS unit :=
  logf format ;; http.Error msg http.StatusForbidden.

Definition invalidClientIP {OS : Type} : M OS unit :=
  refusal "Invalid client IP %s: %v" "Forbidden".

Definition blocked {OS : Type} : M OS unit :=
  refusal "Blocked request from non-Tailscale IP: %s"
          "Forbidden: Only accessible from Tailscale network".

(** The gate allows [r]: whatever the wrapped handler is, the request is
    handed to it and nothing else happens. *)
Definition passes (OS : Type) (s : Server) (r : http.Request) : Prop :=
  forall (next : http.HandlerFunc OS) w wd,
    requireTailscale s next w r wd = next w r wd.

(** The gate denies [r]: whatever the wrapped handler is, it is not
    called, and the response is one of the two refusals. *)
Definition denies (OS : Type) (s : Server) (r : http.Request) : Prop :=
  (forall (next : http.HandlerFunc OS) w wd,
      requireTailscale s next w r wd = invalidClientIP wd)
  \/ (forall (next : http.HandlerFunc OS) w wd,
         requireTailscale s next w r wd = blocked wd).

(** The IPv4 rule of the design document: first octet 100, top two bits of
    the second octet 01. *)
Definition inCGNAT (bytes : list Z) : Prop :=
  get_at bytes 0 = 100 /\ Z.land (get_at bytes 1) 0xC0 = 0x40.

(** The IPv4 rule as the design document words it, without the roster:
    an IPv4 client is allowed exactly when it is in the range or is the
    loopback literal. *)
Definition ipv4_rule_without_roster (OS : Type) (s : Server)
           (r : http.Request) : Prop :=
  forall a bytes,
    netip.ParseAddr (clientIPOf (http.RemoteAddr r)) = Some a ->
    netip.Is4 a = true ->
    netip.As4 a = Some bytes ->
    (passes OS s r <->
     inCGNAT bytes \/ clientIPOf (http.RemoteAddr r) = "127.0.0.1").

(** The rule for IPv4-mapped IPv6 clients as the design document words it:
    the address is resolved to its IPv4 form before the range tests, so a
    client whose embedded IPv4 address passes the IPv4 rule is allowed. *)
Definition mapped_resolved_to_ipv4 (OS : Type) (s : Server)
           (r : http.Request) : Prop :=
  forall a,
    netip.ParseAddr (clientIPOf (http.RemoteAddr r)) = Some a ->
    netip.Is4In6 a = true ->
    isTailscaleIP (netip.Unmap a) = true ->
    passes OS s r.

(** A server whose roster lists 10.0.0.5 as the node's own address. *)
Definition serverWithOwnIP : Server :=
  SetLocalBackend (New ":6942")
    (mkLocalBackend (mkStatus (Some (mkPeerStatus
       [netip.AddrFrom4 [10; 0; 0; 5]])))).

Definition requestFrom (remoteAddr : string) : http.Request :=
  http.mkRequest "GET" "/" [] remoteAddr.

(** The call of the metrics collector, and a [go] statement, in a
    trace.  The only goroutine the handlers start runs the shutdown
    actuator. *)
Definition isCollectorCall (e : Event) : bool :=
  match e with
  | Called fn => String.eqb fn "GetSystemMetrics"
  | _ => false
  end.

Definition isGo (e : Event) : bool :=
  match e with
  | Go _ => true
  | _ => false
  end.

(** What the goroutine of [handleShutdown] does when it starts from the
    system [o]. *)
Definition goroutine {OS : Type} (ShutdownSystem : bool -> M OS error)
           (force : bool) (o : OS) : list Event :=
  trace (exec (err <- ShutdownSystem force ;;
               match err with
               | Some _ => logf "Shutdown failed: %v"
               | None => ret tt
               end)
              (mkWorld o [])).


(** The commands a trace runs, in order. *)
Definition execs (t : list Event) : list (list string) :=
  flat_map (fun e => match e with Exec argv => [argv] | _ => [] end) t.

(** The fallback rule as the design document words it, for an actuator
    that works by running commands: when the first command it runs fails,
    it runs exactly one more; if that one succeeds the call succeeds, and
    if that one fails too the call fails with a single error that carries
    both. *)
Definition fallback_rule (shutdownSystem : bool -> M Commands error) : Prop :=
  forall (force : bool) (cmds : Commands) primary others e1,
    execs (trace (snd (shutdownSystem force (mkWorld cmds [])))) =
      primary :: others ->
    cmds primary = Some e1 ->
    exists fallback,
      others = [fallback]
      /\ (cmds fallback = None ->
          fst (shutdownSystem force (mkWorld cmds [])) = None)
      /\ (forall e2, cmds fallback = Some e2 ->
            exists msg,
              fst (shutdownSystem force (mkWorld cmds [])) = Some msg
              /\ Contains msg e1 = true /\ Contains msg e2 = true).

(** Commands that all fail, [systemctl] with one message and every other
    command with another. *)
Definition failingCommands : Commands :=
  fun argv =>
    match argv with
    | cmd :: _ => if String.eqb cmd "systemctl"
                  then Some "systemctl: exit status 1"
                  else Some "shutdown: exit status 2"
    | [] => Some "no command"
    end.

Definition isExitWindowsEx (e : Event) : bool :=
  match e with
  | Syscall proc _ => String.eqb proc "ExitWindowsEx"
  | _ => false
  end.

(** A server for examples: Linux commands as the system, a host named
    "node", a collector that reports zeros. *)
Definition nodeHostname : Commands -> string * error :=
  fun _ => ("node", None).

Definition zeroCollector : M Commands (SystemMetrics spec_float * error) :=
  ret (@zeroMetrics _ ieee64, None).

Definition demoServe (s : Server) (r : http.Request) : World Commands :=
  serve Commands nodeHostname zeroCollector Linux.shutdownSystem
        (fun _ => "0.00") s r failingCommands.

(** Two calls of the Linux sampler in a fresh process, the first reading
    [first] and the second [second]: the percentage the second returns. *)
Definition secondCall {F : Type} `{Float64 F} (first second : Linux.ProcStat)
  : F :=
  fst (fst (Linux.getCPUUsage second (instant 1)
              (snd (Linux.getCPUUsage first (instant 0) Linux.zeroStats)))).

(** The sampler's example as the design document words it: whatever the
    first sample is, a second sample with idle 50 higher and total 100
    higher gives exactly 50.0. *)
Definition second_call_rule : Prop :=
  forall fuser fnice fsystem fidle fiowait firq,
    0 <= fuser -> 0 <= fnice -> 0 <= fsystem -> 0 <= fidle ->
    0 <= fiowait -> 0 <= firq ->
    fuser + fnice + fsystem + fidle + fiowait + firq + 100 < 2 ^ 64 ->
    @secondCall spec_float ieee64
      (Linux.Fields fuser fnice fsystem fidle fiowait firq)
      (Linux.Fields (fuser + 50) fnice fsystem (fidle + 50) fiowait firq)
    = @of_uint64 spec_float ieee64 50.

(** [syscall.Filetime] of a 64-bit count. *)
Definition filetime (n : Z) : Windows.Filetime :=
  Windows.mkFiletime (Z.land n 0xffffffff) (Z.shiftr n 32).

(** A kernel32 whose [GetSystemTimes] succeeds with the given counts. *)
Definition systemTimes (idle kernel user : Z) : Windows.Kernel32 :=
  Windows.mkKernel32
    (1, None, (filetime idle, filetime kernel, filetime user))
    (0, Some "unavailable", Windows.mkMemoryStatusEx 0 0 0 0 0 0 0 0 0)
    (0, Some "unavailable", (0, 0, 0))
    0.

(** How often the metrics collector is called in a trace. *)
Definition collectorCalls (t : list Event) : nat :=
  List.length (filter isCollectorCall t).

Definition isCloseHandle (e : Event) : bool :=
  match e with
  | Syscall proc _ => String.eqb proc "CloseHandle"
  | _ => false
  end.

(** The headers the client receives: the last value set for the key before
    the status line goes out.  The handlers set their headers before they
    write, so the trace is scanned as a whole. *)
Fixpoint headerOf (t : list Event) (key : string) (current : option string)
  : option string :=
  match t with
  | [] => current
  | HeaderSet k v :: t =>
      headerOf t key (if String.eqb k key then Some v else current)
  | HeaderDel k :: t =>
      headerOf t key (if String.eqb k key then None else current)
  | _ :: t => headerOf t key current
  end.

(** The exposition text [handleMetrics] writes for [m]. *)
Definition exposition {F : Type} (fmt2f : F -> string) (m : SystemMetrics F)
  : list string :=
  (gauge "system_cpu_usage_percent" "CPU usage percentage"
         (fmt2f (CPUPercent m)) false
   ++ gauge "system_memory_used_bytes" "Memory used in bytes"
            (itoa (MemoryUsed m)) false
   ++ gauge "system_memory_total_bytes" "Total memory in bytes"
            (itoa (MemoryTotal m)) false
   ++ gauge "system_memory_usage_percent" "Memory usage percentage"
            (fmt2f (MemoryPercent m)) false
   ++ gauge "system_disk_used_bytes" "Disk used in bytes"
            (itoa (DiskUsed m)) false
   ++ gauge "system_disk_total_bytes" "Total disk space in bytes"
            (itoa (DiskTotal m)) false
   ++ gauge "system_disk_usage_percent" "Disk usage percentage"
            (fmt2f (DiskPercent m)) false
   ++ counter "system_network_bytes_sent" "Network bytes sent"
              (itoa (NetworkBytesSent m)) false
   ++ counter "system_network_bytes_recv" "Network bytes received"
              (itoa (NetworkBytesRecv m)) false
   ++ counter "system_uptime_seconds" "System uptime in seconds"
              (itoa (UptimeSeconds m)) true)%list.

(** A win32 on which every procedure the actuator calls succeeds. *)
Definition win32Ok : Windows.Win32 :=
  Windows.mkWin32 None
    (1, Some "The operation completed successfully.")
    (1, Some "The operation completed successfully.")
    (1, Some "The operation completed successfully.")
    (fun _ => (1, Some "The operation completed successfully.")).

(** A kernel32 on which every call of the collector succeeds: 16 GiB of
    memory with 12 GiB available, a disk of 500 GB with 200 GB free, one
    hour of uptime. *)
Definition kernel32Sample : Windows.Kernel32 :=
  Windows.mkKernel32
    (1, None, (filetime 50, filetime 100, filetime 0))
    (1, None,
     Windows.mkMemoryStatusEx 64 25 17179869184 12884901888 0 0 0 0 0)
    (1, None, (0, 500000000000, 200000000000))
    3600000.

(** Whether two strings differ at a position that both have. *)
Fixpoint mismatch (p s : string) : bool :=
  match p, s with
  | String a p', String b s' => negb (Ascii.eqb a b) || mismatch p' s'
  | _, _ => false
  end.

(** For a group of an IPv6 address: its text is [text] and its value
    [value], or its text followed by a colon departs from [text] followed
    by a colon. *)
Definition groupCheck (text : string) (value x : Z) : bool :=
  (String.eqb (netip.appendHex "" x) text && (x =? value))
  || mismatch (text ++ ":") (netip.appendHex "" x ++ ":").

(** A byte. *)
Definition isByte (x : Z) : Prop := 0 <= x < 256.

(** What a line of /proc/net/dev adds to the bytes sent and to the bytes
    received: nothing when it has fewer than ten fields or is the
    loopback's, otherwise its fields 9 and 1 where they parse. *)
Definition netdevCounts (line : string) : option Z * option Z :=
  let fields := strings.Fields line in
  if (List.length fields <? 10)%nat then (None, None)
  else if HasPrefix (nth 0 fields "") "lo:" then (None, None)
  else
    (match strconv.ParseUint (nth 9 fields "") with
     | (s, None) => Some s
     | (_, Some _) => None
     end,
     match strconv.ParseUint (nth 1 fields "") with
     | (r, None) => Some r
     | (_, Some _) => None
     end).

Definition addCount (total : Z) (count : option Z) : Z :=
  match count with
  | Some n => u64 (total + n)
  | None => total
  end.

(** The value of [key] in /proc/meminfo, in bytes: that of the last line
    with at least two fields whose first field is [key]; 0 when there is
    none. *)
Definition meminfoStep (key : string) (value : Z) (line : string) : Z :=
  match strings.Fields line with
  | k :: field1 :: _ =>
      if String.eqb k key
      then u64 (fst (strconv.ParseUint field1) * 1024)
      else value
  | _ => value
  end.

Definition meminfoValue (key : string) (lines : list string) : Z :=
  fold_left (meminfoStep key) lines 0.

Definition netdevSample : list string :=
  ["Inter-|   Receive                     |  Transmit";
   " face |bytes    packets errs drop fifo frame compressed multicast|bytes";
   "    lo: 1000 10 0 0 0 0 0 0 1000 10 0 0 0 0 0 0";
   "  eth0: 5000 50 0 0 0 0 0 0 7000 70 0 0 0 0 0 0";
   "tailscale0: 300 3 0 0 0 0 0 0 400 4 0 0 0 0 0 0"].

Definition meminfoSample : list string :=
  ["MemTotal:       16384 kB";
   "MemFree:         1024 kB";
   "MemAvailable:    8192 kB";
   "Buffers:          512 kB";
   "Cached:          2048 kB";
   "SwapCached:         0 kB"].

(** A byte that is neither white space nor part of a rune of several
    bytes: 33 to 127. *)
Definition plainChar (c : ascii) : bool :=
  (33 <=? byte_of c) && (byte_of c <? 128).

(** A text of such bytes: a word, as [strings.Fields] sees it. *)
Fixpoint plain (s : string) : bool :=
  match s with
  | EmptyString => true
  | String c rest => plainChar c && plain rest
  end.

(** [k] spaces. *)
Fixpoint spaces (k : nat) : string :=
  match k with
  | O => ""
  | S k => String " " (spaces k)
  end.

(** The number a decimal numeral continues, [acc] being the number its
    digits read so far stand for. *)
Fixpoint decimalValue (d : Decimal.uint) (acc : Z) : Z :=
  match d with
  | Decimal.Nil => acc
  | Decimal.D0 d => decimalValue d (10 * acc)
  | Decimal.D1 d => decimalValue d (10 * acc + 1)
  | Decimal.D2 d => decimalValue d (10 * acc + 2)
  | Decimal.D3 d => decimalValue d (10 * acc + 3)
  | Decimal.D4 d => decimalValue d (10 * acc + 4)
  | Decimal.D5 d => decimalValue d (10 * acc + 5)
  | Decimal.D6 d => decimalValue d (10 * acc + 6)
  | Decimal.D7 d => decimalValue d (10 * acc + 7)
  | Decimal.D8 d => decimalValue d (10 * acc + 8)
  | Decimal.D9 d => decimalValue d (10 * acc + 9)
  end.

(** What a line of [netstat -ibn] after the header adds to the bytes sent
    and to the bytes received: nothing when it has fewer than ten fields or
    its first field starts with [lo], otherwise its fields 9 and 6 where
    they parse. *)
Definition netstatCounts (line : string) : option Z * option Z :=
  let fields := strings.Fields line in
  if (List.length fields <? 10)%nat then (None, None)
  else if HasPrefix (nth 0 fields "") "lo" then (None, None)
  else
    (match strconv.ParseUint (nth 9 fields "") with
     | (s, None) => Some s
     | (_, Some _) => None
     end,
     match strconv.ParseUint (nth 6 fields "") with
     | (r, None) => Some r
     | (_, Some _) => None
     end).

(** ** metrics.go on Linux and on Windows *)

Module LinuxHost.

(** The system under the server on Linux, as the collector sees it: what
    the next reading of /proc and of the root file system returns, and the
    global [lastCPUStats]. *)
Record System : Type := mkSystem {
  proc : Linux.Proc;
  lastCPUStats : Linux.cpuStats
}.

Section Host.

Context {F : Type} `{Float64 F}.
Variable ParseFloat : string -> F * error.
Variable uint64_of_float : F -> Z.

(** [GetSystemMetrics], which returns [getSystemMetrics()]. *)
Definition GetSystemMetrics : M System (SystemMetrics F * error) :=
  fun w =>
    let '(res, last) :=
      Linux.getSystemMetrics ParseFloat uint64_of_float
                             (proc (os w)) (lastCPUStats (os w)) in
    (res, mkWorld (mkSystem (proc (os w)) last) (trace w)).

End Host.

End LinuxHost.

Module WindowsHost.

(** The system under the server on Windows: what kernel32 returns next,
    the time, and the global [lastCPUTimes]. *)
Record System : Type := mkSystem {
  kernel32 : Windows.Kernel32;
  now : Time;
  lastCPUTimes : Windows.cpuTimes
}.

Section Host.

Context {F : Type} `{Float64 F}.

(** [GetSystemMetrics], which returns [getSystemMetrics()]. *)
Definition GetSystemMetrics : M System (SystemMetrics F * error) :=
  fun w =>
    let '(res, last) :=
      Windows.getSystemMetrics (kernel32 (os w)) (now (os w))
                               (lastCPUTimes (os w)) in
    (res, mkWorld (mkSystem (kernel32 (os w)) (now (os w)) last) (trace w)).

End Host.

End WindowsHost.

(** A Linux system on which every measurement fails, in a fresh process. *)
Definition unreadableLinux : LinuxHost.System :=
  LinuxHost.mkSystem
    (Linux.mkProc (Linux.ReadError "permission denied") (instant 1)
                  (Linux.OpenError "permission denied")
                  (Linux.StatfsError "permission denied")
                  (Linux.OpenError "permission denied")
                  (Linux.OpenError "permission denied"))
    Linux.zeroStats.

(** GET /metrics from the loopback address, served on [unreadableLinux]. *)
Definition unreadableServe : World LinuxHost.System :=
  serve LinuxHost.System (fun _ => ("node", None))
        (@LinuxHost.GetSystemMetrics spec_float ieee64
           (fun _ => (@of_uint64 spec_float ieee64 0, Some "invalid syntax"))
           (fun _ => 0))
        (fun _ => ret None) (fun _ => "0.00") (New ":6942")
        (http.mkRequest "GET" "/metrics" [] "127.0.0.1:5000")
        unreadableLinux.

(** A text of decimal digits. *)
Fixpoint digits (s : string) : bool :=
  match s with
  | EmptyString => true
  | String c rest =>
      (48 <=? byte_of c) && (byte_of c <=? 57) && digits rest
  end.

(** * Properties *)

(** ** The access gate *)

Lemma zone_eqb_eq (a b : netip.zone) : netip.zone_eqb a b = true <-> a = b.
Proof.
  destruct a, b; simpl; split; intro E; try reflexivity; try discriminate E.
  - apply String.eqb_eq in E. now subst.
  - injection E as ->. apply String.eqb_refl.
Qed.

Lemma Addr_eqb_eq (a b : netip.Addr) : netip.Addr_eqb a b = true <-> a = b.
Proof.
  unfold netip.Addr_eqb. destruct a as [h1 l1 z1], b as [h2 l2 z2]; simpl.
  rewrite !andb_true_iff, !Z.eqb_eq, zone_eqb_eq.
  split.
  - intros [[-> ->] ->]. reflexivity.
  - intros E. injection E as -> -> ->. auto.
Qed.

Lemma isOwnTailscaleIP_In (s : Server) (a : netip.Addr) :
  isOwnTailscaleIP s a = true <-> In a (ownIPs s).
Proof.
  unfold isOwnTailscaleIP, ownIPs.
  destruct (lb s) as [b|]; [destruct (Self (StatusWithoutPeers b)) as [self|]|].
  - rewrite existsb_exists. split.
    + intros [ip [Hin E]]. apply Addr_eqb_eq in E. now subst.
    + intros Hin. exists a. split; [assumption | now apply Addr_eqb_eq].
  - simpl. split; [discriminate | contradiction].
  - simpl. split; [discriminate | contradiction].
Qed.

Lemma isLocalhost_cases (ip : string) :
  isLocalhost ip = true <->
  ip = "127.0.0.1" \/ ip = "::1" \/ ip = "localhost".
Proof.
  unfold isLocalhost. rewrite !orb_true_iff, !String.eqb_eq. tauto.
Qed.

Section Gate.

Variable OS : Type.

Lemma requireTailscale_admits (s : Server) (r : http.Request) :
  admits s (http.RemoteAddr r) = true -> passes OS s r.
Proof.
  unfold admits, passes, requireTailscale. intros Hadm next w wd.
  destruct (isLocalhost (clientIPOf (http.RemoteAddr r))); [reflexivity|].
  simpl in Hadm.
  destruct (netip.ParseAddr (clientIPOf (http.RemoteAddr r))) as [a|];
    [|discriminate Hadm].
  destruct (isTailscaleIP a); [reflexivity|].
  simpl in Hadm. rewrite Hadm. reflexivity.
Qed.

Lemma requireTailscale_refuses (s : Server) (r : http.Request) :
  admits s (http.RemoteAddr r) = false -> denies OS s r.
Proof.
  unfold admits, denies, requireTailscale. intros Hadm.
  destruct (isLocalhost (clientIPOf (http.RemoteAddr r))); [discriminate Hadm|].
  simpl in Hadm.
  destruct (netip.ParseAddr (clientIPOf (http.RemoteAddr r))) as [a|].
  - right. intros next w wd.
    apply orb_false_iff in Hadm. destruct Hadm as [-> ->]. reflexivity.
  - left. intros next w wd. reflexivity.
Qed.

(** A refusal is a 403 and leaves everything but the response and the log
    untouched. *)
Lemma refusal_trace (format msg : string) (wd : World OS) :
  refusal format msg wd =
  (tt, mkWorld (os wd)
         (trace wd ++ [Logf format]
                   ++ [HeaderDel "Content-Length"]
                   ++ [HeaderSet "Content-Type" "text/plain; charset=utf-8"]
                   ++ [HeaderSet "X-Content-Type-Options" "nosniff"]
                   ++ [WriteHeader http.StatusForbidden]
                   ++ [Write (msg ++ nl)])%list).
Proof.
  unfold refusal, logf, http.Error, bind, emit. simpl.
  rewrite <- !app_assoc. reflexivity.
Qed.

End Gate.

Lemma passes_denies_exclusive (OS : Type) (o : OS) (s : Server)
      (r : http.Request) :
  passes OS s r -> denies OS s r -> False.
Proof.
  intros Hp Hd.
  pose (next := (fun _ _ => ret tt) : http.HandlerFunc OS).
  specialize (Hp next http.response (mkWorld o [])).
  destruct Hd as [Hd | Hd];
    specialize (Hd next http.response (mkWorld o []));
    rewrite Hp in Hd; unfold invalidClientIP, blocked in Hd;
    rewrite refusal_trace in Hd; discriminate Hd.
Qed.

Lemma localhost_ipv4 (c : string) (a : netip.Addr) :
  netip.ParseAddr c = Some a -> netip.Is4 a = true ->
  (isLocalhost c = true <-> c = "127.0.0.1").
Proof.
  intros Hparse H4. rewrite isLocalhost_cases. split.
  - intros [E | [E | E]]; [assumption | exfalso | exfalso];
      subst c; vm_compute in Hparse.
    + injection Hparse as <-. discriminate H4.
    + discriminate Hparse.
  - intros E. now left.
Qed.

Lemma isTailscaleIP_ipv4 (a : netip.Addr) :
  netip.Is4 a = true ->
  exists bytes, netip.As4 a = Some bytes /\
                (isTailscaleIP a = true <-> inCGNAT bytes).
Proof.
  intros H4. unfold isTailscaleIP, netip.As4. rewrite H4. cbn [orb].
  eexists. split; [reflexivity|].
  unfold inCGNAT. rewrite andb_true_iff, !Z.eqb_eq. reflexivity.
Qed.

(** C1 (as amended).  For a client whose host, after the port is stripped,
    parses as an IPv4 address, the gate allows the request exactly when
    the first octet is 100 and the second octet ANDed with 0xC0 is 0x40,
    or the host is the loopback literal 127.0.0.1, or the address is one of
    the node's own addresses in the roster; every other IPv4 client is
    denied. *)
Theorem ipv4_gate (OS : Type) (s : Server) (r : http.Request)
        (a : netip.Addr) :
  netip.ParseAddr (clientIPOf (http.RemoteAddr r)) = Some a ->
  netip.Is4 a = true ->
  exists bytes,
    netip.As4 a = Some bytes /\
    let allowed :=
      inCGNAT bytes
      \/ clientIPOf (http.RemoteAddr r) = "127.0.0.1"
      \/ In a (ownIPs s) in
    (admits s (http.RemoteAddr r) = true <-> allowed)
    /\ (allowed -> passes OS s r)
    /\ (~ allowed -> denies OS s r).
Proof.
  intros Hparse H4.
  destruct (isTailscaleIP_ipv4 a H4) as [bytes [Hbytes Hrange]].
  exists bytes. split; [exact Hbytes|]. cbv zeta.
  assert (Hiff : admits s (http.RemoteAddr r) = true <->
                 inCGNAT bytes
                 \/ clientIPOf (http.RemoteAddr r) = "127.0.0.1"
                 \/ In a (ownIPs s)).
  { unfold admits. rewrite Hparse, !orb_true_iff.
    rewrite (localhost_ipv4 _ a Hparse H4), Hrange, isOwnTailscaleIP_In.
    tauto. }
  split; [exact Hiff|]. split.
  - intros Hok. apply requireTailscale_admits. now apply Hiff.
  - intros Hno. apply requireTailscale_refuses.
    destruct (admits s (http.RemoteAddr r)) eqn:E; [|reflexivity].
    exfalso. apply Hno. now apply Hiff.
Qed.

Lemma ipv4_gate_witness :
  exists bytes,
    netip.As4 (netip.AddrFrom4 [100; 64; 1; 2]) = Some bytes /\
    let allowed :=
      inCGNAT bytes
      \/ clientIPOf "100.64.1.2:41641" = "127.0.0.1"
      \/ In (netip.AddrFrom4 [100; 64; 1; 2]) (ownIPs (New ":6942")) in
    (admits (New ":6942") "100.64.1.2:41641" = true <-> allowed)
    /\ (allowed -> passes unit (New ":6942") (requestFrom "100.64.1.2:41641"))
    /\ (~ allowed ->
        denies unit (New ":6942") (requestFrom "100.64.1.2:41641")).
Proof.
  apply (ipv4_gate unit (New ":6942") (requestFrom "100.64.1.2:41641")
                   (netip.AddrFrom4 [100; 64; 1; 2])); reflexivity.
Defined.

(** C1 (as stated) fails: with a roster that lists 10.0.0.5 as the node's
    own address, the client 10.0.0.5:4242 is allowed although its first
    octet is not 100 and it is not a loopback literal. *)
Lemma ipv4_rule_fails_with_roster :
  ~ ipv4_rule_without_roster unit serverWithOwnIP (requestFrom "10.0.0.5:4242").
Proof.
  intros Hrule.
  specialize (Hrule (netip.AddrFrom4 [10; 0; 0; 5]) [10; 0; 0; 5]
                    eq_refl eq_refl eq_refl).
  destruct Hrule as [Hrule _].
  destruct Hrule as [[E _] | E].
  - apply requireTailscale_admits. reflexivity.
  - vm_compute in E. discriminate E.
  - vm_compute in E. discriminate E.
Qed.

(** C2.  Whatever the roster is, absent included, the gate allows a
    request whose remote host is exactly 127.0.0.1, ::1 or localhost; the
    check comes before the parsing of the address, and localhost, which
    does not parse, is allowed all the same. *)
Theorem loopback_always_allowed (OS : Type) (s : Server) (r : http.Request) :
  clientIPOf (http.RemoteAddr r) = "127.0.0.1"
  \/ clientIPOf (http.RemoteAddr r) = "::1"
  \/ clientIPOf (http.RemoteAddr r) = "localhost" ->
  passes OS s r /\ netip.ParseAddr "localhost" = None.
Proof.
  intros Hloop. split; [|reflexivity].
  intros next w wd. unfold requireTailscale.
  apply isLocalhost_cases in Hloop. rewrite Hloop. reflexivity.
Qed.

Lemma loopback_always_allowed_witness :
  passes unit (New ":6942") (requestFrom "localhost:5000")
  /\ netip.ParseAddr "localhost" = None.
Proof.
  apply (loopback_always_allowed unit (New ":6942")
                                 (requestFrom "localhost:5000")).
  right; right; reflexivity.
Defined.

Lemma append_assoc (a b c : string) : ((a ++ b) ++ c = a ++ (b ++ c))%string.
Proof.
  induction a as [|ch a IH]; simpl; [reflexivity | now rewrite IH].
Qed.

Lemma append_nil_r (a : string) : (a ++ "" = a)%string.
Proof.
  induction a as [|ch a IH]; simpl; [reflexivity | now rewrite IH].
Qed.

Lemma appendDecimal_app (b : string) (x : Z) :
  netip.appendDecimal b x = (b ++ netip.appendDecimal "" x)%string.
Proof.
  unfold netip.appendDecimal.
  destruct (100 <=? x); destruct (10 <=? x); cbn [String.append];
    rewrite ?append_assoc; reflexivity.
Qed.

Lemma appendTo4_app (ret : string) (ip : netip.Addr) :
  netip.appendTo4 ret ip = (ret ++ netip.appendTo4 "" ip)%string.
Proof.
  unfold netip.appendTo4. cbv zeta.
  rewrite !(appendDecimal_app (_ ++ ".")%string), (appendDecimal_app ret).
  rewrite !append_assoc. reflexivity.
Qed.

Lemma appendZone_app (ret : string) (ip : netip.Addr) :
  netip.appendZone ret ip = (ret ++ netip.appendZone "" ip)%string.
Proof.
  unfold netip.appendZone.
  destruct (negb _); [reflexivity | now rewrite append_nil_r].
Qed.

Lemma Is4In6_Is6 (a : netip.Addr) :
  netip.Is4In6 a = true -> netip.Is6 a = true /\ netip.Is4 a = false.
Proof.
  unfold netip.Is4In6, netip.Is6, netip.Is4. intros Hm.
  apply andb_true_iff in Hm. destruct Hm as [Hm _].
  apply andb_true_iff in Hm. destruct Hm as [Hm _].
  split; [exact Hm|].
  apply andb_true_iff in Hm. destruct Hm as [_ Hm].
  now apply negb_true_iff in Hm.
Qed.

(** The text of an IPv4-mapped address starts with [::ffff:]. *)
Lemma String_mapped (a : netip.Addr) :
  netip.Is4In6 a = true ->
  exists rest, netip.String a = ("::ffff:" ++ rest)%string.
Proof.
  intros Hm. destruct (Is4In6_Is6 a Hm) as [H6 H4].
  unfold netip.String.
  assert (Hto : netip.appendTo4In6 "" a =
                ("::ffff:" ++ (netip.appendTo4 "" (netip.Unmap a)
                               ++ netip.appendZone "" a))%string).
  { unfold netip.appendTo4In6. cbv zeta.
    rewrite appendZone_app, appendTo4_app, append_assoc. reflexivity. }
  unfold netip.Is6, netip.Is4 in *.
  destruct (netip.addr_z a) eqn:Ez; try discriminate H6; try discriminate H4;
    rewrite Hm, Hto; eexists; reflexivity.
Qed.

Lemma isTailscaleIP_mapped (a : netip.Addr) :
  netip.Is4In6 a = true -> isTailscaleIP a = false.
Proof.
  intros Hm. destruct (Is4In6_Is6 a Hm) as [H6 H4].
  destruct (String_mapped a Hm) as [rest Hs].
  unfold isTailscaleIP. rewrite H4, H6. cbv zeta. rewrite Hs. reflexivity.
Qed.

Lemma not_localhost_mapped (c : string) (a : netip.Addr) :
  netip.ParseAddr c = Some a -> netip.Is4In6 a = true ->
  isLocalhost c = false.
Proof.
  intros Hparse Hm. destruct (isLocalhost c) eqn:E; [|reflexivity].
  apply isLocalhost_cases in E.
  destruct E as [E | [E | E]]; subst c; vm_compute in Hparse;
    try discriminate Hparse; injection Hparse as <-; discriminate Hm.
Qed.

(** C4 (as amended).  An IPv4-mapped IPv6 client is not resolved to its
    IPv4 form: the gate takes it for the IPv6 address it is, its text
    starts with [::ffff:] and not with the overlay prefix, so neither range
    test admits it, whatever IPv4 address it embeds; it is allowed only
    when it is equal to one of the node's own addresses in the roster and
    denied otherwise. *)
Theorem mapped_ipv6_not_resolved (OS : Type) (s : Server) (r : http.Request)
        (a : netip.Addr) :
  netip.ParseAddr (clientIPOf (http.RemoteAddr r)) = Some a ->
  netip.Is4In6 a = true ->
  netip.Is4 a = false
  /\ isTailscaleIP a = false
  /\ (In a (ownIPs s) -> passes OS s r)
  /\ (~ In a (ownIPs s) -> denies OS s r).
Proof.
  intros Hparse Hm.
  split; [apply (Is4In6_Is6 a Hm)|].
  split; [apply (isTailscaleIP_mapped a Hm)|].
  assert (Hadm : admits s (http.RemoteAddr r) = isOwnTailscaleIP s a).
  { unfold admits. rewrite Hparse, (not_localhost_mapped _ a Hparse Hm).
    now rewrite (isTailscaleIP_mapped a Hm). }
  split.
  - intros Hin. apply requireTailscale_admits.
    rewrite Hadm. now apply isOwnTailscaleIP_In.
  - intros Hno. apply requireTailscale_refuses. rewrite Hadm.
    destruct (isOwnTailscaleIP s a) eqn:E; [|reflexivity].
    exfalso. apply Hno. now apply isOwnTailscaleIP_In.
Qed.

Lemma mapped_ipv6_not_resolved_witness :
  netip.Is4 (netip.mkAddr 0 0xffff64400102 netip.z6noz) = false
  /\ isTailscaleIP (netip.mkAddr 0 0xffff64400102 netip.z6noz) = false
  /\ (In (netip.mkAddr 0 0xffff64400102 netip.z6noz) (ownIPs (New ":6942")) ->
      passes unit (New ":6942") (requestFrom "[::ffff:100.64.1.2]:443"))
  /\ (~ In (netip.mkAddr 0 0xffff64400102 netip.z6noz) (ownIPs (New ":6942")) ->
      denies unit (New ":6942") (requestFrom "[::ffff:100.64.1.2]:443")).
Proof.
  apply (mapped_ipv6_not_resolved unit (New ":6942")
           (requestFrom "[::ffff:100.64.1.2]:443")
           (netip.mkAddr 0 0xffff64400102 netip.z6noz)); reflexivity.
Defined.

(** C4 (as stated) fails: without a roster the client ::ffff:100.64.1.2 is
    denied, although the IPv4 address it embeds, 100.64.1.2, passes the
    IPv4 rule. *)
Lemma mapped_client_denied :
  ~ mapped_resolved_to_ipv4 unit (New ":6942")
      (requestFrom "[::ffff:100.64.1.2]:443").
Proof.
  intros Hrule.
  specialize (Hrule (netip.mkAddr 0 0xffff64400102 netip.z6noz)
                    eq_refl eq_refl eq_refl).
  apply (passes_denies_exclusive unit tt _ _ Hrule).
  apply requireTailscale_refuses. reflexivity.
Qed.

(** ** The control service *)

Section Service.

Context {F : Type}.
Variable OS : Type.
Variable Hostname : OS -> string * error.
Variable GetSystemMetrics : M OS (SystemMetrics F * error).
Variable ShutdownSystem : bool -> M OS error.
Variable fmt2f : F -> string.

Let root := handleRoot OS Hostname.
Let metrics := handleMetrics OS GetSystemMetrics fmt2f.
Let shutdown := handleShutdown OS ShutdownSystem.
Let start := Start OS Hostname GetSystemMetrics ShutdownSystem fmt2f.
Let served := serve OS Hostname GetSystemMetrics ShutdownSystem fmt2f.

Lemma Start_routes (s : Server) (pattern : string) (h : http.HandlerFunc OS) :
  In (pattern, h) (start s) ->
  exists next, h = requireTailscale s next.
Proof.
  unfold start, Start, http.HandleFunc, http.NewServeMux. cbn [app].
  intros [E | [E | [E | []]]]; injection E as _ <-; eexists; reflexivity.
Qed.

Lemma route_metrics (s : Server) (r : http.Request) w :
  http.Path r = "/metrics" ->
  http.ServeHTTP (start s) w r = requireTailscale s (metrics s) w r.
Proof.
  intros Hpath. unfold http.ServeHTTP. rewrite Hpath. reflexivity.
Qed.

Lemma route_shutdown (s : Server) (r : http.Request) w :
  http.Path r = "/shutdown" ->
  http.ServeHTTP (start s) w r = requireTailscale s (shutdown s) w r.
Proof.
  intros Hpath. unfold http.ServeHTTP. rewrite Hpath. reflexivity.
Qed.

Lemma route_root (s : Server) (r : http.Request) w :
  HasPrefix (http.Path r) "/" = true ->
  http.Path r <> "/metrics" ->
  http.Path r <> "/shutdown" ->
  http.ServeHTTP (start s) w r = requireTailscale s (root s) w r.
Proof.
  intros Hslash Hm Hs.
  apply String.eqb_neq in Hm. apply String.eqb_neq in Hs.
  unfold http.ServeHTTP, start, Start, http.HandleFunc, http.NewServeMux.
  cbn [app http.findHandler]. unfold http.patternMatches.
  change (http.endsWithSlash "/") with true.
  change (http.endsWithSlash "/metrics") with false.
  change (http.endsWithSlash "/shutdown") with false.
  cbv iota. rewrite Hslash, Hm, Hs. reflexivity.
Qed.

Lemma denied_response (s : Server) (r : http.Request) (o : OS)
      (next : http.HandlerFunc OS) w :
  denies OS s r ->
  let wd := exec (requireTailscale s next w r) (mkWorld o []) in
  http.statusOf (trace wd) = http.StatusForbidden
  /\ os wd = o
  /\ existsb isCollectorCall (trace wd) = false
  /\ existsb isGo (trace wd) = false.
Proof.
  intros [Hd | Hd]; unfold exec; rewrite Hd;
    unfold invalidClientIP, blocked; rewrite refusal_trace;
    repeat split; reflexivity.
Qed.

(** C3.  When the gate denies the remote address of a request, then on
    every route the response is HTTP 403 and the wrapped handler is not
    called, whatever it is; a denied request for /metrics does not call the
    metrics collector, a denied request for /shutdown does not start the
    shutdown actuator, and the state of the system is left as it was. *)
Theorem denied_request_403 (s : Server) (r : http.Request) (o : OS) :
  admits s (http.RemoteAddr r) = false ->
  denies OS s r
  /\ (forall pattern h w,
         In (pattern, h) (start s) ->
         let wd := exec (h w r) (mkWorld o []) in
         http.statusOf (trace wd) = http.StatusForbidden
         /\ os wd = o
         /\ existsb isCollectorCall (trace wd) = false
         /\ existsb isGo (trace wd) = false)
  /\ (http.Path r = "/metrics" ->
      http.statusOf (trace (served s r o)) = http.StatusForbidden
      /\ existsb isCollectorCall (trace (served s r o)) = false)
  /\ (http.Path r = "/shutdown" ->
      http.statusOf (trace (served s r o)) = http.StatusForbidden
      /\ existsb isGo (trace (served s r o)) = false).
Proof.
  intros Hadm.
  pose proof (requireTailscale_refuses OS s r Hadm) as Hd.
  split; [exact Hd|]. split; [|split].
  - intros pattern h w Hin.
    destruct (Start_routes s pattern h Hin) as [next ->].
    apply denied_response. exact Hd.
  - intros Hpath. unfold served, serve. fold start.
    rewrite (route_metrics s r _ Hpath).
    destruct (denied_response s r o (metrics s) http.response Hd)
      as [H1 [_ [H2 _]]].
    split; assumption.
  - intros Hpath. unfold served, serve. fold start.
    rewrite (route_shutdown s r _ Hpath).
    destruct (denied_response s r o (shutdown s) http.response Hd)
      as [H1 [_ [_ H2]]].
    split; assumption.
Qed.



Lemma handleShutdown_post (s : Server) (r : http.Request) (wd : World OS) :
  http.Method r = "POST" ->
  let force := String.eqb (http.Get (http.Query r) "force") "true" in
  shutdown s http.response r wd =
  (tt, mkWorld (os wd)
         (trace wd
          ++ [Logf "Shutdown requested via web API (%s)";
              HeaderSet "Content-Type" "text/plain";
              Write ("Shutdown initiated ("
                       ++ (if force then "forced" else "graceful")
                       ++ ")..." ++ nl);
              Flush;
              Go (goroutine ShutdownSystem force (os wd))])%list).
Proof.
  intros Hpost. unfold shutdown, handleShutdown. rewrite Hpost.
  change (negb (String.eqb "POST" http.MethodPost)) with false. cbv iota zeta.
  unfold bind, logf, http.Fprintf, emit, go, goroutine, exec.
  cbn [os trace http.isFlusher http.response].
  rewrite <- !app_assoc. reflexivity.
Qed.

End Service.

Lemma denied_request_403_witness :
  admits (New ":6942") "8.8.8.8:53" = false
  /\ http.statusOf
       (trace (demoServe (New ":6942")
                         (http.mkRequest "GET" "/metrics" [] "8.8.8.8:53")))
     = http.StatusForbidden
  /\ existsb isCollectorCall
       (trace (demoServe (New ":6942")
                         (http.mkRequest "GET" "/metrics" [] "8.8.8.8:53")))
     = false.
Proof.
  split; [reflexivity|].
  destruct (denied_request_403 Commands nodeHostname zeroCollector
              Linux.shutdownSystem (fun _ => "0.00") (New ":6942")
              (http.mkRequest "GET" "/metrics" [] "8.8.8.8:53")
              failingCommands eq_refl) as [_ [_ [Hmetrics _]]].
  apply Hmetrics. reflexivity.
Defined.


(** ** The shutdown actuator *)

Ltac run_actuator :=
  unfold goroutine, exec, bind, time_Sleep, emit, Run, ret, logf;
  cbn [os trace snd fst app].

Ltac split_results :=
  repeat match goal with
         | |- context [match ?c ?a with _ => _ end] =>
             destruct (c a); cbn [os trace snd fst app]
         | |- context [if ?b then _ else _] =>
             destruct b; cbn [os trace snd fst app]
         end.

Lemma linux_delay_first (force : bool) (cmds : Commands) :
  exists rest, goroutine Linux.shutdownSystem force cmds = Sleep 100 :: rest.
Proof.
  unfold Linux.shutdownSystem. run_actuator.
  destruct force; run_actuator;
    repeat (match goal with
            | |- context [cmds ?a] => destruct (cmds a)
            end; run_actuator);
    eexists; reflexivity.
Qed.

Lemma darwin_delay_first (force : bool) (cmds : Commands) :
  exists rest, goroutine Darwin.shutdownSystem force cmds = Sleep 100 :: rest.
Proof.
  unfold Darwin.shutdownSystem. run_actuator.
  destruct force; run_actuator;
    repeat (match goal with
            | |- context [cmds ?a] => destruct (cmds a)
            end; run_actuator);
    eexists; reflexivity.
Qed.

Ltac run_win32 :=
  unfold Windows.shutdownWithToken, Windows.Call;
  change (Windows.UTF16PtrFromString "SeShutdownPrivilege") with (@None string);
  unfold goroutine, exec, bind, time_Sleep, emit, getOS, ret, logf; cbn.

Ltac split_win32 :=
  repeat (match goal with
          | |- context [if ?z =? 0 then _ else _] => is_var z; destruct (z =? 0)
          | |- context [let (_, _) := ?f ?x in _] => is_var f; destruct (f x)
          | |- context [match ?e with Some _ => _ | None => _ end] =>
              is_var e; destruct e
          end; cbn).

Lemma windows_delay_first (force : bool) (k : Windows.Win32) :
  exists rest, goroutine Windows.shutdownSystem force k = Sleep 100 :: rest.
Proof.
  destruct k as [gcp [r1 e1] [r2 e2] [r3 e3] ewx].
  unfold Windows.shutdownSystem. run_win32.
  split_win32; eexists; reflexivity.
Qed.

Lemma windows_xsys_delay_first (force : bool) (k : Windows.Win32) :
  exists rest,
    goroutine Windows.shutdownSystem_xsys force k = Sleep 100 :: rest.
Proof.
  destruct k as [gcp [r1 e1] [r2 e2] [r3 e3] ewx].
  unfold Windows.shutdownSystem_xsys. run_win32.
  split_win32; eexists; reflexivity.
Qed.

(** C8.  For every allowed POST /shutdown the confirmation, which says
    "forced" when the force parameter is exactly "true" and "graceful"
    otherwise, is written and flushed before the goroutine of the actuator
    is started, and on every platform the goroutine begins with the 100 ms
    delay: everything the actuator does to the platform comes after it,
    on every path. *)
Theorem shutdown_response_precedes_actuation
        {F : Type} (OS : Type) (Hostname : OS -> string * error)
        (GetSystemMetrics : M OS (SystemMetrics F * error))
        (ShutdownSystem : bool -> M OS error) (fmt2f : F -> string)
        (s : Server) (r : http.Request) (o : OS) :
  admits s (http.RemoteAddr r) = true ->
  http.Method r = "POST" ->
  http.Path r = "/shutdown" ->
  let force := String.eqb (http.Get (http.Query r) "force") "true" in
  let kind := if force then "forced" else "graceful" in
  let t := trace (serve OS Hostname GetSystemMetrics ShutdownSystem fmt2f
                        s r o) in
  t = [Logf "Shutdown requested via web API (%s)";
       HeaderSet "Content-Type" "text/plain";
       Write ("Shutdown initiated (" ++ kind ++ ")..." ++ nl);
       Flush;
       Go (goroutine ShutdownSystem force o)]
  /\ http.statusOf t = http.StatusOK
  /\ Contains (http.bodyOf t) kind = true
  /\ (forall f cmds, exists rest,
         goroutine Linux.shutdownSystem f cmds = Sleep 100 :: rest)
  /\ (forall f cmds, exists rest,
         goroutine Darwin.shutdownSystem f cmds = Sleep 100 :: rest)
  /\ (forall f k, exists rest,
         goroutine Windows.shutdownSystem f k = Sleep 100 :: rest)
  /\ (forall f k, exists rest,
         goroutine Windows.shutdownSystem_xsys f k = Sleep 100 :: rest).
Proof.
  intros Hadm Hpost Hpath force kind t.
  assert (Ht : t = [Logf "Shutdown requested via web API (%s)";
                    HeaderSet "Content-Type" "text/plain";
                    Write ("Shutdown initiated (" ++ kind ++ ")..." ++ nl);
                    Flush;
                    Go (goroutine ShutdownSystem force o)]).
  { unfold t, serve, exec.
    rewrite (route_shutdown OS Hostname GetSystemMetrics ShutdownSystem fmt2f
                            s r _ Hpath).
    rewrite (requireTailscale_admits OS s r Hadm).
    rewrite (handleShutdown_post OS ShutdownSystem s r _ Hpost).
    reflexivity. }
  split; [exact Ht|]. rewrite Ht.
  split; [reflexivity|].
  split; [unfold kind; destruct force; reflexivity|].
  split; [exact linux_delay_first|].
  split; [exact darwin_delay_first|].
  split; [exact windows_delay_first | exact windows_xsys_delay_first].
Qed.

Lemma shutdown_response_precedes_actuation_witness :
  trace (demoServe (New ":6942")
           (http.mkRequest "POST" "/shutdown" [("force", ["true"])]
                           "100.100.1.1:40000"))
  = [Logf "Shutdown requested via web API (%s)";
     HeaderSet "Content-Type" "text/plain";
     Write ("Shutdown initiated (forced)..." ++ nl);
     Flush;
     Go (goroutine Linux.shutdownSystem true failingCommands)].
Proof.
  apply (shutdown_response_precedes_actuation Commands nodeHostname
           zeroCollector Linux.shutdownSystem (fun _ => "0.00") (New ":6942")
           (http.mkRequest "POST" "/shutdown" [("force", ["true"])]
                           "100.100.1.1:40000")
           failingCommands eq_refl eq_refl eq_refl).
Defined.

(** C7 (as amended).  On Linux, for either value of the force flag, the
    fallback command is run when the primary command fails, before any
    error is returned, and the call returns what the fallback returns:
    success when it succeeds, and when both fail the fallback's error
    alone.  On Darwin the one command is run and its result returned;
    there is no fallback.  On Windows no command is run and ExitWindowsEx
    is called at most once. *)
Theorem shutdown_fallback (force : bool) (cmds : Commands) :
  let primary := if force then ["systemctl"; "poweroff"; "-i"; "--force"]
                 else ["shutdown"; "-h"; "+1"] in
  let fallback := if force then ["shutdown"; "-h"; "now"]
                  else ["systemctl"; "poweroff"] in
  let only := if force then ["sudo"; "shutdown"; "-h"; "now"]
              else ["sudo"; "shutdown"; "-h"; "+1"] in
  Linux.shutdownSystem force (mkWorld cmds []) =
    match cmds primary with
    | Some _ =>
        (cmds fallback, mkWorld cmds [Sleep 100; Exec primary; Exec fallback])
    | None => (None, mkWorld cmds [Sleep 100; Exec primary])
    end
  /\ Darwin.shutdownSystem force (mkWorld cmds []) =
     (cmds only, mkWorld cmds [Sleep 100; Exec only])
  /\ forall k : Windows.Win32,
      let t := trace (snd (Windows.shutdownSystem force (mkWorld k []))) in
      let t' := trace (snd (Windows.shutdownSystem_xsys force (mkWorld k []))) in
      execs t = [] /\ (List.length (filter isExitWindowsEx t) <= 1)%nat
      /\ execs t' = [] /\ (List.length (filter isExitWindowsEx t') <= 1)%nat.
Proof.
  cbv zeta. split; [|split].
  - unfold Linux.shutdownSystem. run_actuator.
    destruct force; run_actuator;
      match goal with
      | |- context [cmds ?a] => destruct (cmds a)
      end; reflexivity.
  - unfold Darwin.shutdownSystem. run_actuator.
    destruct force; reflexivity.
  - intros k. destruct k as [gcp [r1 e1] [r2 e2] [r3 e3] ewx].
    unfold Windows.shutdownSystem, Windows.shutdownSystem_xsys. run_win32.
    split_win32; cbn; repeat split; auto.
Qed.

(** C7 (as stated) fails.  On Darwin, when the one command fails no second
    command is run.  On Linux, when the primary and the fallback both
    fail, the error returned is the fallback's and does not carry the
    primary's. *)
Lemma fallback_rule_fails :
  ~ fallback_rule Darwin.shutdownSystem /\ ~ fallback_rule Linux.shutdownSystem.
Proof.
  split; intros Hrule.
  - destruct (Hrule false failingCommands ["sudo"; "shutdown"; "-h"; "+1"] []
                    "shutdown: exit status 2" eq_refl eq_refl)
      as [fallback [Hnone _]].
    discriminate Hnone.
  - destruct (Hrule true failingCommands
                    ["systemctl"; "poweroff"; "-i"; "--force"]
                    [["shutdown"; "-h"; "now"]]
                    "systemctl: exit status 1" eq_refl eq_refl)
      as [fallback [Hone [_ Hboth]]].
    injection Hone as <-.
    destruct (Hboth "shutdown: exit status 2" eq_refl)
      as [msg [Hmsg [Hcarries _]]].
    vm_compute in Hmsg. injection Hmsg as <-.
    vm_compute in Hcarries. discriminate Hcarries.
Qed.

(** ** Binary64 results that are numbers and are not negative *)

Lemma digits2_size (p : positive) : digits2_pos p = Pos.size p.
Proof. induction p as [p IH|p IH|]; cbn; now rewrite ?IH. Qed.

Lemma Zdigits2_log2 (p : positive) :
  Zdigits2 (Z.pos p) = Z.log2 (Z.pos p) + 1.
Proof.
  cbn [Zdigits2]. rewrite digits2_size.
  destruct p as [p|p|]; cbn [Pos.size Z.log2]; lia.
Qed.

Lemma shr_1_m (mrs : shr_record) :
  0 <= shr_m mrs -> shr_m (shr_1 mrs) = Z.shiftr (shr_m mrs) 1.
Proof.
  destruct mrs as [m r s]. cbn [shr_m]. intros Hm.
  rewrite <- Z.div2_spec.
  destruct m as [|[p|p|]|p]; try reflexivity; lia.
Qed.

Lemma iter_shr_1_m (p : positive) :
  forall mrs, 0 <= shr_m mrs ->
              shr_m (iter_pos shr_1 p mrs) = Z.shiftr (shr_m mrs) (Z.pos p).
Proof.
  induction p as [p IH|p IH|]; intros mrs Hm; cbn [iter_pos].
  - assert (H1 : 0 <= shr_m (shr_1 mrs))
      by (rewrite shr_1_m by exact Hm; now apply Z.shiftr_nonneg).
    assert (H2 : 0 <= shr_m (iter_pos shr_1 p (shr_1 mrs)))
      by (rewrite IH by exact H1; now apply Z.shiftr_nonneg).
    rewrite IH by exact H2. rewrite IH by exact H1.
    rewrite shr_1_m by exact Hm.
    rewrite !Z.shiftr_shiftr by lia. f_equal. lia.
  - assert (H1 : 0 <= shr_m (iter_pos shr_1 p mrs))
      by (rewrite IH by exact Hm; now apply Z.shiftr_nonneg).
    rewrite IH by exact H1. rewrite IH by exact Hm.
    rewrite Z.shiftr_shiftr by lia. f_equal. lia.
  - now apply shr_1_m.
Qed.

Lemma shr_record_of_loc_m (m : Z) (l : location) :
  shr_m (shr_record_of_loc m l) = m.
Proof. destruct l as [|[| |]]; reflexivity. Qed.

(** What [shr_fexp] leaves of a mantissa that is not negative. *)
Lemma shr_fexp_m (m e : Z) (l : location) :
  0 <= m ->
  let n := fexp 53 1024 (Zdigits2 m + e) - e in
  shr_fexp 53 1024 m e l
  = (fst (shr_fexp 53 1024 m e l), if 0 <? n then e + n else e)
  /\ shr_m (fst (shr_fexp 53 1024 m e l))
     = (if 0 <? n then Z.shiftr m n else m).
Proof.
  intros Hm n. unfold shr_fexp. fold n. unfold shr.
  destruct n as [|k|k]; cbn [fst Z.ltb Z.compare].
  - split; [reflexivity | apply shr_record_of_loc_m].
  - split; [reflexivity|].
    rewrite iter_shr_1_m by (rewrite shr_record_of_loc_m; exact Hm).
    now rewrite shr_record_of_loc_m.
  - split; [reflexivity | apply shr_record_of_loc_m].
Qed.

Lemma round_nearest_even_ge (m : Z) (l : location) :
  m <= round_nearest_even m l <= m + 1.
Proof.
  unfold round_nearest_even. destruct l as [|[| |]]; try lia.
  destruct (Z.even m); lia.
Qed.

(** A positive mantissa stays positive through [shr_fexp], and the
    exponent grows by no more than the bits that are dropped. *)
Lemma shr_fexp_pos (m e : Z) (l : location) :
  0 < m -> -1074 <= e ->
  0 < shr_m (fst (shr_fexp 53 1024 m e l)) <= m
  /\ e <= snd (shr_fexp 53 1024 m e l) <= e + Z.max 0 (Z.log2 m - 52).
Proof.
  intros Hm He.
  destruct (shr_fexp_m m e l (Z.lt_le_incl _ _ Hm)) as [Hpair Hshr].
  cbv zeta in Hpair, Hshr. rewrite Hpair at 3 4. cbn [snd]. rewrite Hshr.
  clear Hpair Hshr.
  destruct m as [|p|p]; try lia. rewrite Zdigits2_log2.
  unfold fexp, emin.
  pose proof (Z.log2_spec (Z.pos p) ltac:(lia)) as [Hlo Hhi].
  pose proof (Z.log2_nonneg (Z.pos p)) as Hlog.
  set (lg := Z.log2 (Z.pos p)) in *.
  destruct (Z.ltb_spec 0 (Z.max (lg + 1 + e - 53) (3 - 1024 - 53) - e))
    as [Hn|Hn].
  - assert (En : Z.max (lg + 1 + e - 53) (3 - 1024 - 53) - e = lg - 52)
      by lia.
    rewrite En. rewrite Z.shiftr_div_pow2 by lia.
    assert (Hpow : 2 ^ (lg - 52) <= 2 ^ lg)
      by (apply Z.pow_le_mono_r; lia).
    assert (Hpos : 0 < 2 ^ (lg - 52)) by (apply Z.pow_pos_nonneg; lia).
    split; [split|lia].
    + apply Z.lt_le_trans with 1; [lia|].
      apply Z.div_le_lower_bound; lia.
    + apply Z.div_le_upper_bound; [lia|]. nia.
  - lia.
Qed.

Lemma binary_round_aux_finite (sx : bool) (m e : Z) (l : location) :
  0 < m < 2 ^ 64 -> -1074 <= e <= 0 ->
  exists m' e', binary_round_aux 53 1024 sx m e l = S754_finite sx m' e'.
Proof.
  intros Hm He. unfold binary_round_aux.
  destruct (shr_fexp_pos m e l (proj1 Hm) (proj1 He)) as [[H1 H1'] [H2 H3]].
  destruct (shr_fexp 53 1024 m e l) as [mrs' e'] eqn:E1. cbn [fst snd] in *.
  pose proof (round_nearest_even_ge (shr_m mrs') (loc_of_shr_record mrs'))
    as Hround.
  set (r := round_nearest_even (shr_m mrs') (loc_of_shr_record mrs')) in *.
  assert (Hlogm : Z.log2 m < 64) by (apply Z.log2_lt_pow2; lia).
  assert (Hlogr : Z.log2 r < 65) by (apply Z.log2_lt_pow2; lia).
  destruct (shr_fexp_pos r e' loc_Exact ltac:(lia) ltac:(lia))
    as [[H4 H4'] [H5 H6]].
  destruct (shr_fexp 53 1024 r e' loc_Exact) as [mrs'' e''] eqn:E2.
  cbn [fst snd] in *.
  destruct (shr_m mrs'') as [|q|q]; try lia.
  destruct (Z.leb_spec e'' (1024 - 53)) as [Hle|Hgt]; [|lia].
  now exists q, e''.
Qed.

Lemma binary_round_aux_nonnegative (m e : Z) (l : location) :
  0 <= m -> nonnegative64 (binary_round_aux 53 1024 false m e l) = true.
Proof.
  intros Hm. unfold binary_round_aux.
  destruct (shr_fexp_m m e l Hm) as [_ H1]. cbv zeta in H1.
  destruct (shr_fexp 53 1024 m e l) as [mrs' e'] eqn:E1. cbn [fst] in H1.
  assert (Hm1 : 0 <= shr_m mrs').
  { rewrite H1.
    destruct (0 <? fexp 53 1024 (Zdigits2 m + e) - e);
      [now apply Z.shiftr_nonneg | exact Hm]. }
  pose proof (round_nearest_even_ge (shr_m mrs') (loc_of_shr_record mrs'))
    as Hround.
  set (r := round_nearest_even (shr_m mrs') (loc_of_shr_record mrs')) in *.
  destruct (shr_fexp_m r e' loc_Exact ltac:(lia)) as [_ H2]. cbv zeta in H2.
  destruct (shr_fexp 53 1024 r e' loc_Exact) as [mrs'' e''] eqn:E2.
  cbn [fst] in H2.
  assert (Hm2 : 0 <= shr_m mrs'').
  { rewrite H2.
    destruct (0 <? fexp 53 1024 (Zdigits2 r + e') - e');
      [apply Z.shiftr_nonneg|]; lia. }
  destruct (shr_m mrs'') as [|q|q]; [reflexivity | | lia].
  destruct (e'' <=? 1024 - 53); reflexivity.
Qed.

Lemma iter_xO (k p : positive) :
  Z.pos (Pos.iter xO p k) = Z.pos p * 2 ^ Z.pos k.
Proof.
  induction k as [|k IH] using Pos.peano_ind.
  - cbn [Pos.iter]. lia.
  - rewrite Pos.iter_succ, Pos2Z.inj_xO, IH, Pos2Z.inj_succ.
    rewrite Z.pow_succ_r by lia. lia.
Qed.

(** The conversion of a [uint64] above zero is a finite positive number. *)
Lemma of_uint64_finite (d : Z) :
  0 < d < 2 ^ 64 ->
  exists m e, @of_uint64 spec_float ieee64 d = S754_finite false m e.
Proof.
  intros Hd. destruct d as [|p|p]; try lia.
  cbn [of_uint64 ieee64 binary_normalize]. unfold binary_round.
  pose proof (Zdigits2_log2 p) as Hdg. cbn [Zdigits2] in Hdg.
  pose proof (Z.log2_spec (Z.pos p) ltac:(lia)) as [Hlo Hhi].
  pose proof (Z.log2_nonneg (Z.pos p)) as Hlog.
  assert (Hlt : Z.log2 (Z.pos p) < 64) by (apply Z.log2_lt_pow2; lia).
  rewrite Hdg. set (lg := Z.log2 (Z.pos p)) in *.
  unfold shl_align, fexp, emin.
  destruct (Z.max (lg + 1 + 0 - 53) (3 - 1024 - 53) - 0) as [|k|k] eqn:Ek.
  - apply binary_round_aux_finite; lia.
  - apply binary_round_aux_finite; lia.
  - apply binary_round_aux_finite; [|lia].
    rewrite iter_xO. split; [lia|].
    assert (Ek' : Z.pos k = 52 - lg) by lia.
    rewrite Ek'.
    apply Z.lt_le_trans with (2 ^ Z.succ lg * 2 ^ (52 - lg)).
    + apply Z.mul_lt_mono_pos_r; [apply Z.pow_pos_nonneg; lia | exact Hhi].
    + rewrite <- Z.pow_add_r by lia.
      apply Z.pow_le_mono_r; lia.
Qed.

Lemma of_uint64_nonnegative (n : Z) :
  0 <= n -> nonnegative64 (@of_uint64 spec_float ieee64 n) = true.
Proof.
  intros Hn. destruct n as [|p|p]; [reflexivity| |lia].
  cbn [of_uint64 ieee64 binary_normalize]. unfold binary_round.
  destruct (shl_align _ _ _) as [mz ez].
  apply binary_round_aux_nonnegative. lia.
Qed.

Lemma SFdiv_nonnegative (x y : spec_float) :
  nonnegative64 x = true ->
  (exists m e, y = S754_finite false m e) ->
  nonnegative64 (SFdiv 53 1024 x y) = true.
Proof.
  intros Hx [my [ey ->]].
  destruct x as [[|]|[|]| |[|] mx ex]; try discriminate Hx; try reflexivity.
  cbn [SFdiv xorb]. unfold SFdiv_core_binary. cbv zeta.
  match goal with
  | |- context [Z.div_eucl ?a ?b] =>
      assert (Hq : 0 <= a / b);
      [apply Z.div_pos; [|lia] | unfold Z.div in Hq;
                                  destruct (Z.div_eucl a b) as [q r]]
  end.
  - match goal with
    | |- 0 <= match ?s with _ => _ end => destruct s
    end; [lia | apply Z.shiftl_nonneg; lia | lia].
  - apply binary_round_aux_nonnegative. exact Hq.
Qed.

Lemma SFmul_nonnegative (x y : spec_float) :
  nonnegative64 x = true ->
  (exists m e, y = S754_finite false m e) ->
  nonnegative64 (SFmul 53 1024 x y) = true.
Proof.
  intros Hx [my [ey ->]].
  destruct x as [[|]|[|]| |[|] mx ex]; try discriminate Hx; try reflexivity.
  cbn [SFmul xorb]. apply binary_round_aux_nonnegative. lia.
Qed.

(** used / total * 100 in binary64, for a total above zero. *)
Lemma percent_nonnegative (used total : Z) :
  0 <= used -> 0 < total < 2 ^ 64 ->
  nonnegative64
    (@fmul spec_float ieee64
       (@fdiv spec_float ieee64 (@of_uint64 spec_float ieee64 used)
              (@of_uint64 spec_float ieee64 total))
       (@of_uint64 spec_float ieee64 100)) = true.
Proof.
  intros Hu Ht. cbn [fmul fdiv ieee64].
  apply SFmul_nonnegative; [|apply of_uint64_finite; lia].
  apply SFdiv_nonnegative;
    [now apply of_uint64_nonnegative | now apply of_uint64_finite].
Qed.

Lemma nonnegative64_number (f : spec_float) :
  nonnegative64 f = true ->
  SFleb (@of_uint64 spec_float ieee64 0) f = true /\ f <> S754_nan.
Proof.
  destruct f as [[|]|[|]| |[|] m e]; intros H; try discriminate H;
    split; (reflexivity || discriminate).
Qed.

(** ** The CPU samplers *)

Lemma u64_small (n : Z) : 0 <= n < 2 ^ 64 -> u64 n = n.
Proof. intros Hn. unfold u64. now apply Z.mod_small. Qed.

Lemma u64_range (n : Z) : 0 <= u64 n < 2 ^ 64.
Proof. unfold u64. apply Z.mod_pos_bound. reflexivity. Qed.

(** (total - idle) / total * 100 is 100 * (1 - idle / total). *)
Lemma usage_formula (dTotal dIdle : Z) :
  0 < dTotal ->
  (inject_Z (dTotal - dIdle) / inject_Z dTotal * inject_Z 100
   == 100 * (1 - inject_Z dIdle / inject_Z dTotal))%Q.
Proof.
  intros Hpos. unfold Z.sub. rewrite inject_Z_plus, inject_Z_opp.
  change (inject_Z 100) with 100%Q.
  field. unfold Qeq. simpl. lia.
Qed.

(** C5 (as amended).  On Linux the first successful call of the sampler in
    a process stores the counters and returns exactly 0, and so does every
    call that finds a stored total of zero, which the sampler takes for no
    sample.  A later call, when the stored total is above zero, the total
    advanced and the idle counter grew by no more than the total, stores
    the new counters and returns the binary64 value of (total_delta -
    idle_delta) / total_delta * 100, the quotient rounded first and then
    the product.  In exact arithmetic that expression is 100 * (1 -
    idle_delta / total_delta); evaluated in binary64 as it is written it
    can differ from what the sampler returns, as it does when total is 3
    higher and idle 1 higher.  With idle 50 higher and total 100 higher the call returns
    exactly 50.0, whatever the counters are.  On Windows the first call is
    the one that finds the stored time zero: it stores the counters and
    returns exactly 0.  A later call, when no counter went back and idle
    grew by no more than kernel and user together, returns the same
    expression with total_delta the sum of the kernel and the user delta,
    exactly 50.0 for the deltas 50 and 100, also after a first sample of
    zeros. *)
Theorem cpu_sampler (last : Linux.cpuStats)
        (fuser fnice fsystem fidle fiowait firq : Z) (now : Time)
        (k : Windows.Kernel32) (lastW : Windows.cpuTimes) :
  let read := Linux.Fields fuser fnice fsystem fidle fiowait firq in
  let newTotal := u64 (fuser + fnice + fsystem + fidle + fiowait + firq) in
  let stats := Linux.mkCpuStats fuser fnice fsystem fidle fiowait firq
                                newTotal now in
  let dTotal := newTotal - Linux.total last in
  let dIdle := fidle - Linux.idle last in
  let '(ret, _, (idleTime, kernelTime, userTime)) :=
    Windows.GetSystemTimes k in
  let idleW := Windows.fileTimeToUint64 idleTime in
  let kernelW := Windows.fileTimeToUint64 kernelTime in
  let userW := Windows.fileTimeToUint64 userTime in
  let dIdleW := idleW - Windows.idle lastW in
  let dTotalW :=
    (kernelW - Windows.kernel lastW) + (userW - Windows.user lastW) in
  let stored := Windows.mkCpuTimes idleW kernelW userW now in
  (forall (F : Type) (ops : Float64 F),
      @Linux.getCPUUsage F ops read now Linux.zeroStats =
      ((of_uint64 0, None), stats))
  /\ @of_uint64 spec_float ieee64 0 = S754_zero false
  /\ (forall (F : Type) (ops : Float64 F) (last0 : Linux.cpuStats),
         Linux.total last0 = 0 ->
         @Linux.getCPUUsage F ops read now last0 = ((of_uint64 0, None), stats))
  /\ (0 < Linux.total last < newTotal -> 0 <= dIdle <= dTotal ->
      (forall (F : Type) (ops : Float64 F),
          @Linux.getCPUUsage F ops read now last =
          ((fmul (fdiv (of_uint64 (dTotal - dIdle)) (of_uint64 dTotal))
                 (of_uint64 100), None), stats))
      /\ (inject_Z (dTotal - dIdle) / inject_Z dTotal * 100
          == 100 * (1 - inject_Z dIdle / inject_Z dTotal))%Q
      /\ (dIdle = 50 -> dTotal = 100 ->
          fst (fst (@Linux.getCPUUsage spec_float ieee64 read now last))
          = @of_uint64 spec_float ieee64 50))
  /\ fst (fst (@Linux.getCPUUsage spec_float ieee64
                 (Linux.Fields 2 0 0 2 0 0) now
                 (Linux.mkCpuStats 0 0 0 1 0 0 1 now)))
     <> formula64 (4 - 1) (2 - 1)
  /\ (ret <> 0 ->
      forall (F : Type) (ops : Float64 F) (zero : Windows.cpuTimes),
        Windows.time zero = zeroTime ->
        @Windows.getCPUUsage F ops k now zero = ((of_uint64 0, None), stored))
  /\ (ret <> 0 -> IsZero (Windows.time lastW) = false ->
      0 <= kernelW - Windows.kernel lastW < 2 ^ 64 ->
      0 <= userW - Windows.user lastW < 2 ^ 64 ->
      0 <= dIdleW <= dTotalW -> 0 < dTotalW < 2 ^ 64 ->
      (forall (F : Type) (ops : Float64 F),
          @Windows.getCPUUsage F ops k now lastW =
          ((fmul (fdiv (of_uint64 (dTotalW - dIdleW)) (of_uint64 dTotalW))
                 (of_uint64 100), None), stored))
      /\ (dIdleW = 50 -> dTotalW = 100 ->
          fst (fst (@Windows.getCPUUsage spec_float ieee64 k now lastW))
          = @of_uint64 spec_float ieee64 50)).
Proof.
  destruct (Windows.GetSystemTimes k)
    as [[ret err] [[idleTime kernelTime] userTime]] eqn:Ek.
  cbv zeta.
  set (newTotal := u64 (fuser + fnice + fsystem + fidle + fiowait + firq)).
  split; [intros F ops; reflexivity|].
  split; [reflexivity|].
  split.
  { intros F ops last0 Hzero.
    unfold Linux.getCPUUsage. rewrite Hzero. reflexivity. }
  split.
  { intros Htotal Hidle.
    assert (HnewTotal : 0 <= newTotal < 2 ^ 64) by apply u64_range.
    assert (Hrun : forall (F : Type) (ops : Float64 F),
               @Linux.getCPUUsage F ops
                 (Linux.Fields fuser fnice fsystem fidle fiowait firq) now last
               = ((fmul (fdiv (of_uint64 (newTotal - Linux.total last
                                          - (fidle - Linux.idle last)))
                              (of_uint64 (newTotal - Linux.total last)))
                        (of_uint64 100), None),
                  Linux.mkCpuStats fuser fnice fsystem fidle fiowait firq
                                   newTotal now)).
    { intros F ops. unfold Linux.getCPUUsage. cbv zeta.
      cbn [Linux.total Linux.idle]. fold newTotal.
      replace (0 <? Linux.total last) with true
        by (symmetry; apply Z.ltb_lt; lia).
      rewrite (u64_small (newTotal - Linux.total last)) by lia.
      rewrite (u64_small (fidle - Linux.idle last)) by lia.
      rewrite u64_small by lia.
      replace (0 <? newTotal - Linux.total last) with true
        by (symmetry; apply Z.ltb_lt; lia).
      reflexivity. }
    split; [exact Hrun|]. split.
    - change 100%Q with (inject_Z 100). apply usage_formula. lia.
    - intros H50 H100. rewrite Hrun. cbn [fst]. rewrite H50, H100.
      vm_compute. reflexivity. }
  split; [vm_compute; discriminate|].
  split.
  { intros Hret F ops zero Hzero. unfold Windows.getCPUUsage. rewrite Ek.
    apply Z.eqb_neq in Hret. rewrite Hret, Hzero. reflexivity. }
  intros Hret Hlater Hk Hu Hidle Htotal.
  assert (Hrun : forall (F : Type) (ops : Float64 F),
             @Windows.getCPUUsage F ops k now lastW =
             ((fmul (fdiv (of_uint64
                             (Windows.fileTimeToUint64 kernelTime
                              - Windows.kernel lastW
                              + (Windows.fileTimeToUint64 userTime
                                 - Windows.user lastW)
                              - (Windows.fileTimeToUint64 idleTime
                                 - Windows.idle lastW)))
                          (of_uint64
                             (Windows.fileTimeToUint64 kernelTime
                              - Windows.kernel lastW
                              + (Windows.fileTimeToUint64 userTime
                                 - Windows.user lastW))))
                    (of_uint64 100), None),
              Windows.mkCpuTimes (Windows.fileTimeToUint64 idleTime)
                                 (Windows.fileTimeToUint64 kernelTime)
                                 (Windows.fileTimeToUint64 userTime) now)).
  { intros F ops. unfold Windows.getCPUUsage. rewrite Ek.
    apply Z.eqb_neq in Hret. rewrite Hret, Hlater.
    rewrite (u64_small (Windows.fileTimeToUint64 kernelTime - _)) by lia.
    rewrite (u64_small (Windows.fileTimeToUint64 userTime - _)) by lia.
    rewrite (u64_small (_ + _)) by lia.
    rewrite (u64_small (Windows.fileTimeToUint64 idleTime - _)) by lia.
    rewrite u64_small by lia.
    replace (0 <? _) with true by (symmetry; apply Z.ltb_lt; lia).
    reflexivity. }
  split; [exact Hrun|].
  intros H50 H100. rewrite Hrun. cbn [fst]. rewrite H50, H100.
  vm_compute. reflexivity.
Qed.

Lemma cpu_sampler_witness :
  fst (fst (@Linux.getCPUUsage spec_float ieee64
              (Linux.Fields 150 0 0 150 0 0) (instant 1)
              (Linux.mkCpuStats 100 0 0 100 0 0 200 (instant 0))))
  = @of_uint64 spec_float ieee64 50
  /\ fst (fst (@Windows.getCPUUsage spec_float ieee64 (systemTimes 50 100 0)
                 (instant 1) (Windows.mkCpuTimes 0 0 0 (instant 0))))
     = @of_uint64 spec_float ieee64 50.
Proof.
  destruct (cpu_sampler (Linux.mkCpuStats 100 0 0 100 0 0 200 (instant 0))
              150 0 0 150 0 0 (instant 1) (systemTimes 50 100 0)
              (Windows.mkCpuTimes 0 0 0 (instant 0)))
    as (_ & _ & _ & Hlinux & _ & _ & Hwindows).
  split.
  - destruct Hlinux as (_ & _ & H50);
      [vm_compute; split; congruence | vm_compute; split; congruence |].
    apply H50; reflexivity.
  - destruct Hwindows as (_ & H50);
      [discriminate | reflexivity | vm_compute; split; congruence ..|].
    apply H50; reflexivity.
Defined.

(** C5 (as stated) fails: when the counters of the first sample are all
    zero, the second call, with idle 50 higher and total 100 higher,
    returns 0 and not 50.0. *)
Lemma second_call_after_zero_sample : ~ second_call_rule.
Proof.
  intros Hrule.
  specialize (Hrule 0 0 0 0 0 0).
  vm_compute in Hrule.
  assert (H50 : S754_zero false = S754_finite false 7036874417766400 (-47)).
  { apply Hrule; congruence. }
  discriminate H50.
Qed.

(** C6 (the code departs from it).  The counters decreased between two
    samples, so that total_delta is negative, and the sampler does not
    report 0: the unsigned subtraction wraps, the guard [totalDelta > 0]
    holds, and the percentage is computed from the wrapped deltas, 100.0 on
    Linux and on Windows here.  When the counters did not move the guard
    does hold the division back, and 0 is reported. *)
Theorem decreased_counters_not_reported_zero :
  fst (fst (@Linux.getCPUUsage spec_float ieee64
              (Linux.Fields 400 0 0 500 0 0) (instant 1)
              (Linux.mkCpuStats 500 0 0 500 0 0 1000 (instant 0))))
  = @of_uint64 spec_float ieee64 100
  /\ fst (fst (@Windows.getCPUUsage spec_float ieee64
                 (systemTimes 500 900 1000) (instant 1)
                 (Windows.mkCpuTimes 500 1000 1000 (instant 0))))
     = @of_uint64 spec_float ieee64 100
  /\ @of_uint64 spec_float ieee64 100 <> @of_uint64 spec_float ieee64 0
  /\ fst (fst (@Linux.getCPUUsage spec_float ieee64
                 (Linux.Fields 500 0 0 500 0 0) (instant 1)
                 (Linux.mkCpuStats 500 0 0 500 0 0 1000 (instant 0))))
     = @of_uint64 spec_float ieee64 0
  /\ fst (fst (@Windows.getCPUUsage spec_float ieee64
                 (systemTimes 500 1000 1000) (instant 1)
                 (Windows.mkCpuTimes 500 1000 1000 (instant 0))))
     = @of_uint64 spec_float ieee64 0.
Proof.
  repeat split; try (vm_compute; reflexivity).
  vm_compute. discriminate.
Qed.

(** ** The Windows collector *)

(** C9.  On Windows every call of the collector reports 0 for the bytes
    sent and 0 for the bytes received, whatever the system returns, and
    never fails; the other fields are collected: each one has the value
    its sub-measurement returned, or its zero value when that
    sub-measurement failed; the memory and the disk percentage are used /
    total * 100 of what their sub-measurement returned, computed when it
    succeeded with a total above zero and left at zero otherwise; and the
    CPU sample state is the sampler's. *)
Theorem windows_network_counters_zero {F : Type} (ops : Float64 F)
        (k : Windows.Kernel32) (now : Time) (last : Windows.cpuTimes) :
  let res := Windows.getSystemMetrics k now last in
  let m := fst (fst res) in
  let cpu := Windows.getCPUUsage k now last in
  let mem := Windows.getMemoryUsage k in
  let disk := Windows.getDiskUsage k in
  let up := Windows.getUptime k in
  NetworkBytesSent m = 0
  /\ NetworkBytesRecv m = 0
  /\ snd (fst res) = None
  /\ snd res = snd cpu
  /\ CPUPercent m = (if Windows.isNil (snd (fst cpu)) then fst (fst cpu)
                     else of_uint64 0)
  /\ MemoryUsed m = (if Windows.isNil (snd mem) then fst (fst mem) else 0)
  /\ MemoryTotal m = (if Windows.isNil (snd mem) then snd (fst mem) else 0)
  /\ MemoryPercent m =
     (if Windows.isNil (snd mem) && (0 <? snd (fst mem))
      then fmul (fdiv (of_uint64 (fst (fst mem))) (of_uint64 (snd (fst mem))))
                (of_uint64 100)
      else of_uint64 0)
  /\ DiskUsed m = (if Windows.isNil (snd disk) then fst (fst disk) else 0)
  /\ DiskTotal m = (if Windows.isNil (snd disk) then snd (fst disk) else 0)
  /\ DiskPercent m =
     (if Windows.isNil (snd disk) && (0 <? snd (fst disk))
      then fmul (fdiv (of_uint64 (fst (fst disk)))
                      (of_uint64 (snd (fst disk))))
                (of_uint64 100)
      else of_uint64 0)
  /\ UptimeSeconds m = (if Windows.isNil (snd up) then fst up else 0).
Proof.
  cbv zeta. unfold Windows.getSystemMetrics.
  destruct (Windows.getCPUUsage k now last) as [[cpu e1] st].
  destruct (Windows.getMemoryUsage k) as [[memUsed memTotal] e2].
  destruct (Windows.getDiskUsage k) as [[diskUsed diskTotal] e3].
  destruct (Windows.getUptime k) as [uptime e4].
  cbn. repeat split.
Qed.

(** ** Further properties of the handlers *)

Lemma FprintfAll_trace (OS : Type) (texts : list string) (wd : World OS) :
  FprintfAll OS texts wd =
  (tt, mkWorld (os wd) (trace wd ++ map Write texts)%list).
Proof.
  revert wd. induction texts as [|t texts IH]; intros wd.
  - cbn. rewrite app_nil_r. destruct wd; reflexivity.
  - cbn [FprintfAll map]. unfold bind, http.Fprintf, emit.
    rewrite IH. cbn [os trace]. rewrite <- app_assoc. reflexivity.
Qed.

Lemma bodyOf_Writes (texts : list string) :
  http.bodyOf (map Write texts) = String.concat "" texts.
Proof.
  induction texts as [|t texts IH]; [reflexivity|].
  cbn [map http.bodyOf]. rewrite IH.
  destruct texts; cbn [String.concat map]; [now rewrite append_nil_r|].
  reflexivity.
Qed.

Lemma http_Error_trace (OS : Type) (msg : string) (code : Z) (wd : World OS) :
  http.Error msg code wd =
  (tt, mkWorld (os wd)
         (trace wd ++ [HeaderDel "Content-Length";
                       HeaderSet "Content-Type" "text/plain; charset=utf-8";
                       HeaderSet "X-Content-Type-Options" "nosniff";
                       WriteHeader code;
                       Write (msg ++ nl)])%list).
Proof.
  unfold http.Error, bind, emit. cbn [os trace].
  rewrite <- !app_assoc. reflexivity.
Qed.

Section Handlers.

Context {F : Type}.
Variable OS : Type.
Variable Hostname : OS -> string * error.
Variable GetSystemMetrics : M OS (SystemMetrics F * error).
Variable ShutdownSystem : bool -> M OS error.
Variable fmt2f : F -> string.

Let served := serve OS Hostname GetSystemMetrics ShutdownSystem fmt2f.
Let start := Start OS Hostname GetSystemMetrics ShutdownSystem fmt2f.

(** X1.  An admitted request with the wrong method gets 405 and nothing
    else happens: /metrics with a method other than GET does not call the
    collector and leaves the system as it was, /shutdown with a method
    other than POST starts no goroutine, and any other path, in the
    canonical form in which [ServeMux] dispatches a request rather than
    redirecting it, with a method other than GET reports no hostname. *)
Theorem wrong_method_405 (s : Server) (r : http.Request) (o : OS) :
  admits s (http.RemoteAddr r) = true ->
  let wd := served s r o in
  (http.Path r = "/metrics" -> http.Method r <> "GET" ->
   http.statusOf (trace wd) = http.StatusMethodNotAllowed
   /\ http.bodyOf (trace wd) = ("Method not allowed" ++ nl)%string
   /\ collectorCalls (trace wd) = 0%nat
   /\ os wd = o)
  /\ (http.Path r = "/shutdown" -> http.Method r <> "POST" ->
      http.statusOf (trace wd) = http.StatusMethodNotAllowed
      /\ http.bodyOf (trace wd) = ("Method not allowed (use POST)" ++ nl)%string
      /\ existsb isGo (trace wd) = false
      /\ os wd = o)
  /\ (http.cleanPath (http.Path r) = http.Path r ->
      HasPrefix (http.Path r) "/" = true ->
      http.Path r <> "/metrics" -> http.Path r <> "/shutdown" ->
      http.Method r <> "GET" ->
      http.statusOf (trace wd) = http.StatusMethodNotAllowed
      /\ http.bodyOf (trace wd) = ("Method not allowed" ++ nl)%string
      /\ os wd = o).
Proof.
  intros Hadm wd.
  pose proof (requireTailscale_admits OS s r Hadm) as Hpass.
  split; [|split].
  - intros Hpath Hmethod. apply String.eqb_neq in Hmethod.
    unfold wd, served, serve, exec.
    rewrite (route_metrics OS Hostname GetSystemMetrics ShutdownSystem fmt2f
                           s r _ Hpath), Hpass.
    unfold handleMetrics. unfold http.MethodGet. rewrite Hmethod.
    cbn [negb]. rewrite http_Error_trace. repeat split.
  - intros Hpath Hmethod. apply String.eqb_neq in Hmethod.
    unfold wd, served, serve, exec.
    rewrite (route_shutdown OS Hostname GetSystemMetrics ShutdownSystem fmt2f
                            s r _ Hpath), Hpass.
    unfold handleShutdown. unfold http.MethodPost. rewrite Hmethod.
    cbn [negb]. rewrite http_Error_trace. repeat split.
  - intros Hcanonical Hslash Hm Hs Hmethod. apply String.eqb_neq in Hmethod.
    unfold wd, served, serve, exec.
    rewrite (route_root OS Hostname GetSystemMetrics ShutdownSystem fmt2f
                        s r _ Hslash Hm Hs), Hpass.
    unfold handleRoot. unfold http.MethodGet. rewrite Hmethod.
    cbn [negb]. rewrite http_Error_trace. repeat split.
Qed.

(** X2.  An admitted GET /metrics calls the collector exactly once and
    keeps the state the collector leaves.  When the collector returns no
    error the response is 200 with the content type of the exposition
    format and the body is the exposition text of the metrics, thirty
    lines written in order; when it returns an error the response is 500
    with that error's text and no metric is written.  The collector is
    assumed not to write to the response itself. *)
Theorem metrics_response (s : Server) (r : http.Request) (o : OS) :
  admits s (http.RemoteAddr r) = true ->
  http.Path r = "/metrics" ->
  http.Method r = "GET" ->
  (forall w, trace (snd (GetSystemMetrics w)) = trace w) ->
  let wd := served s r o in
  let res := GetSystemMetrics (mkWorld o [Called "GetSystemMetrics"]) in
  let m := fst (fst res) in
  collectorCalls (trace wd) = 1%nat
  /\ os wd = os (snd res)
  /\ (snd (fst res) = None ->
      http.statusOf (trace wd) = http.StatusOK
      /\ headerOf (trace wd) "Content-Type" None
         = Some "text/plain; version=0.0.4"
      /\ http.bodyOf (trace wd) = String.concat "" (exposition fmt2f m)
      /\ List.length (exposition fmt2f m) = 30%nat)
  /\ (forall e, snd (fst res) = Some e ->
      http.statusOf (trace wd) = http.StatusInternalServerError
      /\ http.bodyOf (trace wd) = ("Failed to get metrics: " ++ e ++ nl)%string).
Proof.
  intros Hadm Hpath Hmethod Hsilent wd res m.
  pose proof (requireTailscale_admits OS s r Hadm) as Hpass.
  assert (Hwd : wd = snd (handleMetrics OS GetSystemMetrics fmt2f s
                            http.response r (mkWorld o []))).
  { unfold wd, served, serve, exec.
    rewrite (route_metrics OS Hostname GetSystemMetrics ShutdownSystem fmt2f
                           s r _ Hpath), Hpass. reflexivity. }
  unfold handleMetrics in Hwd. rewrite Hmethod in Hwd.
  change (negb (String.eqb "GET" http.MethodGet)) with false in Hwd.
  cbv iota in Hwd. unfold bind at 1 2 in Hwd. unfold emit at 1 in Hwd.
  cbn [os trace app] in Hwd. fold res in Hwd.
  pose proof (Hsilent (mkWorld o [Called "GetSystemMetrics"])) as Htrace.
  fold res in Htrace. cbn [trace] in Htrace.
  unfold m. destruct res as [[metrics err] w1]. cbn [fst snd] in *.
  destruct w1 as [o1 t1]. cbn [trace os] in *. subst t1.
  destruct err as [e|].
  - unfold bind, logf, emit in Hwd. rewrite http_Error_trace in Hwd.
    cbn [os trace snd app] in Hwd. rewrite Hwd. cbn [os trace].
    split; [reflexivity|]. split; [reflexivity|].
    split; [discriminate|].
    intros e' E. injection E as <-.
    split; [reflexivity|]. cbn [http.bodyOf].
    now rewrite append_nil_r, append_assoc.
  - unfold bind, emit in Hwd. cbn [os trace] in Hwd.
    change (FprintfAll OS ?l) with (FprintfAll OS (exposition fmt2f metrics))
      in Hwd.
    rewrite FprintfAll_trace in Hwd. cbn [os trace snd app] in Hwd.
    rewrite Hwd. cbn [os trace].
    split; [reflexivity|]. split; [reflexivity|].
    split; [|discriminate]. intros _.
    split; [reflexivity|]. split; [reflexivity|].
    split; [|reflexivity].
    change (Called "GetSystemMetrics"
              :: HeaderSet "Content-Type" "text/plain; version=0.0.4"
              :: map Write (exposition fmt2f metrics))
      with ([Called "GetSystemMetrics";
             HeaderSet "Content-Type" "text/plain; version=0.0.4"]
              ++ map Write (exposition fmt2f metrics))%list.
    cbn [app http.bodyOf]. apply bodyOf_Writes.
Qed.

End Handlers.

Lemma wrong_method_405_witness :
  http.statusOf
    (trace (demoServe (New ":6942")
              (http.mkRequest "GET" "/shutdown" [("force", ["true"])]
                              "127.0.0.1:5000")))
  = http.StatusMethodNotAllowed
  /\ existsb isGo
       (trace (demoServe (New ":6942")
                 (http.mkRequest "GET" "/shutdown" [("force", ["true"])]
                                 "127.0.0.1:5000")))
     = false.
Proof.
  destruct (wrong_method_405 Commands nodeHostname zeroCollector
              Linux.shutdownSystem (fun _ => "0.00") (New ":6942")
              (http.mkRequest "GET" "/shutdown" [("force", ["true"])]
                              "127.0.0.1:5000")
              failingCommands eq_refl) as [_ [Hshutdown _]].
  destruct Hshutdown as [Hstatus [_ [Hgo _]]];
    [reflexivity | discriminate | split; assumption].
Defined.

Lemma metrics_response_witness :
  collectorCalls
    (trace (demoServe (New ":6942")
              (http.mkRequest "GET" "/metrics" [] "[::1]:5000")))
  = 1%nat.
Proof.
  apply (metrics_response Commands nodeHostname zeroCollector
           Linux.shutdownSystem (fun _ => "0.00") (New ":6942")
           (http.mkRequest "GET" "/metrics" [] "[::1]:5000")
           failingCommands eq_refl eq_refl eq_refl).
  intros w. reflexivity.
Defined.

(** ** Further properties of the Windows actuator *)

(** X3.  The Windows actuator closes the process token exactly when it
    opened it: when OpenProcessToken fails nothing is closed and its error
    is returned, and when it succeeds CloseHandle is the last thing the
    actuator does, once, on every path.  ExitWindowsEx is reached only
    after the privilege has been looked up and adjusted, with the flags
    EWX_POWEROFF, and EWX_FORCE added when force is set.  As [Call] never
    returns a nil error, the actuator returns nil exactly when all four
    procedures return a non-zero value. *)
Theorem windows_actuator_paths (force : bool) (k : Windows.Win32) :
  let res := Windows.shutdownSystem force (mkWorld k []) in
  let t := trace (snd res) in
  let flags := if force then 12 else 8 in
  (fst (Windows.OpenProcessToken k) = 0 ->
   t = [Sleep 100; Syscall "OpenProcessToken" [40]]
   /\ fst res = snd (Windows.OpenProcessToken k))
  /\ (fst (Windows.OpenProcessToken k) <> 0 ->
      List.length (filter isCloseHandle t) = 1%nat
      /\ last t (Sleep 0) = Syscall "CloseHandle" [])
  /\ (existsb isExitWindowsEx t = true ->
      t = [Sleep 100; Syscall "OpenProcessToken" [40];
           Syscall "LookupPrivilegeValueW" [0];
           Syscall "AdjustTokenPrivileges" [0; 0; 0; 0];
           Syscall "ExitWindowsEx" [flags; 0];
           Syscall "CloseHandle" []]
      /\ fst (Windows.LookupPrivilegeValue k) <> 0
      /\ fst (Windows.AdjustTokenPrivileges k) <> 0)
  /\ (snd (Windows.OpenProcessToken k) <> None ->
      snd (Windows.LookupPrivilegeValue k) <> None ->
      snd (Windows.AdjustTokenPrivileges k) <> None ->
      snd (Windows.ExitWindowsEx k flags) <> None ->
      (fst res = None <->
       fst (Windows.OpenProcessToken k) <> 0
       /\ fst (Windows.LookupPrivilegeValue k) <> 0
       /\ fst (Windows.AdjustTokenPrivileges k) <> 0
       /\ fst (Windows.ExitWindowsEx k flags) <> 0)).
Proof.
  destruct k as [gcp [r1 e1] [r2 e2] [r3 e3] ewx].
  unfold Windows.shutdownSystem. run_win32.
  destruct (Z.eqb_spec r1 0) as [E1|E1]; cbn;
    [repeat split; intros; try tauto; try congruence; try discriminate|].
  destruct (Z.eqb_spec r2 0) as [E2|E2]; cbn;
    [repeat split; intros; try tauto; try congruence; try discriminate|].
  destruct (Z.eqb_spec r3 0) as [E3|E3]; cbn;
    [repeat split; intros; try tauto; try congruence; try discriminate|].
  destruct force; cbn; change Windows.EWX_POWEROFF with 8;
    match goal with
    | |- context [ewx ?f] => destruct (ewx f) as [r4 e4] eqn:E4
    end; cbn;
    destruct (Z.eqb_spec r4 0) as [E5|E5]; cbn;
    repeat split; intros; cbn in *;
    try tauto; try congruence; try discriminate.
Qed.

Lemma windows_actuator_paths_witness :
  fst (Windows.shutdownSystem true (mkWorld win32Ok [])) = None <->
  fst (Windows.OpenProcessToken win32Ok) <> 0
  /\ fst (Windows.LookupPrivilegeValue win32Ok) <> 0
  /\ fst (Windows.AdjustTokenPrivileges win32Ok) <> 0
  /\ fst (Windows.ExitWindowsEx win32Ok 12) <> 0.
Proof.
  apply (windows_actuator_paths true win32Ok); discriminate.
Defined.

(** ** Further properties of the CPU samplers *)

(** X4.  The Linux sampler, whatever it reads and whatever the stored
    sample is.  After a successful read it returns 0 unless the stored
    total and the total difference are both above zero, and then the
    value of (total_delta - idle_delta) / total_delta * 100, where the
    two differences and their difference are taken modulo 2^64, as
    unsigned subtraction does.  In binary64 what it returns, after a
    failed read as well, is a number and is not below zero: the division
    is reached only with a divisor above zero. *)
Theorem linux_usage_bounds (now : Time) (last : Linux.cpuStats) :
  (forall (F : Type) (ops : Float64 F) (fuser fnice fsystem fidle fiowait firq : Z),
      let totalDelta :=
        u64 (u64 (fuser + fnice + fsystem + fidle + fiowait + firq)
             - Linux.total last) in
      let idleDelta := u64 (fidle - Linux.idle last) in
      fst (fst (@Linux.getCPUUsage F ops
                  (Linux.Fields fuser fnice fsystem fidle fiowait firq)
                  now last))
      = if (0 <? Linux.total last) && (0 <? totalDelta)
        then fmul (fdiv (of_uint64 (u64 (totalDelta - idleDelta)))
                        (of_uint64 totalDelta))
                  (of_uint64 100)
        else of_uint64 0)
  /\ (forall read : Linux.ProcStat,
         let usage :=
           fst (fst (@Linux.getCPUUsage spec_float ieee64 read now last)) in
         SFleb (@of_uint64 spec_float ieee64 0) usage = true
         /\ usage <> S754_nan).
Proof.
  split.
  - intros F ops fuser fnice fsystem fidle fiowait firq. cbv zeta.
    unfold Linux.getCPUUsage. cbn [Linux.total Linux.idle].
    destruct (0 <? Linux.total last); [|reflexivity].
    cbn [andb].
    destruct (0 <? u64 (u64 (fuser + fnice + fsystem + fidle + fiowait + firq)
                        - Linux.total last)); reflexivity.
  - intros read. cbv zeta. apply nonnegative64_number.
    unfold Linux.getCPUUsage.
    destruct read as [err | fuser fnice fsystem fidle fiowait firq];
      [reflexivity|].
    cbn [Linux.total Linux.idle].
    destruct (0 <? Linux.total last); [|reflexivity].
    set (dT := u64 (u64 (fuser + fnice + fsystem + fidle + fiowait + firq)
                    - Linux.total last)).
    destruct (Z.ltb_spec 0 dT) as [Hpos|Hnot]; [|reflexivity].
    cbn [fst]. apply percent_nonnegative.
    + apply u64_range.
    + pose proof (u64_range
                    (u64 (fuser + fnice + fsystem + fidle + fiowait + firq)
                     - Linux.total last)) as Hr.
      fold dT in Hr. lia.
Qed.

(** X5.  The state of the Linux sampler after a call: a failed read
    returns the error with 0 and leaves the stored sample as it was; a
    successful read stores the counters just read, whichever branch
    computes the percentage, and returns no error.  Reading the same
    counters again then returns exactly 0, without a division. *)
Theorem linux_sampler_state {F : Type} (ops : Float64 F)
        (fuser fnice fsystem fidle fiowait firq : Z) (now now' : Time)
        (last : Linux.cpuStats) (err : string) :
  let read := Linux.Fields fuser fnice fsystem fidle fiowait firq in
  let stats now :=
    Linux.mkCpuStats fuser fnice fsystem fidle fiowait firq
      (u64 (fuser + fnice + fsystem + fidle + fiowait + firq)) now in
  Linux.getCPUUsage (Linux.ReadError err) now last =
    ((of_uint64 0, Some err), last)
  /\ snd (Linux.getCPUUsage read now last) = stats now
  /\ snd (fst (Linux.getCPUUsage read now last)) = None
  /\ Linux.getCPUUsage read now' (snd (Linux.getCPUUsage read now last)) =
     ((of_uint64 0, None), stats now').
Proof.
  cbv zeta.
  assert (Hst : snd (Linux.getCPUUsage (Linux.Fields fuser fnice fsystem fidle
                                                     fiowait firq) now last)
                = Linux.mkCpuStats fuser fnice fsystem fidle fiowait firq
                    (u64 (fuser + fnice + fsystem + fidle + fiowait + firq))
                    now).
  { unfold Linux.getCPUUsage.
    destruct (0 <? Linux.total last); [|reflexivity].
    match goal with |- context [if ?c then _ else _] => destruct c end;
      reflexivity. }
  split; [reflexivity|]. split; [exact Hst|]. split.
  - unfold Linux.getCPUUsage.
    destruct (0 <? Linux.total last); [|reflexivity].
    match goal with |- context [if ?c then _ else _] => destruct c end;
      reflexivity.
  - rewrite Hst. unfold Linux.getCPUUsage. cbn [Linux.total Linux.idle].
    rewrite Z.sub_diag. change (u64 0) with 0. change (0 <? 0) with false.
    destruct (0 <? u64 _); reflexivity.
Qed.

(** X6.  The Windows sampler, for every float type.  A failed
    GetSystemTimes returns its error with 0 and leaves the stored sample.
    The first successful call, the one that finds the stored time zero,
    stores the three counters and returns exactly 0.  A later call stores
    the new counters and, when the kernel and the user counter did not go
    back (each difference is at least 0 and below 2^64), their two
    differences add up to a total_delta above 0 and below 2^64, and the
    idle difference is at least 0 and at most total_delta, it returns
    the value of (total_delta - idle_delta) / total_delta * 100 on these
    plain differences, nothing having wrapped around.  The stored time,
    not the stored counters, tells the first call from the later ones, so
    a first sample of zeros is a sample like any other. *)
Theorem windows_cpu_sampler {F : Type} (ops : Float64 F)
        (k : Windows.Kernel32) (now : Time) (last : Windows.cpuTimes) :
  let '(ret, err, (idleTime, kernelTime, userTime)) :=
    Windows.GetSystemTimes k in
  let idle := Windows.fileTimeToUint64 idleTime in
  let kernel := Windows.fileTimeToUint64 kernelTime in
  let user := Windows.fileTimeToUint64 userTime in
  let dIdle := idle - Windows.idle last in
  let dTotal := (kernel - Windows.kernel last) + (user - Windows.user last) in
  let stored := Windows.mkCpuTimes idle kernel user now in
  (ret = 0 ->
   Windows.getCPUUsage k now last = ((of_uint64 0, err), last))
  /\ (ret <> 0 ->
      forall zero : Windows.cpuTimes,
        Windows.time zero = zeroTime ->
        Windows.getCPUUsage k now zero = ((of_uint64 0, None), stored))
  /\ (ret <> 0 ->
      IsZero (Windows.time last) = false ->
      snd (fst (Windows.getCPUUsage k now last)) = None
      /\ snd (Windows.getCPUUsage k now last) = stored)
  /\ (ret <> 0 ->
      IsZero (Windows.time last) = false ->
      0 <= kernel - Windows.kernel last < 2 ^ 64 ->
      0 <= user - Windows.user last < 2 ^ 64 ->
      0 < dTotal < 2 ^ 64 ->
      0 <= dIdle <= dTotal ->
      fst (fst (Windows.getCPUUsage k now last))
      = fmul (fdiv (of_uint64 (dTotal - dIdle)) (of_uint64 dTotal))
             (of_uint64 100)).
Proof.
  destruct (Windows.GetSystemTimes k)
    as [[ret err] [[idleTime kernelTime] userTime]] eqn:Ek.
  cbv zeta. split; [|split; [|split]].
  - intros Hret. unfold Windows.getCPUUsage. rewrite Ek, Hret.
    reflexivity.
  - intros Hret zero Hzero. unfold Windows.getCPUUsage. rewrite Ek.
    apply Z.eqb_neq in Hret. rewrite Hret, Hzero. reflexivity.
  - intros Hret Hlater. unfold Windows.getCPUUsage. rewrite Ek.
    apply Z.eqb_neq in Hret. rewrite Hret, Hlater. split; reflexivity.
  - intros Hret Hlater Hk Hu Htotal Hidle.
    unfold Windows.getCPUUsage. rewrite Ek.
    apply Z.eqb_neq in Hret. rewrite Hret, Hlater.
    rewrite (u64_small (Windows.fileTimeToUint64 kernelTime - _)) by lia.
    rewrite (u64_small (Windows.fileTimeToUint64 userTime - _)) by lia.
    rewrite (u64_small (_ + _)) by lia.
    rewrite (u64_small (Windows.fileTimeToUint64 idleTime - _)) by lia.
    rewrite u64_small by lia.
    replace (0 <? _) with true by (symmetry; apply Z.ltb_lt; lia).
    reflexivity.
Qed.

Lemma windows_cpu_sampler_witness :
  fst (fst (@Windows.getCPUUsage spec_float ieee64 (systemTimes 50 100 0)
              (instant 1) (Windows.mkCpuTimes 0 0 0 (instant 0))))
  = @fmul spec_float ieee64
      (@fdiv spec_float ieee64
         (@of_uint64 spec_float ieee64 (100 - 0 + (0 - 0) - (50 - 0)))
         (@of_uint64 spec_float ieee64 (100 - 0 + (0 - 0))))
      (@of_uint64 spec_float ieee64 100).
Proof.
  destruct (windows_cpu_sampler ieee64 (systemTimes 50 100 0) (instant 1)
              (Windows.mkCpuTimes 0 0 0 (instant 0)))
    as (_ & _ & _ & Hlater).
  apply Hlater; vm_compute; try split; congruence.
Defined.

(** X7.  In binary64 what the Windows sampler returns is a number and is
    not below zero, whatever GetSystemTimes returns and whatever the
    stored sample is: the division is reached only with a divisor above
    zero.  And for every float type, reading the same counters twice in a
    row returns exactly 0 the second time, without a division. *)
Theorem windows_usage_nonneg (k : Windows.Kernel32) (now now' : Time)
        (last : Windows.cpuTimes) :
  let usage :=
    fst (fst (@Windows.getCPUUsage spec_float ieee64 k now last)) in
  SFleb (@of_uint64 spec_float ieee64 0) usage = true
  /\ usage <> S754_nan
  /\ (fst (fst (Windows.GetSystemTimes k)) <> 0 ->
      forall (F : Type) (ops : Float64 F),
        fst (@Windows.getCPUUsage F ops k now'
               (snd (@Windows.getCPUUsage F ops k now last)))
        = (of_uint64 0, None)).
Proof.
  cbv zeta. apply and_assoc. split.
  - apply nonnegative64_number. unfold Windows.getCPUUsage.
    destruct (Windows.GetSystemTimes k)
      as [[ret err] [[idleTime kernelTime] userTime]].
    destruct (ret =? 0); [reflexivity|].
    destruct (IsZero (Windows.time last)); [reflexivity|].
    cbn [fst].
    match goal with
    | |- context [if 0 <? ?d then _ else _] =>
        destruct (Z.ltb_spec 0 d) as [Hpos|Hnot]; [|reflexivity];
        pose proof (u64_range (d - 0)) as Hr;
        rewrite Z.sub_0_r in Hr
    end.
    apply percent_nonnegative; [apply u64_range|].
    match type of Hr with
    | _ <= u64 ?x < _ => pose proof (u64_range x) as Hr'
    end.
    unfold u64 in *. rewrite Z.mod_mod in Hr by lia. lia.
  - intros Hret F ops. unfold Windows.getCPUUsage.
    destruct (Windows.GetSystemTimes k)
      as [[ret err] [[idleTime kernelTime] userTime]].
    cbn [fst] in Hret. apply Z.eqb_neq in Hret. rewrite Hret.
    destruct (IsZero (Windows.time last)); cbn [snd Windows.time Windows.idle
                                                 Windows.kernel Windows.user];
      (destruct (IsZero now); [reflexivity|];
       rewrite !Z.sub_diag; reflexivity).
Qed.

Lemma windows_usage_nonneg_witness :
  fst (@Windows.getCPUUsage spec_float ieee64 (systemTimes 50 100 0)
         (instant 2)
         (snd (@Windows.getCPUUsage spec_float ieee64 (systemTimes 50 100 0)
                 (instant 1) (Windows.mkCpuTimes 0 0 0 (instant 0)))))
  = (@of_uint64 spec_float ieee64 0, None).
Proof.
  destruct (windows_usage_nonneg (systemTimes 50 100 0) (instant 1)
              (instant 2) (Windows.mkCpuTimes 0 0 0 (instant 0)))
    as (_ & _ & Hsame).
  apply Hsame. discriminate.
Defined.

(** ** Further properties of the Windows collector *)

(** X8.  Memory and disk on Windows.  For every float type each of the
    two percentages is computed from the two amounts reported beside it:
    it is 0 when the total reported is not above 0, the division not
    being reached, and the value of used / total * 100 otherwise.  When
    GlobalMemoryStatusEx succeeds and reports no more available than
    total memory, and a total below 2^64, the total reported is that
    total and used plus available is the total; the same holds for the
    disk with the total and the total free bytes of GetDiskFreeSpaceExW.
    In binary64 each percentage is a number and is not below zero when
    the total that the procedure reports is below 2^64. *)
Theorem windows_memory_disk (k : Windows.Kernel32) (now : Time)
        (last : Windows.cpuTimes) :
  let '(mret, _, mem) := Windows.GlobalMemoryStatusEx k in
  let '(dret, _, (_, totalBytes, totalFreeBytes)) :=
    Windows.GetDiskFreeSpaceExW k in
  (forall (F : Type) (ops : Float64 F),
      let m := fst (fst (@Windows.getSystemMetrics F ops k now last)) in
      MemoryPercent m
      = (if 0 <? MemoryTotal m
         then fmul (fdiv (of_uint64 (MemoryUsed m))
                         (of_uint64 (MemoryTotal m)))
                   (of_uint64 100)
         else of_uint64 0)
      /\ DiskPercent m
         = (if 0 <? DiskTotal m
            then fmul (fdiv (of_uint64 (DiskUsed m))
                            (of_uint64 (DiskTotal m)))
                      (of_uint64 100)
            else of_uint64 0)
      /\ (mret <> 0 ->
          0 <= Windows.ullAvailPhys mem <= Windows.ullTotalPhys mem ->
          Windows.ullTotalPhys mem < 2 ^ 64 ->
          MemoryTotal m = Windows.ullTotalPhys mem
          /\ MemoryUsed m + Windows.ullAvailPhys mem = MemoryTotal m)
      /\ (dret <> 0 ->
          0 <= totalFreeBytes <= totalBytes -> totalBytes < 2 ^ 64 ->
          DiskTotal m = totalBytes
          /\ DiskUsed m + totalFreeBytes = DiskTotal m))
  /\ (let m :=
        fst (fst (@Windows.getSystemMetrics spec_float ieee64 k now last)) in
      (Windows.ullTotalPhys mem < 2 ^ 64 ->
       SFleb (@of_uint64 spec_float ieee64 0) (MemoryPercent m) = true
       /\ MemoryPercent m <> S754_nan)
      /\ (totalBytes < 2 ^ 64 ->
          SFleb (@of_uint64 spec_float ieee64 0) (DiskPercent m) = true
          /\ DiskPercent m <> S754_nan)).
Proof.
  destruct (Windows.GlobalMemoryStatusEx k) as [[mret merr] mem] eqn:Em.
  destruct (Windows.GetDiskFreeSpaceExW k)
    as [[dret derr] [[freeAvail totalBytes] totalFreeBytes]] eqn:Ed.
  assert (Hrun : forall (F : Type) (ops : Float64 F),
             let m := fst (fst (@Windows.getSystemMetrics F ops k now last)) in
             MemoryTotal m
             = (if negb (mret =? 0) then Windows.ullTotalPhys mem else 0)
             /\ MemoryUsed m
                = (if negb (mret =? 0)
                   then u64 (Windows.ullTotalPhys mem
                             - Windows.ullAvailPhys mem)
                   else 0)
             /\ MemoryPercent m
                = (if negb (mret =? 0) && (0 <? Windows.ullTotalPhys mem)
                   then fmul (fdiv (of_uint64
                                      (u64 (Windows.ullTotalPhys mem
                                            - Windows.ullAvailPhys mem)))
                                   (of_uint64 (Windows.ullTotalPhys mem)))
                             (of_uint64 100)
                   else of_uint64 0)
             /\ DiskTotal m = (if negb (dret =? 0) then totalBytes else 0)
             /\ DiskUsed m
                = (if negb (dret =? 0)
                   then u64 (totalBytes - totalFreeBytes) else 0)
             /\ DiskPercent m
                = (if negb (dret =? 0) && (0 <? totalBytes)
                   then fmul (fdiv (of_uint64
                                      (u64 (totalBytes - totalFreeBytes)))
                                   (of_uint64 totalBytes))
                             (of_uint64 100)
                   else of_uint64 0)).
  { intros F ops. cbv zeta. unfold Windows.getSystemMetrics.
    destruct (Windows.getCPUUsage k now last) as [[cpu e1] st].
    unfold Windows.getMemoryUsage, Windows.getDiskUsage.
    change (Windows.UTF16PtrFromString "C:\") with (@None string).
    destruct (Windows.getUptime k) as [uptime e4].
    rewrite Em, Ed.
    destruct (mret =? 0); destruct (dret =? 0);
      destruct merr; destruct derr;
      cbn [fst snd MemoryPercent DiskPercent MemoryTotal DiskTotal MemoryUsed
           DiskUsed Windows.isNil andb negb zeroMetrics];
      change (0 <? 0) with false; cbv iota;
      repeat split. }
  split.
  - intros F ops. cbv zeta.
    destruct (Hrun F ops) as (Hmt & Hmu & Hmp & Hdt & Hdu & Hdp).
    rewrite Hmp, Hdp, Hmt, Hmu, Hdt, Hdu.
    split; [|split; [|split]].
    + destruct (mret =? 0); cbn [negb andb]; reflexivity.
    + destruct (dret =? 0); cbn [negb andb]; reflexivity.
    + intros Hret Hav Htot. apply Z.eqb_neq in Hret. rewrite Hret.
      cbn [negb]. rewrite u64_small by lia. split; [reflexivity | lia].
    + intros Hret Hav Htot. apply Z.eqb_neq in Hret. rewrite Hret.
      cbn [negb]. rewrite u64_small by lia. split; [reflexivity | lia].
  - cbv zeta.
    destruct (Hrun spec_float ieee64) as (_ & _ & Hmp & _ & _ & Hdp).
    rewrite Hmp, Hdp. split.
    + intros Htot. apply nonnegative64_number.
      destruct (negb (mret =? 0)); [|reflexivity]. cbn [andb].
      destruct (Z.ltb_spec 0 (Windows.ullTotalPhys mem)); [|reflexivity].
      apply percent_nonnegative; [apply u64_range | lia].
    + intros Htot. apply nonnegative64_number.
      destruct (negb (dret =? 0)); [|reflexivity]. cbn [andb].
      destruct (Z.ltb_spec 0 totalBytes); [|reflexivity].
      apply percent_nonnegative; [apply u64_range | lia].
Qed.

Lemma windows_memory_disk_witness :
  MemoryUsed (fst (fst (@Windows.getSystemMetrics spec_float ieee64
                          kernel32Sample (instant 1) Windows.zeroTimes)))
  + 12884901888
  = MemoryTotal (fst (fst (@Windows.getSystemMetrics spec_float ieee64
                             kernel32Sample (instant 1) Windows.zeroTimes))).
Proof.
  destruct (windows_memory_disk kernel32Sample (instant 1) Windows.zeroTimes)
    as [Hall _].
  destruct (Hall spec_float ieee64) as (_ & _ & Hmem & _).
  apply Hmem; vm_compute; try split; congruence.
Defined.

(** ** Further properties of the access gate *)

Lemma land_shiftl_low (a b n : Z) :
  0 <= n -> 0 <= b < 2 ^ n -> Z.land (Z.shiftl a n) b = 0.
Proof.
  intros Hn Hb. apply Z.bits_inj'. intros i Hi.
  rewrite Z.land_spec, Z.bits_0.
  destruct (Z.lt_ge_cases i n) as [Hlt|Hge].
  - rewrite Z.shiftl_spec_low by assumption. reflexivity.
  - destruct (Z.eq_dec b 0) as [->|Hnz].
    + rewrite Z.bits_0. apply andb_false_r.
    + rewrite (Z.bits_above_log2 b i); [apply andb_false_r | lia |].
      apply Z.lt_le_trans with n; [|assumption].
      apply Z.log2_lt_pow2; lia.
Qed.

(** [a << n | b] is [a * 2^n + b] when [b] fits in [n] bits. *)
Lemma lor_shiftl_add (a b n : Z) :
  0 <= n -> 0 <= b < 2 ^ n -> Z.lor (Z.shiftl a n) b = a * 2 ^ n + b.
Proof.
  intros Hn Hb.
  rewrite <- Z.lxor_lor by now apply land_shiftl_low.
  rewrite <- Z.add_nocarry_lxor by now apply land_shiftl_low.
  now rewrite Z.shiftl_mul_pow2.
Qed.

Lemma bytes_forall (P : Z -> bool) :
  forallb P (map Z.of_nat (seq 0 256)) = true ->
  forall b, 0 <= b < 256 -> P b = true.
Proof.
  intros Hall b Hb. rewrite forallb_forall in Hall. apply Hall.
  apply in_map_iff. exists (Z.to_nat b). split; [lia|].
  apply in_seq. lia.
Qed.

Lemma top_two_bits (b : Z) :
  0 <= b < 256 -> (Z.land b 0xC0 = 64 <-> 64 <= b <= 127).
Proof.
  intros Hb.
  pose proof (bytes_forall
                (fun b => Bool.eqb (Z.land b 0xC0 =? 64)
                                   ((64 <=? b) && (b <=? 127)))
                eq_refl b Hb) as Hcheck.
  cbv beta in Hcheck. apply Bool.eqb_prop in Hcheck.
  rewrite <- Z.eqb_eq, Hcheck, andb_true_iff, !Z.leb_le. reflexivity.
Qed.

Lemma AddrFrom4_lo (b0 b1 b2 b3 : Z) :
  0 <= b0 < 256 -> 0 <= b1 < 256 -> 0 <= b2 < 256 -> 0 <= b3 < 256 ->
  netip.addr_lo (netip.AddrFrom4 [b0; b1; b2; b3]) =
  0xffff * 2 ^ 32 + (b0 * 2 ^ 24 + b1 * 2 ^ 16 + b2 * 2 ^ 8 + b3).
Proof.
  intros H0 H1 H2 H3. unfold netip.AddrFrom4. cbn [netip.addr_lo].
  change (get_at [b0; b1; b2; b3] 0) with b0.
  change (get_at [b0; b1; b2; b3] 1) with b1.
  change (get_at [b0; b1; b2; b3] 2) with b2.
  change (get_at [b0; b1; b2; b3] 3) with b3.
  rewrite (lor_shiftl_add b2 b3 8) by lia.
  rewrite (lor_shiftl_add b1 _ 16) by lia.
  rewrite (lor_shiftl_add b0 _ 24) by lia.
  change 0xffff00000000 with (Z.shiftl 0xffff 32).
  rewrite lor_shiftl_add by lia. lia.
Qed.

Lemma AddrFrom4_cgnat (b0 b1 b2 b3 : Z) :
  0 <= b0 < 256 -> 0 <= b1 < 256 -> 0 <= b2 < 256 -> 0 <= b3 < 256 ->
  let a := netip.AddrFrom4 [b0; b1; b2; b3] in
  let n := b0 * 2 ^ 24 + b1 * 2 ^ 16 + b2 * 2 ^ 8 + b3 in
  netip.Is4 a = true
  /\ netip.As4 a = Some [b0; b1; b2; b3]
  /\ (isTailscaleIP a = true <-> b0 = 100 /\ 64 <= b1 <= 127).
Proof.
  intros H0 H1 H2 H3 a n.
  assert (H4 : netip.Is4 a = true) by reflexivity.
  assert (Has4 : netip.As4 a = Some [b0; b1; b2; b3]).
  { unfold netip.As4. rewrite H4. cbn [orb].
    unfold a. rewrite AddrFrom4_lo by assumption.
    change 0xffffffff with (Z.ones 32). change 0xff with (Z.ones 8).
    rewrite !Z.land_ones, !Z.shiftr_div_pow2 by lia.
    f_equal. repeat f_equal.
    all: match goal with |- ?l = _ => fold n end.
    all: change (2 ^ 32) with 4294967296; change (2 ^ 24) with 16777216;
      change (2 ^ 16) with 65536; change (2 ^ 8) with 256.
    all: assert (Hn : 0 <= n < 4294967296) by (unfold n; lia).
    all: unfold n in *; Z.div_mod_to_equations; lia. }
  split; [exact H4|]. split; [exact Has4|].
  assert (Hiff : isTailscaleIP a = true <-> b0 = 100 /\ 64 <= b1 <= 127).
  { unfold isTailscaleIP. rewrite H4, Has4.
    change (get_at [b0; b1; b2; b3] 0) with b0.
    change (get_at [b0; b1; b2; b3] 1) with b1.
    rewrite andb_true_iff, !Z.eqb_eq, (top_two_bits b1 H1). reflexivity. }
  exact Hiff.
Qed.

(** X9.  The IPv4 test of [isTailscaleIP] is the range its comment
    names.  For the address of four octets: [As4] gives the octets back,
    and the test holds exactly when the first octet is 100 and the second
    lies between 64 and 127, that is exactly when the address, as a
    32-bit number, lies between 100.64.0.0 and 100.127.255.255. *)
Theorem cgnat_range (b0 b1 b2 b3 : Z) :
  0 <= b0 < 256 -> 0 <= b1 < 256 -> 0 <= b2 < 256 -> 0 <= b3 < 256 ->
  let a := netip.AddrFrom4 [b0; b1; b2; b3] in
  let n := b0 * 2 ^ 24 + b1 * 2 ^ 16 + b2 * 2 ^ 8 + b3 in
  netip.Is4 a = true
  /\ netip.As4 a = Some [b0; b1; b2; b3]
  /\ (isTailscaleIP a = true <-> b0 = 100 /\ 64 <= b1 <= 127)
  /\ (isTailscaleIP a = true <->
      100 * 2 ^ 24 + 64 * 2 ^ 16 <= n <= 100 * 2 ^ 24 + 127 * 2 ^ 16 + 255 * 2 ^ 8 + 255).
Proof.
  intros H0 H1 H2 H3 a n.
  destruct (AddrFrom4_cgnat b0 b1 b2 b3 H0 H1 H2 H3) as [H4 [Has4 Hiff]].
  fold a in H4, Has4, Hiff.
  split; [exact H4|]. split; [exact Has4|]. split; [exact Hiff|].
  rewrite Hiff. unfold n. lia.
Qed.

Lemma cgnat_range_witness :
  isTailscaleIP (netip.AddrFrom4 [100; 127; 255; 255]) = true <->
  100 = 100 /\ 64 <= 127 <= 127.
Proof.
  apply (cgnat_range 100 127 255 255); lia.
Defined.

Lemma words_forall (P : Z -> bool) :
  forallb (fun hi => forallb (fun lo => P (256 * hi + lo))
                             (map Z.of_nat (seq 0 256)))
          (map Z.of_nat (seq 0 256)) = true ->
  forall x, 0 <= x < 65536 -> P x = true.
Proof.
  intros Hall x Hx.
  pose proof (bytes_forall _ Hall (x / 256)) as Hhi. cbv beta in Hhi.
  assert (Hq : 0 <= x / 256 < 256)
    by (split; [apply Z.div_pos; lia | apply Z.div_lt_upper_bound; lia]).
  specialize (Hhi Hq).
  pose proof (bytes_forall _ Hhi (x mod 256)) as Hlo. cbv beta in Hlo.
  rewrite <- Z.div_mod in Hlo by lia. apply Hlo.
  apply Z.mod_pos_bound. lia.
Qed.

Lemma prefix_app (p r : string) : String.prefix p (p ++ r) = true.
Proof.
  induction p as [|c p IH]; cbn; [now destruct r|].
  destruct (ascii_dec c c); [exact IH | contradiction].
Qed.

Lemma prefix_skip (t q r : string) :
  String.prefix (t ++ q) (t ++ r) = String.prefix q r.
Proof.
  induction t as [|c t IH]; cbn; [reflexivity|].
  destruct (ascii_dec c c); [exact IH | contradiction].
Qed.

Lemma mismatch_prefix (p s q r : string) :
  mismatch p s = true -> String.prefix (p ++ q) (s ++ r) = false.
Proof.
  revert s. induction p as [|a p IH]; intros s Hm; [discriminate Hm|].
  destruct s as [|b s]; [discriminate Hm|]. cbn in *.
  destruct (ascii_dec a b) as [->|Hne].
  - rewrite Ascii.eqb_refl in Hm. cbn in Hm. now apply IH.
  - reflexivity.
Qed.

Lemma colon_prefix (t q r : string) (c : ascii) :
  String.prefix (String c q) (":" ++ r) = true -> c = ":"%char.
Proof.
  cbn. destruct (ascii_dec c ":"); [auto | discriminate].
Qed.

(** A group printed before a colon: if the text starts with [text] and a
    colon, the group has the value [value] and the rest follows. *)
Lemma group_text (text : string) (value : Z) :
  forallb (fun hi => forallb (fun lo => groupCheck text value (256 * hi + lo))
                             (map Z.of_nat (seq 0 256)))
          (map Z.of_nat (seq 0 256)) = true ->
  forall x q r,
    0 <= x < 65536 ->
    String.prefix (text ++ ":" ++ q) (netip.appendHex "" x ++ ":" ++ r) = true ->
    x = value /\ String.prefix q r = true.
Proof.
  intros Hall x q r Hx Hp.
  pose proof (words_forall _ Hall x Hx) as Hc. unfold groupCheck in Hc.
  apply orb_true_iff in Hc. destruct Hc as [Hc | Hc].
  - apply andb_true_iff in Hc. destruct Hc as [Ht Hv].
    apply String.eqb_eq in Ht. apply Z.eqb_eq in Hv.
    rewrite Ht in Hp. rewrite prefix_skip in Hp.
    change (":" ++ q)%string with (String ":" q) in Hp.
    change (":" ++ r)%string with (String ":" r) in Hp.
    cbn in Hp. destruct (ascii_dec ":" ":"); [|contradiction].
    split; assumption.
  - rewrite <- !append_assoc in Hp.
    rewrite (mismatch_prefix _ _ q r Hc) in Hp. discriminate Hp.
Qed.

Lemma appendHex_app (b : string) (x : Z) :
  netip.appendHex b x = (b ++ netip.appendHex "" x)%string.
Proof.
  unfold netip.appendHex.
  destruct (0x1000 <=? x); destruct (0x100 <=? x); destruct (0x10 <=? x);
    cbn [String.append]; rewrite ?append_assoc; reflexivity.
Qed.

Lemma appendGroups_app (fuel : nat) (a : netip.Addr) (zs ze i : Z)
      (ret : string) :
  netip.appendGroups fuel a zs ze i ret =
  (ret ++ netip.appendGroups fuel a zs ze i "")%string.
Proof.
  revert i ret. induction fuel as [|fuel IH]; intros i ret;
    cbn [netip.appendGroups]; [now rewrite append_nil_r|].
  destruct (8 <=? i); [now rewrite append_nil_r|].
  destruct (i =? zs).
  - destruct (8 <=? ze); [reflexivity|].
    rewrite IH, (IH _ (netip.appendHex _ _)).
    rewrite (appendHex_app (ret ++ "::")), (appendHex_app ("" ++ "::")).
    rewrite !append_assoc. reflexivity.
  - rewrite IH, (IH _ (netip.appendHex _ _)).
    destruct (0 <? i).
    + rewrite (appendHex_app (ret ++ ":")), (appendHex_app ("" ++ ":")).
      rewrite !append_assoc. reflexivity.
    + rewrite (appendHex_app ret), (appendHex_app "").
      rewrite !append_assoc. reflexivity.
Qed.

(** The group at the start of the zero run that [appendTo6] abbreviates
    is zero. *)
Lemma longestZeroRun_start (fuel : nat) (a : netip.Addr) (i zs ze : Z) :
  zs = 255 \/ netip.v6u16 a zs = 0 ->
  fst (netip.longestZeroRun fuel a i zs ze) = 255
  \/ netip.v6u16 a (fst (netip.longestZeroRun fuel a i zs ze)) = 0.
Proof.
  revert i zs ze. induction fuel as [|fuel IH]; intros i zs ze Hinv;
    cbn [netip.longestZeroRun]; [exact Hinv|].
  destruct ((2 <=? netip.zeroRunEnd 8 a i - i)
            && (ze - zs <? netip.zeroRunEnd 8 a i - i)) eqn:E.
  - apply IH. right.
    apply andb_true_iff in E. destruct E as [E _]. apply Z.leb_le in E.
    change 8%nat with (S 7) in E. cbn [netip.zeroRunEnd] in E.
    destruct ((i <? 8) && (netip.v6u16 a i =? 0)) eqn:Ez; [|lia].
    apply andb_true_iff in Ez. destruct Ez as [_ Ez]. now apply Z.eqb_eq.
  - apply IH. exact Hinv.
Qed.

Lemma appendGroups_at_run (fuel : nat) (a : netip.Addr) (zs ze : Z)
      (ret : string) :
  (8 <=? zs) = false ->
  exists r, netip.appendGroups (S fuel) a zs ze zs ret
            = (ret ++ ":" ++ ":" ++ r)%string.
Proof.
  intros Hlt. cbn [netip.appendGroups]. rewrite Hlt, Z.eqb_refl.
  destruct (8 <=? ze).
  - exists ""%string. reflexivity.
  - rewrite appendGroups_app, appendHex_app, !append_assoc.
    eexists. reflexivity.
Qed.

Lemma appendGroups_next (fuel : nat) (a : netip.Addr) (zs ze i : Z)
      (ret : string) :
  (8 <=? i) = false -> i <> zs ->
  netip.appendGroups (S fuel) a zs ze i ret =
  netip.appendGroups fuel a zs ze (i + 1)
    ((if (0 <? i)%Z then ret ++ ":" else ret)
       ++ netip.appendHex "" (netip.v6u16 a i))%string.
Proof.
  intros Hlt Hne. cbn [netip.appendGroups]. rewrite Hlt.
  apply Z.eqb_neq in Hne. rewrite Hne.
  now rewrite appendHex_app.
Qed.

(** The text of the groups of an IPv6 address, as far as its third colon:
    by the place where the abbreviated run of zeros starts. *)
Lemma groups_shape (a : netip.Addr) (zs ze : Z) :
  let text := netip.appendGroups 8 a zs ze 0 "" in
  let h i := netip.appendHex "" (netip.v6u16 a i) in
  (zs = 0 /\ exists r, text = (":" ++ ":" ++ r)%string)
  \/ (zs = 1 /\ exists r, text = (h 0 ++ ":" ++ ":" ++ r)%string)
  \/ (zs = 2 /\ exists r, text = (h 0 ++ ":" ++ h 1 ++ ":" ++ ":" ++ r)%string)
  \/ (zs <> 0 /\ zs <> 1 /\ zs <> 2
      /\ exists r, text = (h 0 ++ ":" ++ h 1 ++ ":" ++ h 2 ++ ":" ++ r)%string).
Proof.
  cbv zeta.
  destruct (Z.eq_dec zs 0) as [E0|E0].
  { left. split; [exact E0|]. subst zs.
    destruct (appendGroups_at_run 7 a 0 ze "" eq_refl) as [r Hr].
    exists r. exact Hr. }
  right. rewrite (appendGroups_next 7 a zs ze 0 "" eq_refl)
    by (intros E; now symmetry in E).
  change (0 + 1) with 1. change (0 <? 0) with false. cbv iota.
  change ("" ++ ?x)%string with x.
  destruct (Z.eq_dec zs 1) as [E1|E1].
  { left. split; [exact E1|]. subst zs.
    destruct (appendGroups_at_run 6 a 1 ze
                (netip.appendHex "" (netip.v6u16 a 0)) eq_refl) as [r Hr].
    exists r. exact Hr. }
  right. rewrite (appendGroups_next 6 a zs ze 1 _ eq_refl)
    by (intros E; now symmetry in E).
  change (1 + 1) with 2. change (0 <? 1) with true. cbv iota.
  destruct (Z.eq_dec zs 2) as [E2|E2].
  { left. split; [exact E2|]. subst zs.
    destruct (appendGroups_at_run 5 a 2 ze
                ((netip.appendHex "" (netip.v6u16 a 0) ++ ":")
                   ++ netip.appendHex "" (netip.v6u16 a 1)) eq_refl)
      as [r Hr].
    exists r. rewrite Hr, !append_assoc. reflexivity. }
  right. split; [exact E0|]. split; [exact E1|]. split; [exact E2|].
  rewrite (appendGroups_next 5 a zs ze 2 _ eq_refl)
    by (intros E; now symmetry in E).
  change (2 + 1) with 3. change (0 <? 2) with true. cbv iota.
  destruct (Z.eq_dec zs 3) as [E3|E3].
  - subst zs.
    match goal with
    | |- context [netip.appendGroups 5 a 3 ze 3 ?ret] =>
        destruct (appendGroups_at_run 4 a 3 ze ret eq_refl) as [r Hr]
    end.
    exists (":" ++ r)%string. rewrite Hr, !append_assoc. reflexivity.
  - rewrite (appendGroups_next 4 a zs ze 3 _ eq_refl)
      by (intros E; now symmetry in E).
    change (0 <? 3) with true. cbv iota.
    rewrite appendGroups_app, !append_assoc.
    eexists. reflexivity.
Qed.

Lemma groupCheck_fd7a :
  forallb (fun hi => forallb (fun lo => groupCheck "fd7a" 0xfd7a (256 * hi + lo))
                             (map Z.of_nat (seq 0 256)))
          (map Z.of_nat (seq 0 256)) = true.
Proof. vm_compute. reflexivity. Qed.

Lemma groupCheck_115c :
  forallb (fun hi => forallb (fun lo => groupCheck "115c" 0x115c (256 * hi + lo))
                             (map Z.of_nat (seq 0 256)))
          (map Z.of_nat (seq 0 256)) = true.
Proof. vm_compute. reflexivity. Qed.

Lemma groupCheck_a1e0 :
  forallb (fun hi => forallb (fun lo => groupCheck "a1e0" 0xa1e0 (256 * hi + lo))
                             (map Z.of_nat (seq 0 256)))
          (map Z.of_nat (seq 0 256)) = true.
Proof. vm_compute. reflexivity. Qed.

Lemma first_groups (a : netip.Addr) :
  0 <= netip.addr_hi a < 2 ^ 64 ->
  0 <= netip.v6u16 a 0 < 65536
  /\ 0 <= netip.v6u16 a 1 < 65536
  /\ 0 <= netip.v6u16 a 2 < 65536
  /\ (Z.shiftr (netip.addr_hi a) 16 = 0xfd7a115ca1e0 <->
      netip.v6u16 a 0 = 0xfd7a /\ netip.v6u16 a 1 = 0x115c
      /\ netip.v6u16 a 2 = 0xa1e0).
Proof.
  intros Hhi. unfold netip.v6u16.
  change ((0 / 4) mod 2 =? 0) with true.
  change ((1 / 4) mod 2 =? 0) with true.
  change ((2 / 4) mod 2 =? 0) with true.
  change ((3 - 0 mod 4) * 16) with 48.
  change ((3 - 1 mod 4) * 16) with 32.
  change ((3 - 2 mod 4) * 16) with 16.
  cbv iota. change 0xffff with (Z.ones 16).
  rewrite !Z.land_ones, !Z.shiftr_div_pow2 by lia.
  change (2 ^ 64) with 18446744073709551616 in Hhi.
  change (2 ^ 48) with 281474976710656. change (2 ^ 32) with 4294967296.
  change (2 ^ 16) with 65536.
  repeat split; intros; Z.div_mod_to_equations; lia.
Qed.

Lemma isTailscaleIP_ula (a : netip.Addr) :
  netip.Is6 a = true ->
  0 <= netip.addr_hi a < 2 ^ 64 ->
  (isTailscaleIP a = true <-> Z.shiftr (netip.addr_hi a) 16 = 0xfd7a115ca1e0).
Proof.
  intros H6 Hhi.
  destruct (netip.Is4In6 a) eqn:Hm.
  { rewrite (isTailscaleIP_mapped a Hm). split; [discriminate|].
    intros Hc. unfold netip.Is4In6 in Hm.
    apply andb_true_iff in Hm. destruct Hm as [Hm _].
    apply andb_true_iff in Hm. destruct Hm as [_ Hm].
    apply Z.eqb_eq in Hm. rewrite Hm in Hc. discriminate Hc. }
  destruct (first_groups a Hhi) as [Hg0 [Hg1 [Hg2 Hgroups]]].
  rewrite Hgroups.
  assert (H4 : netip.Is4 a = false).
  { unfold netip.Is6, netip.Is4 in *.
    apply andb_true_iff in H6. destruct H6 as [_ H6].
    now apply negb_true_iff in H6. }
  assert (Hstr : netip.String a = netip.appendTo6 "" a).
  { unfold netip.String. unfold netip.Is6, netip.Is4 in H6, H4.
    destruct (netip.addr_z a); try discriminate H6; try discriminate H4;
      now rewrite Hm. }
  unfold isTailscaleIP. rewrite H4, H6. cbv zeta. rewrite Hstr.
  unfold netip.appendTo6, HasPrefix.
  pose proof (longestZeroRun_start 8 a 0 255 255 (or_introl eq_refl)) as Hrun.
  destruct (netip.longestZeroRun 8 a 0 255 255) as [zs ze].
  cbn [fst] in Hrun. rewrite appendZone_app.
  set (zn := netip.appendZone "" a).
  change "fd7a:115c:a1e0:"
    with ("fd7a" ++ ":" ++ "115c" ++ ":" ++ "a1e0" ++ ":" ++ "")%string.
  destruct (groups_shape a zs ze)
    as [[Ez [r Hr]] | [[Ez [r Hr]] | [[Ez [r Hr]] | [E0 [E1 [E2 [r Hr]]]]]]];
    rewrite Hr, ?append_assoc.
  - split; [intros Hp; discriminate Hp|]. intros [Hv _].
    destruct Hrun as [Hrun | Hrun]; [lia|]. rewrite Ez in Hrun. lia.
  - split.
    + intros Hp.
      destruct (group_text "fd7a" 0xfd7a groupCheck_fd7a _ _ _ Hg0 Hp)
        as [_ Hrest].
      discriminate Hrest.
    + intros [_ [Hv _]].
      destruct Hrun as [Hrun | Hrun]; [lia|]. rewrite Ez in Hrun. lia.
  - split.
    + intros Hp.
      destruct (group_text "fd7a" 0xfd7a groupCheck_fd7a _ _ _ Hg0 Hp)
        as [_ Hp1].
      destruct (group_text "115c" 0x115c groupCheck_115c _ _ _ Hg1 Hp1)
        as [_ Hrest].
      discriminate Hrest.
    + intros [_ [_ Hv]].
      destruct Hrun as [Hrun | Hrun]; [lia|]. rewrite Ez in Hrun. lia.
  - split.
    + intros Hp.
      destruct (group_text "fd7a" 0xfd7a groupCheck_fd7a _ _ _ Hg0 Hp)
        as [Hv0 Hp1].
      destruct (group_text "115c" 0x115c groupCheck_115c _ _ _ Hg1 Hp1)
        as [Hv1 Hp2].
      destruct (group_text "a1e0" 0xa1e0 groupCheck_a1e0 _ _ _ Hg2 Hp2)
        as [Hv2 _].
      repeat split; assumption.
    + intros [Hv0 [Hv1 Hv2]]. rewrite Hv0, Hv1, Hv2.
      change (netip.appendHex "" 0xfd7a) with "fd7a".
      change (netip.appendHex "" 0x115c) with "115c".
      change (netip.appendHex "" 0xa1e0) with "a1e0".
      rewrite !prefix_skip. now destruct (r ++ zn)%string.
Qed.

(** X10.  The IPv6 test of [isTailscaleIP], a test of the text of the
    address against "fd7a:115c:a1e0:", is the /48 its comment names: an
    IPv6 address, with or without a zone, passes exactly when its first
    48 bits are fd7a:115c:a1e0.  No other address has a text with that
    prefix, and the abbreviation of zero groups never hides it.  As
    numbers, these are the addresses whose upper half lies between
    fd7a:115c:a1e0:0 and fd7a:115c:a1e0:ffff. *)
Theorem ula_range (a : netip.Addr) :
  netip.Is6 a = true ->
  0 <= netip.addr_hi a < 2 ^ 64 ->
  (isTailscaleIP a = true <-> Z.shiftr (netip.addr_hi a) 16 = 0xfd7a115ca1e0)
  /\ (isTailscaleIP a = true <->
      0xfd7a115ca1e00000 <= netip.addr_hi a <= 0xfd7a115ca1e0ffff).
Proof.
  intros H6 Hhi. pose proof (isTailscaleIP_ula a H6 Hhi) as Hiff.
  split; [exact Hiff|]. rewrite Hiff.
  rewrite Z.shiftr_div_pow2 by lia. change (2 ^ 16) with 65536.
  split; intros H; Z.div_mod_to_equations; lia.
Qed.

Lemma ula_range_witness :
  isTailscaleIP (netip.mkAddr 0xfd7a115ca1e00000 1 netip.z6noz) = true <->
  Z.shiftr 0xfd7a115ca1e00000 16 = 0xfd7a115ca1e0.
Proof.
  destruct (ula_range (netip.mkAddr 0xfd7a115ca1e00000 1 netip.z6noz))
    as [Hiff _];
    [reflexivity | split; [discriminate | reflexivity] | exact Hiff].
Defined.

(** ** What [ParseAddr] returns to the gate *)

Lemma set_nth_bytes (xs : list Z) (i : nat) (v : Z) :
  Forall isByte xs -> isByte v -> Forall isByte (set_nth xs i v).
Proof.
  intros Hxs Hv. revert i. induction Hxs as [|x xs Hx Hxs IH]; intros i.
  - destruct i; constructor.
  - destruct i; cbn; constructor; auto.
Qed.

Lemma set_nth_length (xs : list Z) (i : nat) (v : Z) :
  List.length (set_nth xs i v) = List.length xs.
Proof.
  revert i. induction xs as [|x xs IH]; intros i; destruct i; cbn; auto.
Qed.

Lemma get_at_byte (xs : list Z) (i : Z) : Forall isByte xs -> isByte (get_at xs i).
Proof.
  intros Hxs. unfold get_at. generalize (Z.to_nat i) as n.
  induction Hxs as [|x xs Hx Hxs IH]; intros n; destruct n; cbn; auto;
    unfold isByte; lia.
Qed.

Lemma isDigit_value (c : ascii) :
  netip.isDigit c = true -> 0 <= byte_of c - 48 <= 9.
Proof.
  unfold netip.isDigit. rewrite andb_true_iff, !Z.leb_le. lia.
Qed.

Lemma parseIPv4Fields_loop_bytes (s : string) :
  forall first prevDot val pos digLen fields f,
    0 <= val < 256 -> Forall isByte fields -> List.length fields = 4%nat ->
    netip.parseIPv4Fields_loop s first prevDot val pos digLen fields = Some f ->
    Forall isByte f /\ List.length f = 4%nat.
Proof.
  induction s as [|c s IH]; intros first prevDot val pos digLen fields f
                                   Hval Hfields Hlen Hres;
    cbn [netip.parseIPv4Fields_loop] in Hres.
  - destruct (pos <? 3); [discriminate Hres|]. injection Hres as <-.
    unfold set_at. split; [now apply set_nth_bytes | now rewrite set_nth_length].
  - destruct (netip.isDigit c) eqn:Hd.
    + destruct ((digLen =? 1) && (val =? 0)); [discriminate Hres|].
      cbv zeta in Hres.
      destruct (Z.ltb_spec 255 (val * 10 + (byte_of c - 48))) as [|Hle];
        [discriminate Hres|].
      apply IH in Hres; auto.
      pose proof (isDigit_value c Hd). lia.
    + destruct (Ascii.eqb c "."); [|discriminate Hres].
      destruct (first || String.eqb s "" || prevDot); [discriminate Hres|].
      destruct (pos =? 3); [discriminate Hres|].
      apply IH in Hres; auto.
      * lia.
      * unfold set_at. now apply set_nth_bytes.
      * unfold set_at. now rewrite set_nth_length.
Qed.

Lemma parseIPv4Fields_bytes (s : string) (f : list Z) :
  netip.parseIPv4Fields s = Some f ->
  exists b0 b1 b2 b3,
    f = [b0; b1; b2; b3]
    /\ isByte b0 /\ isByte b1 /\ isByte b2 /\ isByte b3.
Proof.
  intros Hres. unfold netip.parseIPv4Fields in Hres.
  apply parseIPv4Fields_loop_bytes in Hres;
    [|lia | repeat constructor; unfold isByte; lia | reflexivity].
  destruct Hres as [Hbytes Hlen].
  destruct f as [|b0 [|b1 [|b2 [|b3 [|b4 f]]]]]; try discriminate Hlen.
  exists b0, b1, b2, b3. split; [reflexivity|].
  inversion Hbytes as [|? ? H0 Hb1]; subst.
  inversion Hb1 as [|? ? H1 Hb2]; subst.
  inversion Hb2 as [|? ? H2 Hb3]; subst.
  inversion Hb3 as [|? ? H3 _]; subst. auto.
Qed.

Lemma hexval_range (c : ascii) (d : Z) : netip.hexval c = Some d -> 0 <= d < 16.
Proof.
  unfold netip.hexval. cbv zeta.
  destruct ((48 <=? byte_of c) && (byte_of c <=? 57)) eqn:E1.
  { intros E. injection E as <-.
    apply andb_true_iff in E1. rewrite !Z.leb_le in E1. lia. }
  destruct ((97 <=? byte_of c) && (byte_of c <=? 102)) eqn:E2.
  { intros E. injection E as <-.
    apply andb_true_iff in E2. rewrite !Z.leb_le in E2. lia. }
  destruct ((65 <=? byte_of c) && (byte_of c <=? 70)) eqn:E3.
  { intros E. injection E as <-.
    apply andb_true_iff in E3. rewrite !Z.leb_le in E3. lia. }
  discriminate.
Qed.

Lemma scanHex_range (s : string) :
  forall off acc off' acc' rest,
    0 <= acc <= 0xffff ->
    netip.scanHex s off acc = Some (off', acc', rest) ->
    0 <= acc' <= 0xffff.
Proof.
  induction s as [|c s IH]; intros off acc off' acc' rest Hacc Hres;
    cbn [netip.scanHex] in Hres.
  - injection Hres as _ <- _. exact Hacc.
  - destruct (netip.hexval c) as [d|] eqn:Hd.
    + cbv zeta in Hres. destruct (3 <? off); [discriminate Hres|].
      destruct (Z.ltb_spec 0xffff (Z.shiftl acc 4 + d)) as [|Hle];
        [discriminate Hres|].
      apply IH in Hres; [exact Hres|].
      pose proof (hexval_range c d Hd).
      rewrite Z.shiftl_mul_pow2 in * by lia. lia.
    + injection Hres as _ <- _. exact Hacc.
Qed.

Lemma put4_bytes (ip f : list Z) (i : Z) :
  Forall isByte ip -> Forall isByte f -> Forall isByte (netip.put4 ip i f).
Proof.
  intros Hip Hf. unfold netip.put4, set_at.
  repeat apply set_nth_bytes; auto using get_at_byte.
Qed.

Lemma group_bytes (acc : Z) :
  0 <= acc <= 0xffff -> isByte (Z.shiftr acc 8) /\ isByte (Z.land acc 0xff).
Proof.
  intros Hacc. unfold isByte. change 0xff with (Z.ones 8).
  rewrite Z.land_ones, Z.shiftr_div_pow2 by lia.
  change (2 ^ 8) with 256. Z.div_mod_to_equations. lia.
Qed.

Lemma parseIPv6_loop_bytes (fuel : nat) :
  forall s i ellipsis ip s' i' ellipsis' ip',
    Forall isByte ip ->
    netip.parseIPv6_loop fuel s i ellipsis ip = Some (s', i', ellipsis', ip') ->
    Forall isByte ip'.
Proof.
  induction fuel as [|fuel IH]; intros s i ellipsis ip s' i' ellipsis' ip'
                                       Hip Hres;
    cbn [netip.parseIPv6_loop] in Hres.
  { injection Hres as _ _ _ <-. exact Hip. }
  destruct (16 <=? i); [injection Hres as _ _ _ <-; exact Hip|].
  destruct (netip.scanHex s 0 0) as [[[off acc] rest]|] eqn:Hscan;
    [|discriminate Hres].
  apply scanHex_range in Hscan; [|lia].
  destruct (group_bytes acc Hscan) as [Hhi Hlo].
  destruct (off =? 0); [discriminate Hres|].
  destruct (HasPrefix rest ".").
  { destruct ((ellipsis <? 0) && negb (i =? 12)); [discriminate Hres|].
    destruct (16 <? i + 4); [discriminate Hres|].
    destruct (netip.parseIPv4Fields s) as [f|] eqn:Hf; [|discriminate Hres].
    injection Hres as _ _ _ <-.
    destruct (parseIPv4Fields_bytes s f Hf)
      as [b0 [b1 [b2 [b3 [-> [H0 [H1 [H2 H3]]]]]]]].
    apply put4_bytes; [exact Hip | repeat (constructor; [assumption|]); constructor]. }
  cbv zeta in Hres.
  assert (Hip' : Forall isByte
                   (set_at (set_at ip i (Z.shiftr acc 8)) (i + 1)
                           (Z.land acc 255))).
  { unfold set_at. repeat apply set_nth_bytes; assumption. }
  destruct rest as [|c s1]; [injection Hres as _ _ _ <-; exact Hip'|].
  destruct (negb (Ascii.eqb c ":")); [discriminate Hres|].
  destruct s1 as [|c1 s2]; [discriminate Hres|].
  destruct (Ascii.eqb c1 ":").
  - destruct (0 <=? ellipsis); [discriminate Hres|].
    destruct (String.eqb s2 "").
    + injection Hres as _ _ _ <-. exact Hip'.
    + eapply IH; [exact Hip' | exact Hres].
  - eapply IH; [exact Hip' | exact Hres].
Qed.

Lemma fold_bytes (l : list Z) :
  forall acc n,
    Forall isByte l -> 0 <= n -> 0 <= acc < 2 ^ (8 * n) ->
    0 <= fold_left (fun acc x => Z.lor (Z.shiftl acc 8) x) l acc
      < 2 ^ (8 * (n + Z.of_nat (List.length l))).
Proof.
  induction l as [|x l IH]; intros acc n Hl Hn Hacc; cbn [fold_left List.length].
  - now rewrite Z.add_0_r.
  - inversion Hl as [|? ? Hx Hl']; subst. unfold isByte in Hx.
    replace (n + Z.of_nat (S (List.length l)))
      with ((n + 1) + Z.of_nat (List.length l)) by lia.
    apply IH; [exact Hl' | lia |].
    rewrite lor_shiftl_add by (change (2 ^ 8) with 256; lia).
    replace (8 * (n + 1)) with (8 * n + 8) by lia.
    rewrite Z.pow_add_r by lia. change (2 ^ 8) with 256. nia.
Qed.

Lemma bytes_firstn (n : nat) (l : list Z) :
  Forall isByte l -> Forall isByte (firstn n l).
Proof.
  intros Hl. revert n. induction Hl as [|x l Hx Hl IH]; intros n;
    destruct n; cbn; auto.
Qed.

Lemma bytes_skipn (n : nat) (l : list Z) :
  Forall isByte l -> Forall isByte (skipn n l).
Proof.
  intros Hl. revert n. induction Hl as [|x l Hx Hl IH]; intros n;
    destruct n; cbn; auto.
Qed.

Lemma BEUint64_range (b : list Z) :
  Forall isByte b -> 0 <= netip.BEUint64 b < 2 ^ 64.
Proof.
  intros Hb. unfold netip.BEUint64.
  assert (Hfirst : Forall isByte (firstn 8 b)) by now apply bytes_firstn.
  assert (Hzero : 0 <= 0 < 2 ^ (8 * 0)) by (split; [lia | reflexivity]).
  pose proof (fold_bytes (firstn 8 b) 0 0 Hfirst (Z.le_refl 0) Hzero) as Hfold.
  assert (Hlen : (List.length (firstn 8 b) <= 8)%nat) by apply firstn_le_length.
  split; [lia|]. apply Z.lt_le_trans with (1 := proj2 Hfold).
  apply Z.pow_le_mono_r; lia.
Qed.

Lemma expandEllipsis_bytes (ip : list Z) (i ellipsis : Z) :
  Forall isByte ip -> Forall isByte (netip.expandEllipsis ip i ellipsis).
Proof.
  intros Hip. unfold netip.expandEllipsis. cbv zeta.
  apply Forall_app. split; [now apply bytes_firstn|].
  apply Forall_app. split.
  - apply Forall_forall. intros x Hx. apply repeat_spec in Hx. subst x.
    unfold isByte. lia.
  - now apply bytes_firstn, bytes_skipn.
Qed.

Lemma WithZone_Is6 (ip : netip.Addr) (zn : string) :
  netip.Is6 ip = true ->
  netip.Is6 (netip.WithZone ip zn) = true
  /\ netip.addr_hi (netip.WithZone ip zn) = netip.addr_hi ip
  /\ netip.addr_lo (netip.WithZone ip zn) = netip.addr_lo ip.
Proof.
  intros H6. unfold netip.WithZone. rewrite H6. cbn [negb].
  destruct (String.eqb zn ""); repeat split.
Qed.

(** An address [parseIPv6] returns is an IPv6 address whose two halves
    are 64-bit numbers. *)
Lemma parseIPv6_Is6 (s : string) (a : netip.Addr) :
  netip.parseIPv6 s = Some a ->
  netip.Is6 a = true
  /\ 0 <= netip.addr_hi a < 2 ^ 64 /\ 0 <= netip.addr_lo a < 2 ^ 64.
Proof.
  assert (Hfrom16 : forall ip zn,
             Forall isByte ip ->
             let a := netip.WithZone (netip.AddrFrom16 ip) zn in
             netip.Is6 a = true
             /\ 0 <= netip.addr_hi a < 2 ^ 64
             /\ 0 <= netip.addr_lo a < 2 ^ 64).
  { intros ip zn Hip a0.
    destruct (WithZone_Is6 (netip.AddrFrom16 ip) zn eq_refl) as [H6 [Hh Hl]].
    split; [exact H6|]. unfold a0. rewrite Hh, Hl.
    unfold netip.AddrFrom16. cbn [netip.addr_hi netip.addr_lo].
    split; apply BEUint64_range; [now apply bytes_firstn | now apply bytes_skipn]. }
  assert (Hzeros : Forall isByte (repeat 0 16)).
  { apply Forall_forall. intros x Hx. apply repeat_spec in Hx. subst x.
    unfold isByte. lia. }
  unfold netip.parseIPv6. cbv zeta. intros Hres.
  destruct (match cutByte "%" s with
            | Some (s0, zn) => if String.eqb zn "" then None else Some (s0, zn)
            | None => Some (s, "")
            end) as [[s0 zn]|]; [|discriminate Hres].
  destruct (HasPrefix s0 "::"
            && String.eqb (if HasPrefix s0 "::"
                           then substring 2 (String.length s0 - 2) s0
                           else s0) "").
  { injection Hres as <-.
    destruct (WithZone_Is6 netip.IPv6Unspecified zn eq_refl) as [H6 [Hh Hl]].
    split; [exact H6|]. rewrite Hh, Hl. cbn. lia. }
  destruct (netip.parseIPv6_loop 8 _ 0 _ (repeat 0 16))
    as [[[[s1 i1] e1] ip1]|] eqn:Hloop; [|discriminate Hres].
  apply parseIPv6_loop_bytes in Hloop; [|exact Hzeros].
  destruct (negb (String.eqb s1 "")); [discriminate Hres|].
  destruct (i1 <? 16).
  - destruct (e1 <? 0); [discriminate Hres|]. injection Hres as <-.
    apply Hfrom16. now apply expandEllipsis_bytes.
  - destruct (0 <=? e1); [discriminate Hres|]. injection Hres as <-.
    now apply Hfrom16.
Qed.

Lemma ParseAddr_ranges (s : string) (a : netip.Addr) :
  netip.ParseAddr s = Some a ->
  ((exists b0 b1 b2 b3,
       a = netip.AddrFrom4 [b0; b1; b2; b3]
       /\ isByte b0 /\ isByte b1 /\ isByte b2 /\ isByte b3
       /\ netip.As4 a = Some [b0; b1; b2; b3]
       /\ (isTailscaleIP a = true <-> b0 = 100 /\ 64 <= b1 <= 127))
   \/ (netip.Is6 a = true
       /\ 0 <= netip.addr_hi a < 2 ^ 64 /\ 0 <= netip.addr_lo a < 2 ^ 64
       /\ (isTailscaleIP a = true <->
           Z.shiftr (netip.addr_hi a) 16 = 0xfd7a115ca1e0))).
Proof.
  unfold netip.ParseAddr. generalize s at 1 as rest.
  induction rest as [|c rest IH]; intros Hres; cbn [netip.ParseAddr_scan] in Hres;
    [discriminate Hres|].
  destruct (Ascii.eqb c ".").
  { left. unfold netip.parseIPv4 in Hres.
    destruct (netip.parseIPv4Fields s) as [f|] eqn:Hf; [|discriminate Hres].
    injection Hres as <-.
    destruct (parseIPv4Fields_bytes s f Hf)
      as [b0 [b1 [b2 [b3 [-> [H0 [H1 [H2 H3]]]]]]]].
    exists b0, b1, b2, b3.
    destruct (AddrFrom4_cgnat b0 b1 b2 b3 H0 H1 H2 H3) as [_ [Has4 Hiff]].
    repeat split; try assumption; try apply H0; try apply H1; try apply H2;
      try apply H3; apply Hiff; assumption. }
  destruct (Ascii.eqb c ":").
  { right. destruct (parseIPv6_Is6 s a Hres) as [H6 [Hh Hl]].
    split; [exact H6|]. split; [exact Hh|]. split; [exact Hl|].
    now apply isTailscaleIP_ula. }
  destruct (Ascii.eqb c "%"); [discriminate Hres|].
  now apply IH.
Qed.

(** X11.  What [ParseAddr] can hand to [isTailscaleIP].  An address it
    returns is either an IPv4 address made of four octets, which [As4]
    gives back, or an IPv6 address whose halves are 64-bit numbers; and
    [isTailscaleIP] accepts it exactly when it is an IPv4 address of
    100.64.0.0/10 or an IPv6 address of fd7a:115c:a1e0::/48. *)
Theorem parsed_address_ranges (s : string) (a : netip.Addr) :
  netip.ParseAddr s = Some a ->
  ((exists b0 b1 b2 b3,
       a = netip.AddrFrom4 [b0; b1; b2; b3]
       /\ isByte b0 /\ isByte b1 /\ isByte b2 /\ isByte b3
       /\ netip.As4 a = Some [b0; b1; b2; b3]
       /\ (isTailscaleIP a = true <-> b0 = 100 /\ 64 <= b1 <= 127))
   \/ (netip.Is6 a = true
       /\ 0 <= netip.addr_hi a < 2 ^ 64 /\ 0 <= netip.addr_lo a < 2 ^ 64
       /\ (isTailscaleIP a = true <->
           Z.shiftr (netip.addr_hi a) 16 = 0xfd7a115ca1e0))).
Proof.
  exact (ParseAddr_ranges s a).
Qed.

Lemma parsed_address_ranges_witness :
  (exists b0 b1 b2 b3,
      netip.mkAddr 0xfd7a115ca1e00000 1 netip.z6noz
      = netip.AddrFrom4 [b0; b1; b2; b3]
      /\ isByte b0 /\ isByte b1 /\ isByte b2 /\ isByte b3
      /\ netip.As4 (netip.mkAddr 0xfd7a115ca1e00000 1 netip.z6noz)
         = Some [b0; b1; b2; b3]
      /\ (isTailscaleIP (netip.mkAddr 0xfd7a115ca1e00000 1 netip.z6noz) = true
          <-> b0 = 100 /\ 64 <= b1 <= 127))
  \/ (netip.Is6 (netip.mkAddr 0xfd7a115ca1e00000 1 netip.z6noz) = true
      /\ 0 <= 0xfd7a115ca1e00000 < 2 ^ 64 /\ 0 <= 1 < 2 ^ 64
      /\ (isTailscaleIP (netip.mkAddr 0xfd7a115ca1e00000 1 netip.z6noz) = true
          <-> Z.shiftr 0xfd7a115ca1e00000 16 = 0xfd7a115ca1e0)).
Proof.
  apply (parsed_address_ranges "fd7a:115c:a1e0::1"). reflexivity.
Defined.

(** X12.  The decision of the gate, in full.  A request is passed on
    exactly when its host, the remote address without its port, is one of
    the three loopback literals, or parses as an address that is an IPv4
    address of 100.64.0.0/10, an IPv6 address of fd7a:115c:a1e0::/48, or
    one of the node's own addresses in the roster.  Everything else is
    refused, a host that does not parse included. *)
Theorem gate_decision (s : Server) (remoteAddr : string) :
  let host := clientIPOf remoteAddr in
  admits s remoteAddr = true <->
  (host = "127.0.0.1" \/ host = "::1" \/ host = "localhost")
  \/ exists a,
      netip.ParseAddr host = Some a
      /\ ((exists b0 b1 b2 b3,
              a = netip.AddrFrom4 [b0; b1; b2; b3]
              /\ isByte b0 /\ isByte b1 /\ isByte b2 /\ isByte b3
              /\ b0 = 100 /\ 64 <= b1 <= 127)
          \/ (netip.Is6 a = true
              /\ Z.shiftr (netip.addr_hi a) 16 = 0xfd7a115ca1e0)
          \/ In a (ownIPs s)).
Proof.
  cbv zeta. unfold admits. cbv zeta.
  rewrite orb_true_iff, isLocalhost_cases.
  split.
  - intros [Hloop | Hparsed]; [left; exact Hloop|]. right.
    destruct (netip.ParseAddr (clientIPOf remoteAddr)) as [a|] eqn:Hparse;
      [|discriminate Hparsed].
    exists a. split; [reflexivity|].
    apply orb_true_iff in Hparsed. destruct Hparsed as [Hstatic | Hown].
    + destruct (ParseAddr_ranges _ a Hparse)
        as [[b0 [b1 [b2 [b3 [Ha [H0 [H1 [H2 [H3 [_ Hiff]]]]]]]]]]
           | [H6 [_ [_ Hiff]]]].
      * left. exists b0, b1, b2, b3.
        destruct (proj1 Hiff Hstatic) as [E0 E1]. auto 10.
      * right. left. split; [exact H6 | now apply Hiff].
    + right. right. now apply isOwnTailscaleIP_In.
  - intros [Hloop | [a [Hparse Hcases]]]; [left; exact Hloop|]. right.
    rewrite Hparse. apply orb_true_iff.
    destruct Hcases as [[b0 [b1 [b2 [b3 [Ha [H0 [H1 [H2 [H3 [E0 E1]]]]]]]]]]
                       | [[H6 Hhi] | Hown]].
    + left. subst a.
      destruct (AddrFrom4_cgnat b0 b1 b2 b3 H0 H1 H2 H3) as [_ [_ Hiff]].
      apply Hiff. split; assumption.
    + left.
      destruct (ParseAddr_ranges _ a Hparse)
        as [[b0 [b1 [b2 [b3 [Ha _]]]]] | [_ [_ [_ Hiff]]]].
      * subst a. discriminate H6.
      * now apply Hiff.
    + right. now apply isOwnTailscaleIP_In.
Qed.

(** X13.  The roster only adds admissions: a request admitted by a server
    is admitted by every server whose roster lists at least the same
    addresses, in particular after [SetLocalBackend]; and a server
    without a backend admits exactly what the static rules admit. *)
Theorem roster_monotone (s s' : Server) (remoteAddr : string) :
  incl (ownIPs s) (ownIPs s') ->
  (admits s remoteAddr = true -> admits s' remoteAddr = true)
  /\ (forall b, admits (New (addr s)) remoteAddr = true ->
                admits (SetLocalBackend (New (addr s)) b) remoteAddr = true)
  /\ admits (New (addr s)) remoteAddr =
     (isLocalhost (clientIPOf remoteAddr)
      || match netip.ParseAddr (clientIPOf remoteAddr) with
         | Some a => isTailscaleIP a
         | None => false
         end).
Proof.
  intros Hincl.
  assert (Hmono : forall t t', incl (ownIPs t) (ownIPs t') ->
                               admits t remoteAddr = true ->
                               admits t' remoteAddr = true).
  { intros t t' Hi. unfold admits. cbv zeta.
    destruct (isLocalhost (clientIPOf remoteAddr)); [reflexivity|].
    cbn [orb].
    destruct (netip.ParseAddr (clientIPOf remoteAddr)) as [a|]; [|discriminate].
    destruct (isTailscaleIP a); [reflexivity|]. cbn [orb].
    rewrite !isOwnTailscaleIP_In. apply Hi. }
  split; [now apply Hmono|]. split.
  - intros b. apply Hmono. intros x Hx. contradiction Hx.
  - unfold admits. cbv zeta.
    destruct (netip.ParseAddr (clientIPOf remoteAddr)) as [a|]; [|reflexivity].
    change (isOwnTailscaleIP (New (addr s)) a) with false.
    now rewrite orb_false_r.
Qed.

Lemma roster_monotone_witness :
  admits serverWithOwnIP "100.64.1.2:80" = true.
Proof.
  destruct (roster_monotone (New ":6942") serverWithOwnIP "100.64.1.2:80")
    as [Hmono _].
  - intros x Hx. contradiction Hx.
  - apply Hmono. reflexivity.
Defined.

(** ** The client IP *)

Lemma length_app (a b : string) :
  String.length (a ++ b) = (String.length a + String.length b)%nat.
Proof. induction a as [|c a IH]; cbn; [reflexivity | now rewrite IH]. Qed.

Lemma substring_all (s : string) : substring 0 (String.length s) s = s.
Proof. induction s as [|c s IH]; cbn; [reflexivity | now rewrite IH]. Qed.

Lemma containsByte_cons (c d : ascii) (s : string) :
  containsByte c (String d s) = Ascii.eqb d c || containsByte c s.
Proof.
  unfold containsByte. cbn [cutByte].
  destruct (Ascii.eqb d c); [reflexivity|].
  destruct (cutByte c s) as [[x y]|]; reflexivity.
Qed.

Lemma containsByte_app (c : ascii) (a b : string) :
  containsByte c (a ++ b) = containsByte c a || containsByte c b.
Proof.
  induction a as [|d a IH]; [reflexivity|].
  cbn [String.append]. rewrite !containsByte_cons, IH. apply orb_assoc.
Qed.

Lemma cutByte_app (c : ascii) (a b : string) :
  containsByte c a = false ->
  cutByte c (a ++ String c b) = Some (a, b).
Proof.
  induction a as [|d a IH]; intros Hno.
  - cbn. now rewrite Ascii.eqb_refl.
  - rewrite containsByte_cons in Hno. apply orb_false_iff in Hno.
    destruct Hno as [Hd Ha]. cbn [String.append cutByte].
    rewrite Hd, (IH Ha). reflexivity.
Qed.

Lemma cutLastByte_none (c : ascii) (s : string) :
  containsByte c s = false -> cutLastByte c s = None.
Proof.
  induction s as [|d s IH]; intros Hno; [reflexivity|].
  rewrite containsByte_cons in Hno. apply orb_false_iff in Hno.
  destruct Hno as [Hd Hs]. cbn [cutLastByte]. now rewrite (IH Hs), Hd.
Qed.

Lemma cutLastByte_app (c : ascii) (a b : string) :
  containsByte c b = false ->
  cutLastByte c (a ++ String c b) = Some (a, b).
Proof.
  intros Hno. induction a as [|d a IH].
  - cbn [String.append cutLastByte].
    now rewrite (cutLastByte_none c b Hno), Ascii.eqb_refl.
  - cbn [String.append cutLastByte]. now rewrite IH.
Qed.

Lemma prefix_single (a c : ascii) (s : string) :
  String.prefix (String a "") (String c s) = Ascii.eqb a c.
Proof.
  change (String.prefix (String a "") (String c s))
    with (if ascii_dec a c then String.prefix "" s else false).
  destruct (ascii_dec a c) as [->|Hne].
  - rewrite Ascii.eqb_refl. now destruct s.
  - symmetry. now apply Ascii.eqb_neq.
Qed.

Lemma SplitHostPort_host_port (host port : string) :
  containsByte "[" host = false -> containsByte "]" host = false ->
  containsByte ":" host = false ->
  containsByte ":" port = false ->
  containsByte "[" port = false -> containsByte "]" port = false ->
  net.SplitHostPort (host ++ ":" ++ port) = Some (host, port).
Proof.
  intros Hob Hcb Hhc Hpc Hpob Hpcb.
  unfold net.SplitHostPort.
  change (host ++ ":" ++ port)%string with (host ++ String ":" port)%string.
  rewrite (cutLastByte_app ":" host port Hpc).
  assert (Hpre : HasPrefix (host ++ String ":" port) "[" = false).
  { destruct host as [|c host]; [reflexivity|].
    rewrite containsByte_cons in Hob. apply orb_false_iff in Hob.
    destruct Hob as [Hc _]. unfold HasPrefix. cbn [String.append].
    rewrite prefix_single, Ascii.eqb_sym. exact Hc. }
  rewrite Hpre, Hhc.
  rewrite !containsByte_app, !containsByte_cons, Hob, Hcb, Hpob, Hpcb.
  reflexivity.
Qed.

(** X14.  The host the gate examines.  From host:port it is the host,
    when neither part contains a colon or a bracket; from [host]:port it
    is the host without the brackets, colons allowed in it, which is how
    an IPv6 client arrives; and a remote address without any colon, one
    that has no port, is taken as it is. *)
Theorem client_ip_without_port (host port : string) :
  containsByte "[" host = false -> containsByte "]" host = false ->
  containsByte ":" port = false ->
  containsByte "[" port = false -> containsByte "]" port = false ->
  (containsByte ":" host = false ->
   net.SplitHostPort (host ++ ":" ++ port) = Some (host, port)
   /\ clientIPOf (host ++ ":" ++ port) = host)
  /\ net.SplitHostPort ("[" ++ host ++ "]:" ++ port) = Some (host, port)
  /\ clientIPOf ("[" ++ host ++ "]:" ++ port) = host
  /\ (forall remoteAddr, containsByte ":" remoteAddr = false ->
                         clientIPOf remoteAddr = remoteAddr).
Proof.
  intros Hob Hcb Hpc Hpob Hpcb.
  assert (Hbracket : net.SplitHostPort ("[" ++ host ++ "]:" ++ port)
                     = Some (host, port)).
  { unfold net.SplitHostPort.
    change ("[" ++ host ++ "]:" ++ port)%string
      with (String "[" (host ++ String "]" (String ":" port))).
    replace (String "[" (host ++ String "]" (String ":" port)))
      with ((String "[" (host ++ "]")) ++ String ":" port)%string
      by (cbn; now rewrite append_assoc).
    rewrite (cutLastByte_app ":" _ port Hpc).
    replace ((String "[" (host ++ "]")) ++ String ":" port)%string
      with ((String "[" host) ++ String "]" (String ":" port))%string
      by (cbn; now rewrite append_assoc).
    assert (Hcb' : containsByte "]" (String "[" host) = false)
      by (rewrite containsByte_cons; exact Hcb).
    rewrite (cutByte_app "]" _ _ Hcb').
    unfold HasPrefix. cbn [String.append]. rewrite prefix_single.
    change (Ascii.eqb "[" "[") with true. cbv iota zeta.
    unfold len. cbn [String.length].
    rewrite !length_app. cbn [String.length].
    replace (Z.of_nat (S (String.length host)) + 1
             =? Z.of_nat (S (String.length host + S (S (String.length port)))))
      with false by (symmetry; apply Z.eqb_neq; lia).
    replace (Z.of_nat (S (String.length host)) + 1
             =? Z.of_nat (S (String.length host + 1)))
      with true by (symmetry; apply Z.eqb_eq; lia).
    cbn [substring Nat.sub].
    rewrite !Nat.sub_0_r, substring_all.
    replace (String.length host + S (S (String.length port)))%nat
      with (String.length (host ++ String "]" (String ":" port)))
      by (rewrite length_app; reflexivity).
    rewrite substring_all.
    rewrite !containsByte_app, !containsByte_cons, Hob, Hpob, Hpcb.
    cbn. reflexivity. }
  split; [|split; [|split]].
  - intros Hhc.
    pose proof (SplitHostPort_host_port host port Hob Hcb Hhc Hpc Hpob Hpcb)
      as Hsplit.
    split; [exact Hsplit|]. unfold clientIPOf. now rewrite Hsplit.
  - exact Hbracket.
  - unfold clientIPOf. now rewrite Hbracket.
  - intros remoteAddr Hno. unfold clientIPOf, net.SplitHostPort.
    now rewrite (cutLastByte_none ":" remoteAddr Hno).
Qed.

Lemma client_ip_without_port_witness :
  net.SplitHostPort ("[" ++ "fd7a:115c:a1e0::1" ++ "]:" ++ "41641")
  = Some ("fd7a:115c:a1e0::1", "41641").
Proof.
  apply (client_ip_without_port "fd7a:115c:a1e0::1" "41641"); reflexivity.
Defined.

(** ** The Linux collector *)

Lemma u64_add_l (a b : Z) : u64 (u64 a + b) = u64 (a + b).
Proof. unfold u64. apply Zplus_mod_idemp_l. Qed.

Lemma netdevLine_counts (totals : Z * Z) (line : string) :
  Linux.netdevLine totals line =
  (addCount (fst totals) (fst (netdevCounts line)),
   addCount (snd totals) (snd (netdevCounts line))).
Proof.
  destruct totals as [sent recv]. unfold Linux.netdevLine, netdevCounts.
  cbv zeta.
  destruct (List.length (strings.Fields line) <? 10)%nat; [reflexivity|].
  destruct (HasPrefix (nth 0 (strings.Fields line) "") "lo:"); [reflexivity|].
  destruct (strconv.ParseUint (nth 1 (strings.Fields line) "")) as [r [e1|]];
    destruct (strconv.ParseUint (nth 9 (strings.Fields line) "")) as [s [e2|]];
    reflexivity.
Qed.

Lemma addCount_comm (total : Z) (a b : option Z) :
  addCount (addCount total a) b = addCount (addCount total b) a.
Proof.
  destruct a as [a|], b as [b|]; cbn [addCount]; try reflexivity.
  rewrite !u64_add_l. f_equal. lia.
Qed.

Lemma addCount_range (total : Z) (a : option Z) :
  0 <= total < 2 ^ 64 -> 0 <= addCount total a < 2 ^ 64.
Proof.
  intros Ht. destruct a as [a|]; cbn [addCount]; [apply u64_range | exact Ht].
Qed.

Lemma netdevLine_comm (totals : Z * Z) (a b : string) :
  Linux.netdevLine (Linux.netdevLine totals a) b =
  Linux.netdevLine (Linux.netdevLine totals b) a.
Proof.
  rewrite !netdevLine_counts. cbn [fst snd].
  f_equal; apply addCount_comm.
Qed.

Lemma fold_netdev_perm (ls ls' : list string) :
  Permutation ls ls' ->
  forall totals, fold_left Linux.netdevLine ls totals
                 = fold_left Linux.netdevLine ls' totals.
Proof.
  induction 1 as [|x l l' _ IH|x y l|l l' l'' _ IH1 _ IH2]; intros totals;
    cbn [fold_left].
  - reflexivity.
  - apply IH.
  - now rewrite netdevLine_comm.
  - now rewrite IH1.
Qed.

Lemma fold_netdev_range (ls : list string) :
  forall totals,
    0 <= fst totals < 2 ^ 64 -> 0 <= snd totals < 2 ^ 64 ->
    0 <= fst (fold_left Linux.netdevLine ls totals) < 2 ^ 64
    /\ 0 <= snd (fold_left Linux.netdevLine ls totals) < 2 ^ 64.
Proof.
  induction ls as [|l ls IH]; intros totals Hs Hr; cbn [fold_left];
    [split; assumption|].
  apply IH; rewrite netdevLine_counts; cbn [fst snd];
    now apply addCount_range.
Qed.

(** X15.  The network totals on Linux.  When /proc/net/dev cannot be
    opened the error is returned with zeros; otherwise there is no error
    and both totals are 64-bit numbers.  The first two lines are passed
    over unread; of the others, a line with fewer than ten fields and a
    line of the interface lo add nothing, and every other line adds its
    field 1 to the bytes received and its field 9 to the bytes sent,
    modulo 2^64, where they parse.  The totals do not depend on the order
    of the lines. *)
Theorem linux_network_stats (h1 h2 : string) (ls : list string) :
  let total ls := Linux.getNetworkStats (Linux.Lines (h1 :: h2 :: ls)) in
  (forall err, Linux.getNetworkStats (Linux.OpenError err) = (0, 0, Some err))
  /\ snd (total ls) = None
  /\ 0 <= fst (fst (total ls)) < 2 ^ 64
  /\ 0 <= snd (fst (total ls)) < 2 ^ 64
  /\ (forall h1' h2',
         Linux.getNetworkStats (Linux.Lines (h1' :: h2' :: ls)) = total ls)
  /\ (forall ls', Permutation ls ls' -> total ls' = total ls)
  /\ (forall l,
         let sent := fst (fst (total ls)) in
         let recv := snd (fst (total ls)) in
         total (ls ++ [l])%list =
         (addCount sent (fst (netdevCounts l)),
          addCount recv (snd (netdevCounts l)), None))
  /\ (forall l,
         (List.length (strings.Fields l) < 10)%nat
         \/ HasPrefix (nth 0 (strings.Fields l) "") "lo:" = true ->
         netdevCounts l = (None, None)
         /\ forall ls1 ls2, ls = (ls1 ++ l :: ls2)%list ->
                            total (ls1 ++ ls2)%list = total ls).
Proof.
  cbv zeta. unfold Linux.getNetworkStats. cbn [skipn].
  assert (Hskip : forall l,
             (List.length (strings.Fields l) < 10)%nat
             \/ HasPrefix (nth 0 (strings.Fields l) "") "lo:" = true ->
             netdevCounts l = (None, None)).
  { intros l [Hlen | Hlo]; unfold netdevCounts; cbv zeta.
    - apply Nat.ltb_lt in Hlen. now rewrite Hlen.
    - rewrite Hlo. now destruct (List.length (strings.Fields l) <? 10)%nat. }
  split; [reflexivity|].
  destruct (fold_netdev_range ls (0, 0)) as [Hs Hr]; try (cbn; lia).
  destruct (fold_left Linux.netdevLine ls (0, 0)) as [sent recv] eqn:Efold.
  cbn [fst snd] in *.
  split; [reflexivity|]. split; [exact Hs|]. split; [exact Hr|].
  split; [intros h1' h2'; reflexivity|].
  split.
  { intros ls' Hperm. now rewrite <- (fold_netdev_perm ls ls' Hperm), Efold. }
  split.
  { intros l. rewrite fold_left_app, Efold. cbn [fold_left].
    rewrite netdevLine_counts. reflexivity. }
  intros l Hl. split; [now apply Hskip|].
  intros ls1 ls2 Hls.
  assert (Hperm : Permutation ls (l :: ls1 ++ ls2)).
  { rewrite Hls. symmetry. apply Permutation_middle. }
  rewrite (fold_netdev_perm _ _ Hperm) in Efold. cbn [fold_left] in Efold.
  rewrite netdevLine_counts, (Hskip l Hl) in Efold. cbn [fst snd addCount] in Efold.
  now rewrite Efold.
Qed.

Lemma linux_network_stats_witness :
  Linux.getNetworkStats
    (Linux.Lines ("header" :: "header"
                  :: ["  eth0: 5000 50 0 0 0 0 0 0 7000 70 0 0 0 0 0 0";
                      "    lo: 1000 10 0 0 0 0 0 0 1000 10 0 0 0 0 0 0"]))
  = Linux.getNetworkStats
      (Linux.Lines ("header" :: "header"
                    :: ["    lo: 1000 10 0 0 0 0 0 0 1000 10 0 0 0 0 0 0";
                        "  eth0: 5000 50 0 0 0 0 0 0 7000 70 0 0 0 0 0 0"])).
Proof.
  destruct (linux_network_stats "header" "header"
              ["    lo: 1000 10 0 0 0 0 0 0 1000 10 0 0 0 0 0 0";
               "  eth0: 5000 50 0 0 0 0 0 0 7000 70 0 0 0 0 0 0"])
    as (_ & _ & _ & _ & _ & Hperm & _).
  apply Hperm. apply perm_swap.
Defined.

Lemma u64_sub_l (a b : Z) : u64 (u64 a - b) = u64 (a - b).
Proof. unfold u64. apply Zminus_mod_idemp_l. Qed.

Lemma u64_sub3 (a b c d : Z) :
  u64 (u64 (u64 (a - b) - c) - d) = u64 (a - b - c - d).
Proof.
  rewrite u64_sub_l.
  replace (u64 (a - b) - c - d) with (u64 (a - b) - (c + d)) by lia.
  rewrite u64_sub_l. f_equal. lia.
Qed.

Lemma meminfoLine_steps (m : Linux.meminfo) (line : string) :
  Linux.meminfoLine m line =
  Linux.mkMeminfo
    (meminfoStep "MemTotal:" (Linux.memTotal m) line)
    (meminfoStep "MemFree:" (Linux.memFree m) line)
    (meminfoStep "MemAvailable:" (Linux.memAvailable m) line)
    (meminfoStep "Buffers:" (Linux.buffers m) line)
    (meminfoStep "Cached:" (Linux.cached m) line).
Proof.
  unfold Linux.meminfoLine, meminfoStep. cbv zeta.
  destruct m as [t f a b c]. cbn [Linux.memTotal Linux.memFree
    Linux.memAvailable Linux.buffers Linux.cached].
  destruct (strings.Fields line) as [|key [|field1 rest]]; try reflexivity.
  destruct (String.eqb key "MemTotal:") eqn:E1.
  { apply String.eqb_eq in E1. subst key. reflexivity. }
  destruct (String.eqb key "MemFree:") eqn:E2.
  { apply String.eqb_eq in E2. subst key. reflexivity. }
  destruct (String.eqb key "MemAvailable:") eqn:E3.
  { apply String.eqb_eq in E3. subst key. reflexivity. }
  destruct (String.eqb key "Buffers:") eqn:E4.
  { apply String.eqb_eq in E4. subst key. reflexivity. }
  destruct (String.eqb key "Cached:") eqn:E5; reflexivity.
Qed.

Lemma fold_meminfo (lines : list string) :
  forall m,
    fold_left Linux.meminfoLine lines m =
    Linux.mkMeminfo
      (fold_left (meminfoStep "MemTotal:") lines (Linux.memTotal m))
      (fold_left (meminfoStep "MemFree:") lines (Linux.memFree m))
      (fold_left (meminfoStep "MemAvailable:") lines (Linux.memAvailable m))
      (fold_left (meminfoStep "Buffers:") lines (Linux.buffers m))
      (fold_left (meminfoStep "Cached:") lines (Linux.cached m)).
Proof.
  induction lines as [|l lines IH]; intros m; cbn [fold_left].
  - now destruct m.
  - rewrite IH, meminfoLine_steps. reflexivity.
Qed.

Lemma meminfoStep_range (key : string) (value : Z) (line : string) :
  0 <= value < 2 ^ 64 -> 0 <= meminfoStep key value line < 2 ^ 64.
Proof.
  intros Hv. unfold meminfoStep.
  destruct (strings.Fields line) as [|k [|field1 rest]]; try exact Hv.
  destruct (String.eqb k key); [apply u64_range | exact Hv].
Qed.

Lemma meminfoValue_range (key : string) (lines : list string) :
  0 <= meminfoValue key lines < 2 ^ 64.
Proof.
  unfold meminfoValue.
  assert (Hgen : forall v, 0 <= v < 2 ^ 64 ->
                           0 <= fold_left (meminfoStep key) lines v < 2 ^ 64).
  { induction lines as [|l lines IH]; intros v Hv; cbn [fold_left];
      [exact Hv|]. apply IH. now apply meminfoStep_range. }
  apply Hgen. lia.
Qed.

(** X16.  The memory figures on Linux.  When /proc/meminfo cannot be
    opened the error is returned with zeros.  Otherwise there is no error,
    and the five quantities are looked up independently of each other:
    each is the value, times 1024 modulo 2^64, of the last line with at
    least two fields whose first field is its key, and 0 when no line has
    it, so that other lines and the order of lines with different keys do
    not matter.  The total is MemTotal; the memory used is the total less
    MemAvailable when that is positive, and otherwise the total less
    MemFree, Buffers and Cached, both modulo 2^64: with MemAvailable
    positive and at most the total, used and available add up to the
    total, and with MemAvailable above the total the subtraction wraps
    around. *)
Theorem linux_memory_usage (lines : list string) :
  let value key := meminfoValue key lines in
  let total := value "MemTotal:" in
  let available := value "MemAvailable:" in
  let used := fst (fst (Linux.getMemoryUsage (Linux.Lines lines))) in
  (forall err, Linux.getMemoryUsage (Linux.OpenError err) = (0, 0, Some err))
  /\ Linux.getMemoryUsage (Linux.Lines lines) =
     (if 0 <? available then u64 (total - available)
      else u64 (total - value "MemFree:" - value "Buffers:" - value "Cached:"),
      total, None)
  /\ (0 < available <= total -> used + available = total)
  /\ (total < available -> used = total - available + 2 ^ 64)
  /\ (available = 0 ->
      value "MemFree:" + value "Buffers:" + value "Cached:" <= total ->
      used + value "MemFree:" + value "Buffers:" + value "Cached:" = total).
Proof.
  cbv zeta.
  assert (Heq : Linux.getMemoryUsage (Linux.Lines lines) =
     (if 0 <? meminfoValue "MemAvailable:" lines
      then u64 (meminfoValue "MemTotal:" lines
                - meminfoValue "MemAvailable:" lines)
      else u64 (meminfoValue "MemTotal:" lines - meminfoValue "MemFree:" lines
                - meminfoValue "Buffers:" lines
                - meminfoValue "Cached:" lines),
      meminfoValue "MemTotal:" lines, None)).
  { unfold Linux.getMemoryUsage. cbv zeta. rewrite fold_meminfo.
    cbn [Linux.memTotal Linux.memFree Linux.memAvailable Linux.buffers
         Linux.cached].
    fold (meminfoValue "MemTotal:" lines) (meminfoValue "MemFree:" lines)
         (meminfoValue "MemAvailable:" lines) (meminfoValue "Buffers:" lines)
         (meminfoValue "Cached:" lines).
    now rewrite u64_sub3. }
  rewrite Heq. cbn [fst].
  pose proof (meminfoValue_range "MemTotal:" lines) as Ht.
  pose proof (meminfoValue_range "MemAvailable:" lines) as Ha.
  pose proof (meminfoValue_range "MemFree:" lines) as Hf.
  pose proof (meminfoValue_range "Buffers:" lines) as Hb.
  pose proof (meminfoValue_range "Cached:" lines) as Hc.
  split; [reflexivity|]. split; [reflexivity|].
  split; [|split].
  - intros [Hpos Hle]. rewrite (proj2 (Z.ltb_lt _ _) Hpos).
    rewrite u64_small by lia. lia.
  - intros Hlt. assert (Hpos : (0 <? meminfoValue "MemAvailable:" lines) = true)
      by (apply Z.ltb_lt; lia).
    rewrite Hpos. unfold u64.
    rewrite <- (Z_mod_plus_full _ 1 (2 ^ 64)).
    rewrite Z.mod_small; lia.
  - intros H0 Hle. rewrite H0. cbn [Z.ltb Z.compare].
    rewrite u64_small by lia. lia.
Qed.

Lemma linux_memory_usage_witness :
  fst (fst (Linux.getMemoryUsage (Linux.Lines meminfoSample)))
  + meminfoValue "MemAvailable:" meminfoSample
  = meminfoValue "MemTotal:" meminfoSample.
Proof.
  destruct (linux_memory_usage meminfoSample) as (_ & _ & Hsum & _).
  apply Hsum. vm_compute. split; [reflexivity | discriminate].
Defined.

Lemma u64_mul_r (a b : Z) : u64 (a * u64 b) = u64 (a * b).
Proof. unfold u64. apply Zmult_mod_idemp_r. Qed.

Lemma u64_sub_r (a b : Z) : u64 (a - u64 b) = u64 (a - b).
Proof. unfold u64. apply Zminus_mod_idemp_r. Qed.

(** X17.  The disk figures on Linux.  A failed statfs returns its error
    with zeros.  Otherwise there is no error; the total is Blocks * Bsize
    and the space used is (Blocks - Bavail) * Bsize, both modulo 2^64,
    whatever the three numbers are: the blocks only root may use count as
    used.  When the block size is not negative, no more blocks are
    available than there are, and the size of the file system fits in 64
    bits, nothing wraps around and the space used is at most the total. *)
Theorem linux_disk_usage (Blocks Bavail Bsize : Z) :
  let res := Linux.getDiskUsage (Linux.StatfsOk Blocks Bavail Bsize) in
  (forall err, Linux.getDiskUsage (Linux.StatfsError err) = (0, 0, Some err))
  /\ res = (u64 ((Blocks - Bavail) * Bsize), u64 (Blocks * Bsize), None)
  /\ (0 <= Bavail <= Blocks -> 0 <= Bsize -> Blocks * Bsize < 2 ^ 64 ->
      res = ((Blocks - Bavail) * Bsize, Blocks * Bsize, None)
      /\ 0 <= fst (fst res) <= snd (fst res)
      /\ fst (fst res) + Bavail * Bsize = snd (fst res)).
Proof.
  cbv zeta.
  assert (Heq : Linux.getDiskUsage (Linux.StatfsOk Blocks Bavail Bsize)
                = (u64 ((Blocks - Bavail) * Bsize), u64 (Blocks * Bsize), None)).
  { unfold Linux.getDiskUsage. cbv zeta.
    rewrite u64_sub_l, u64_sub_r.
    replace (Blocks * u64 Bsize - Bavail * u64 Bsize)
      with ((Blocks - Bavail) * u64 Bsize) by lia.
    now rewrite !u64_mul_r. }
  split; [reflexivity|]. split; [exact Heq|].
  intros Ha Hs Hfit. rewrite Heq. cbn [fst snd].
  assert (H1 : 0 <= (Blocks - Bavail) * Bsize <= Blocks * Bsize) by nia.
  assert (H2 : 0 <= Blocks * Bsize) by nia.
  rewrite !u64_small by lia.
  split; [reflexivity|]. split; [exact H1|]. lia.
Qed.

Lemma linux_disk_usage_witness :
  Linux.getDiskUsage (Linux.StatfsOk 1000 400 4096)
  = ((1000 - 400) * 4096, 1000 * 4096, None).
Proof.
  apply (linux_disk_usage 1000 400 4096); vm_compute;
    try split; congruence.
Defined.

(** X18.  The Linux collector never fails: its error is nil whatever it
    reads.  It reports a field from a measurement that succeeded and
    leaves the field at zero when the measurement failed, so each group of
    fields depends on its own source only; the network totals are those
    of /proc/net/dev; the CPU sample state is the sampler's.  When every
    source fails the metrics are all zero, the error is still nil and the
    stored CPU sample is unchanged. *)
Theorem linux_collector_never_fails {F : Type} (ops : Float64 F)
        (ParseFloat : string -> F * error) (uint64_of_float : F -> Z)
        (p : Linux.Proc) (last : Linux.cpuStats) :
  let res := Linux.getSystemMetrics ParseFloat uint64_of_float p last in
  let m := fst (fst res) in
  let cpu := Linux.getCPUUsage (Linux.stat p) (Linux.now p) last in
  let mem := Linux.getMemoryUsage (Linux.meminfoFile p) in
  let disk := Linux.getDiskUsage (Linux.rootfs p) in
  let net := Linux.getNetworkStats (Linux.netdev p) in
  let up := Linux.getUptime ParseFloat uint64_of_float (Linux.uptimeFile p) in
  snd (fst res) = None
  /\ snd res = snd cpu
  /\ CPUPercent m = (if Linux.isNil (snd (fst cpu)) then fst (fst cpu)
                     else of_uint64 0)
  /\ MemoryUsed m = (if Linux.isNil (snd mem) then fst (fst mem) else 0)
  /\ MemoryTotal m = (if Linux.isNil (snd mem) then snd (fst mem) else 0)
  /\ MemoryPercent m =
     (if Linux.isNil (snd mem) && (0 <? snd (fst mem))
      then fmul (fdiv (of_uint64 (fst (fst mem))) (of_uint64 (snd (fst mem))))
                (of_uint64 100)
      else of_uint64 0)
  /\ DiskUsed m = (if Linux.isNil (snd disk) then fst (fst disk) else 0)
  /\ DiskTotal m = (if Linux.isNil (snd disk) then snd (fst disk) else 0)
  /\ DiskPercent m =
     (if Linux.isNil (snd disk) && (0 <? snd (fst disk))
      then fmul (fdiv (of_uint64 (fst (fst disk)))
                      (of_uint64 (snd (fst disk))))
                (of_uint64 100)
      else of_uint64 0)
  /\ NetworkBytesSent m = (if Linux.isNil (snd net) then fst (fst net) else 0)
  /\ NetworkBytesRecv m = (if Linux.isNil (snd net) then snd (fst net) else 0)
  /\ UptimeSeconds m = (if Linux.isNil (snd up) then fst up else 0)
  /\ (forall e1 e2 e3 e4 e5 now,
         Linux.getSystemMetrics ParseFloat uint64_of_float
           (Linux.mkProc (Linux.ReadError e1) now (Linux.OpenError e2)
                         (Linux.StatfsError e3) (Linux.OpenError e4)
                         (Linux.OpenError e5)) last
         = ((zeroMetrics, None), last)).
Proof.
  cbv zeta. unfold Linux.getSystemMetrics.
  destruct (Linux.getCPUUsage (Linux.stat p) (Linux.now p) last)
    as [[cpu e1] st].
  destruct (Linux.getMemoryUsage (Linux.meminfoFile p))
    as [[memUsed memTotal] e2].
  destruct (Linux.getDiskUsage (Linux.rootfs p)) as [[diskUsed diskTotal] e3].
  destruct (Linux.getNetworkStats (Linux.netdev p)) as [[sent recv] e4].
  destruct (Linux.getUptime ParseFloat uint64_of_float (Linux.uptimeFile p))
    as [uptime e5].
  cbn. repeat split.
Qed.

Lemma getMemoryUsage_range (file : Linux.FileRead) :
  0 <= fst (fst (Linux.getMemoryUsage file))
  /\ 0 <= snd (fst (Linux.getMemoryUsage file)) < 2 ^ 64.
Proof.
  destruct file as [err|lines]; cbn [Linux.getMemoryUsage fst snd]; [lia|].
  cbv zeta. cbn [fst snd]. split.
  - destruct (0 <? _); apply u64_range.
  - rewrite fold_meminfo. cbn [Linux.memTotal].
    apply (meminfoValue_range "MemTotal:" lines).
Qed.

Lemma getDiskUsage_range (stat : Linux.Statfs) :
  0 <= fst (fst (Linux.getDiskUsage stat))
  /\ 0 <= snd (fst (Linux.getDiskUsage stat)) < 2 ^ 64.
Proof.
  destruct stat as [err|Blocks Bavail Bsize];
    cbn [Linux.getDiskUsage fst snd]; [lia|].
  cbv zeta. cbn [fst snd]. split; apply u64_range.
Qed.

(** X19.  The percentages of the Linux collector.  For every float type
    each of the two percentages is computed from the two amounts reported
    beside it: it is 0 when the total reported is 0, the division not
    being reached, and the value of used / total * 100 otherwise.  In
    binary64 each percentage is a number and is not below zero, whatever
    the files and the file system report. *)
Theorem linux_percentages (p : Linux.Proc) (last : Linux.cpuStats) :
  (forall (F : Type) (ops : Float64 F) (ParseFloat : string -> F * error)
          (uint64_of_float : F -> Z),
      let m := fst (fst (Linux.getSystemMetrics ParseFloat uint64_of_float
                                                p last)) in
      MemoryPercent m
      = (if 0 <? MemoryTotal m
         then fmul (fdiv (of_uint64 (MemoryUsed m))
                         (of_uint64 (MemoryTotal m)))
                   (of_uint64 100)
         else of_uint64 0)
      /\ DiskPercent m
         = (if 0 <? DiskTotal m
            then fmul (fdiv (of_uint64 (DiskUsed m))
                            (of_uint64 (DiskTotal m)))
                      (of_uint64 100)
            else of_uint64 0))
  /\ (forall (ParseFloat : string -> spec_float * error)
             (uint64_of_float : spec_float -> Z),
         let m := fst (fst (@Linux.getSystemMetrics spec_float ieee64
                              ParseFloat uint64_of_float p last)) in
         SFleb (@of_uint64 spec_float ieee64 0) (MemoryPercent m) = true
         /\ MemoryPercent m <> S754_nan
         /\ SFleb (@of_uint64 spec_float ieee64 0) (DiskPercent m) = true
         /\ DiskPercent m <> S754_nan).
Proof.
  pose proof (getMemoryUsage_range (Linux.meminfoFile p)) as [Hmu Hmt].
  pose proof (getDiskUsage_range (Linux.rootfs p)) as [Hdu Hdt].
  split.
  - intros F ops ParseFloat uint64_of_float. cbv zeta.
    unfold Linux.getSystemMetrics.
    destruct (Linux.getCPUUsage (Linux.stat p) (Linux.now p) last)
      as [[cpu e1] st].
    destruct (Linux.getMemoryUsage (Linux.meminfoFile p))
      as [[memUsed memTotal] e2].
    destruct (Linux.getDiskUsage (Linux.rootfs p))
      as [[diskUsed diskTotal] e3].
    destruct (Linux.getNetworkStats (Linux.netdev p)) as [[sent recv] e4].
    destruct (Linux.getUptime ParseFloat uint64_of_float (Linux.uptimeFile p))
      as [uptime e5].
    destruct e2; destruct e3;
      cbn [fst snd MemoryPercent DiskPercent MemoryTotal DiskTotal MemoryUsed
           DiskUsed Linux.isNil andb zeroMetrics];
      change (0 <? 0) with false; cbv iota;
      (split; [destruct (0 <? memTotal) | destruct (0 <? diskTotal)]);
      reflexivity.
  - intros ParseFloat uint64_of_float. cbv zeta.
    unfold Linux.getSystemMetrics.
    destruct (Linux.getCPUUsage (Linux.stat p) (Linux.now p) last)
      as [[cpu e1] st].
    destruct (Linux.getMemoryUsage (Linux.meminfoFile p))
      as [[memUsed memTotal] e2].
    destruct (Linux.getDiskUsage (Linux.rootfs p))
      as [[diskUsed diskTotal] e3].
    destruct (Linux.getNetworkStats (Linux.netdev p)) as [[sent recv] e4].
    destruct (Linux.getUptime ParseFloat uint64_of_float (Linux.uptimeFile p))
      as [uptime e5].
    cbn [fst snd] in Hmu, Hmt, Hdu, Hdt.
    cbn [fst snd MemoryPercent DiskPercent].
    assert (Hm : nonnegative64
                   (if Linux.isNil e2 && (0 <? memTotal)
                    then @fmul spec_float ieee64
                           (@fdiv spec_float ieee64
                              (@of_uint64 spec_float ieee64 memUsed)
                              (@of_uint64 spec_float ieee64 memTotal))
                           (@of_uint64 spec_float ieee64 100)
                    else MemoryPercent (@zeroMetrics spec_float ieee64))
                 = true).
    { destruct (Linux.isNil e2); [|reflexivity]. cbn [andb].
      destruct (Z.ltb_spec 0 memTotal); [|reflexivity].
      apply percent_nonnegative; lia. }
    assert (Hd : nonnegative64
                   (if Linux.isNil e3 && (0 <? diskTotal)
                    then @fmul spec_float ieee64
                           (@fdiv spec_float ieee64
                              (@of_uint64 spec_float ieee64 diskUsed)
                              (@of_uint64 spec_float ieee64 diskTotal))
                           (@of_uint64 spec_float ieee64 100)
                    else DiskPercent (@zeroMetrics spec_float ieee64))
                 = true).
    { destruct (Linux.isNil e3); [|reflexivity]. cbn [andb].
      destruct (Z.ltb_spec 0 diskTotal); [|reflexivity].
      apply percent_nonnegative; lia. }
    apply nonnegative64_number in Hm. apply nonnegative64_number in Hd.
    destruct Hm as [Hm1 Hm2]. destruct Hd as [Hd1 Hd2].
    repeat split; assumption.
Qed.

(** ** Parsing: fields and numbers *)

Lemma ParseUint_loop_range (s : string) :
  forall n, 0 <= n < 2 ^ 64 ->
            0 <= fst (strconv.ParseUint_loop s n) < 2 ^ 64.
Proof.
  induction s as [|c rest IH]; intros n Hn; cbn [strconv.ParseUint_loop fst].
  - exact Hn.
  - destruct ((48 <=? byte_of c) && (byte_of c <=? 57));
      [|cbn [fst]; lia].
    destruct (strconv.maxUint64 / 10 + 1 <=? n);
      [cbn [fst]; unfold strconv.maxUint64; lia|].
    cbv zeta.
    destruct ((_ <? _) || (_ <? _));
      [cbn [fst]; unfold strconv.maxUint64; lia|].
    apply IH. apply Z.mod_pos_bound. reflexivity.
Qed.

Lemma ParseUint_range (s : string) :
  0 <= fst (strconv.ParseUint s) < 2 ^ 64.
Proof.
  unfold strconv.ParseUint. destruct (String.eqb s "");
    [cbn [fst]; lia|]. apply ParseUint_loop_range. lia.
Qed.

Lemma decimalValue_le (d : Decimal.uint) :
  forall acc, 0 <= acc -> acc <= decimalValue d acc.
Proof.
  induction d as [|d IH|d IH|d IH|d IH|d IH|d IH|d IH|d IH|d IH|d IH];
    intros acc Hacc; cbn [decimalValue]; [lia|..];
    (etransitivity; [|apply IH]); lia.
Qed.

Lemma decimalValue_pos (d : Decimal.uint) :
  forall acc, decimalValue d (Z.pos acc) = Z.pos (Pos.of_uint_acc d acc).
Proof.
  induction d as [|d IH|d IH|d IH|d IH|d IH|d IH|d IH|d IH|d IH|d IH];
    intros acc; cbn [decimalValue Pos.of_uint_acc]; [reflexivity|..];
    rewrite <- IH; f_equal; lia.
Qed.

Lemma decimalValue_of_uint (d : Decimal.uint) :
  decimalValue d 0 = Z.of_N (Pos.of_uint d).
Proof.
  induction d as [|d IH|d IH|d IH|d IH|d IH|d IH|d IH|d IH|d IH|d IH];
    cbn [decimalValue Pos.of_uint]; [reflexivity|exact IH|..];
    cbn [Z.mul Z.add Z.of_N]; apply decimalValue_pos.
Qed.

Lemma decimalValue_to_uint (n : Z) :
  0 <= n -> decimalValue (N.to_uint (Z.to_N n)) 0 = n.
Proof.
  intros Hn. rewrite decimalValue_of_uint.
  change (Pos.of_uint (N.to_uint (Z.to_N n)))
    with (N.of_uint (N.to_uint (Z.to_N n))).
  rewrite DecimalN.Unsigned.of_to. lia.
Qed.

Ltac digit_step IH Hacc Hlt :=
  cbn [DecimalString.NilEmpty.string_of_uint strconv.ParseUint_loop
       decimalValue] in *;
  match goal with
  | |- context [decimalValue ?d ?a] =>
      pose proof (decimalValue_le d a ltac:(lia)) as Hle
  end;
  match goal with
  | |- context [byte_of ?c] =>
      let b := eval vm_compute in (byte_of c) in
      change (byte_of c) with b
  end;
  cbn [Z.leb Z.compare Pos.compare Pos.compare_cont andb];
  cbv zeta;
  change (strconv.maxUint64 / 10 + 1) with 1844674407370955162;
  change strconv.maxUint64 with 18446744073709551615;
  match goal with
  | |- context [?c <=? ?a] =>
      destruct (Z.leb_spec c a) as [Hbig|Hsmall]; [exfalso; lia|]
  end;
  rewrite Z.mod_small by lia;
  match goal with
  | |- context [(?x <? ?y) || (?u <? ?v)] =>
      destruct (Z.ltb_spec x y) as [H1|H1]; [exfalso; lia|];
      destruct (Z.ltb_spec u v) as [H2|H2]; [exfalso; lia|]
  end;
  cbn [orb];
  match type of Hlt with
  | decimalValue _ ?y < _ =>
      match goal with
      | |- context [strconv.ParseUint_loop _ ?x] => replace x with y by lia
      end
  end;
  apply IH; [lia | exact Hlt].

Lemma ParseUint_loop_decimal (d : Decimal.uint) :
  forall acc, 0 <= acc -> decimalValue d acc < 2 ^ 64 ->
    strconv.ParseUint_loop (DecimalString.NilEmpty.string_of_uint d) acc
    = (decimalValue d acc, None).
Proof.
  induction d as [|d IH|d IH|d IH|d IH|d IH|d IH|d IH|d IH|d IH|d IH];
    intros acc Hacc Hlt; [reflexivity|..]; digit_step IH Hacc Hlt.
Qed.

Lemma ParseUint_itoa (n : Z) :
  0 <= n < 2 ^ 64 -> strconv.ParseUint (itoa n) = (n, None).
Proof.
  intros Hn. unfold itoa.
  pose proof (decimalValue_to_uint n (proj1 Hn)) as Hval.
  destruct (N.to_uint (Z.to_N n)) as [|d|d|d|d|d|d|d|d|d|d] eqn:E;
    [cbn in Hval; subst n; reflexivity|..];
    unfold DecimalString.NilZero.string_of_uint, strconv.ParseUint;
    cbn [DecimalString.NilEmpty.string_of_uint String.eqb];
    match goal with
    | |- strconv.ParseUint_loop ?s 0 = _ =>
        match type of Hval with
        | decimalValue ?u 0 = _ =>
            change s with (DecimalString.NilEmpty.string_of_uint u)
        end
    end;
    (rewrite ParseUint_loop_decimal; [now rewrite Hval | lia | lia]).
Qed.

Lemma plain_decimal (d : Decimal.uint) :
  plain (DecimalString.NilEmpty.string_of_uint d) = true.
Proof.
  induction d as [|d IH|d IH|d IH|d IH|d IH|d IH|d IH|d IH|d IH|d IH];
    cbn [DecimalString.NilEmpty.string_of_uint plain];
    [reflexivity|..]; rewrite IH; reflexivity.
Qed.

Lemma plain_itoa (n : Z) : plain (itoa n) = true /\ itoa n <> "".
Proof.
  unfold itoa, DecimalString.NilZero.string_of_uint.
  destruct (N.to_uint (Z.to_N n)) as [|d|d|d|d|d|d|d|d|d|d];
    (split; [try reflexivity; apply plain_decimal | discriminate]).
Qed.

Lemma plain_app (a b : string) :
  plain (a ++ b) = plain a && plain b.
Proof.
  induction a as [|c a IH]; cbn [append plain]; [reflexivity|].
  now rewrite IH, andb_assoc.
Qed.

Lemma spaceWidth_plain (c : ascii) (rest : string) :
  plainChar c = true -> strings.spaceWidth (String c rest) = 0%nat.
Proof.
  unfold plainChar. intros Hc. apply andb_prop in Hc. destruct Hc as [H1 H2].
  apply Z.leb_le in H1. apply Z.ltb_lt in H2.
  unfold strings.spaceWidth, strings.isAsciiSpace. cbv zeta.
  set (b := byte_of c) in *.
  repeat match goal with
         | |- context [b =? ?k] =>
             destruct (Z.eqb_spec b k) as [E|E]; [exfalso; lia|]; clear E
         end.
  cbn [orb andb].
  destruct rest as [|d [|e r]]; reflexivity.
Qed.

Lemma Fields_loop_plain (w : string) :
  forall rest field found,
    plain w = true ->
    strings.Fields_loop (w ++ rest) 0 field found
    = strings.Fields_loop rest 0 (field ++ w) found.
Proof.
  induction w as [|c w IH]; intros rest field found Hw.
  - now rewrite append_nil_r.
  - cbn [plain] in Hw. apply andb_prop in Hw. destruct Hw as [Hc Hw].
    cbn [append strings.Fields_loop].
    rewrite (spaceWidth_plain c (w ++ rest) Hc).
    rewrite IH by exact Hw. now rewrite append_assoc.
Qed.

Lemma Fields_loop_spaces (k : nat) :
  forall rest field found,
    strings.Fields_loop (spaces (S k) ++ rest) 0 field found
    = strings.Fields_loop rest 0 "" (strings.endField field found).
Proof.
  induction k as [|k IH]; intros rest field found.
  - reflexivity.
  - change (spaces (S (S k)) ++ rest)%string
      with (String " " (spaces (S k) ++ rest)).
    cbn [strings.Fields_loop].
    change (strings.spaceWidth (String " " (spaces (S k) ++ rest))) with 1%nat.
    cbv iota. rewrite IH. reflexivity.
Qed.

Lemma endField_word (w : string) (found : list string) :
  w <> "" -> strings.endField w found = w :: found.
Proof.
  intros Hw. unfold strings.endField.
  destruct (String.eqb_spec w ""); [contradiction | reflexivity].
Qed.

(** A word followed by spaces is a field of its own. *)
Lemma Fields_loop_word (w : string) (k : nat) (rest : string)
      (found : list string) :
  plain w = true -> w <> "" ->
  strings.Fields_loop (w ++ spaces (S k) ++ rest) 0 "" found
  = strings.Fields_loop rest 0 "" (w :: found).
Proof.
  intros Hp Hw. rewrite Fields_loop_plain by exact Hp.
  rewrite Fields_loop_spaces. cbn [append]. now rewrite endField_word.
Qed.

Lemma Fields_loop_last (w : string) (found : list string) :
  plain w = true -> w <> "" ->
  strings.Fields_loop w 0 "" found = rev (w :: found).
Proof.
  intros Hp Hw. rewrite <- (append_nil_r w) at 1.
  rewrite Fields_loop_plain by exact Hp.
  cbn [append strings.Fields_loop]. now rewrite endField_word.
Qed.

(** Words joined by single spaces are the fields of the text. *)
Lemma Fields_loop_words (words : list string) :
  forall found,
    forallb plain words = true -> ~ In "" words ->
    strings.Fields_loop (String.concat " " words) 0 "" found
    = (rev found ++ words)%list.
Proof.
  induction words as [|w words IH]; intros found Hp Hne.
  - cbn. now rewrite app_nil_r.
  - cbn [forallb] in Hp. apply andb_prop in Hp. destruct Hp as [Hw Hp].
    assert (Hw' : w <> "") by (intros ->; apply Hne; now left).
    assert (Hne' : ~ In "" words) by (intros Hin; apply Hne; now right).
    destruct words as [|w2 words].
    + cbn [String.concat]. rewrite Fields_loop_last by assumption.
      reflexivity.
    + change (String.concat " " (w :: w2 :: words))
        with (w ++ spaces 1 ++ String.concat " " (w2 :: words))%string.
      rewrite Fields_loop_word by assumption.
      rewrite IH by assumption. cbn [rev]. now rewrite <- app_assoc.
Qed.

Lemma Fields_labelled (label : string) (k : nat) (words : list string) :
  plain label = true -> label <> "" ->
  forallb plain words = true -> ~ In "" words ->
  strings.Fields (label ++ spaces (S k) ++ String.concat " " words)
  = label :: words.
Proof.
  intros Hl Hne Hp Hw. unfold strings.Fields.
  rewrite Fields_loop_word by assumption.
  now rewrite Fields_loop_words by assumption.
Qed.

(** ** /proc/stat *)

Lemma cpu_prefix (k : nat) (text : string) :
  HasPrefix ("cpu" ++ spaces (S k) ++ text) "cpu " = true.
Proof.
  change (String.prefix "" (spaces k ++ text) = true).
  now destruct (spaces k ++ text)%string.
Qed.

(** X20.  What the Linux sampler reads from /proc/stat.  Only the first
    line is read.  A line that does not start with "cpu " is refused, and
    so is an aggregate line of fewer than eight fields, although only the
    six counters after the label are used.  The counters returned are
    64-bit numbers whatever the line holds.  A line made of the label cpu,
    spaces, the six counters in decimal and at least one more word, single
    spaces between them, gives back exactly these six counters. *)
Theorem linux_proc_stat (fuser fnice fsystem fidle fiowait firq : Z)
        (k : nat) (extra : list string) (line : string)
        (rest : list string) :
  let counters := map itoa [fuser; fnice; fsystem; fidle; fiowait; firq] in
  let cpu words := ("cpu" ++ spaces (S k) ++ String.concat " " words)%string in
  Linux.readProcStat (Linux.Lines (line :: rest))
  = Linux.readProcStat (Linux.Lines [line])
  /\ (HasPrefix line "cpu " = false ->
      Linux.readProcStat (Linux.Lines [line])
      = Linux.ReadError "unexpected /proc/stat format")
  /\ match Linux.readProcStat (Linux.Lines [line]) with
     | Linux.ReadError _ => True
     | Linux.Fields u n s i w q =>
         0 <= u < 2 ^ 64 /\ 0 <= n < 2 ^ 64 /\ 0 <= s < 2 ^ 64
         /\ 0 <= i < 2 ^ 64 /\ 0 <= w < 2 ^ 64 /\ 0 <= q < 2 ^ 64
     end
  /\ (0 <= fuser < 2 ^ 64 -> 0 <= fnice < 2 ^ 64 -> 0 <= fsystem < 2 ^ 64 ->
      0 <= fidle < 2 ^ 64 -> 0 <= fiowait < 2 ^ 64 -> 0 <= firq < 2 ^ 64 ->
      forallb plain extra = true -> ~ In "" extra ->
      Linux.readProcStat (Linux.Lines [cpu counters])
      = Linux.ReadError "insufficient fields in /proc/stat"
      /\ (extra <> [] ->
          Linux.readProcStat (Linux.Lines [cpu (counters ++ extra)%list])
          = Linux.Fields fuser fnice fsystem fidle fiowait firq)).
Proof.
  cbv zeta. split; [reflexivity|]. split.
  { intros Hpre. unfold Linux.readProcStat. now rewrite Hpre. }
  split.
  { unfold Linux.readProcStat.
    destruct (negb (HasPrefix line "cpu ")); [exact I|]. cbv zeta.
    destruct (List.length (strings.Fields line) <? 8)%nat; [exact I|].
    repeat split; apply ParseUint_range. }
  intros Hu Hn Hs Hi Hw Hq Hplain Hne.
  assert (Hcounters :
            forallb plain (map itoa [fuser; fnice; fsystem; fidle; fiowait;
                                     firq]) = true
            /\ ~ In "" (map itoa [fuser; fnice; fsystem; fidle; fiowait;
                                  firq])).
  { split.
    - cbn [map forallb].
      rewrite !(proj1 (plain_itoa _)). reflexivity.
    - cbn [map In]. intros Hin.
      repeat (destruct Hin as [Hin|Hin];
              [now apply (proj2 (plain_itoa _)) in Hin|]).
      exact Hin. }
  destruct Hcounters as [Hcp Hcn].
  split.
  - unfold Linux.readProcStat.
    rewrite cpu_prefix.
    cbn [negb]. cbv zeta.
    rewrite Fields_labelled; [reflexivity| reflexivity | discriminate
                              | exact Hcp | exact Hcn].
  - intros Hextra. unfold Linux.readProcStat.
    rewrite cpu_prefix.
    cbn [negb]. cbv zeta.
    rewrite Fields_labelled;
      [| reflexivity | discriminate
       | rewrite forallb_app, Hcp, Hplain; reflexivity
       | intros Hin; apply in_app_or in Hin; tauto].
    destruct extra as [|e extra]; [contradiction|].
    cbn [map app List.length Nat.ltb Nat.leb nth].
    now rewrite !ParseUint_itoa by assumption.
Qed.

Lemma linux_proc_stat_witness :
  Linux.readProcStat
    (Linux.Lines ["cpu  4705 356 584 3699 23 23 0 0 0 0"])
  = Linux.Fields 4705 356 584 3699 23 23.
Proof.
  apply (linux_proc_stat 4705 356 584 3699 23 23 1 ["0"; "0"; "0"; "0"]
           "" []);
    try (split; [discriminate | reflexivity]);
    try reflexivity; try discriminate.
  cbn. intros [H|[H|[H|[H|H]]]]; try discriminate; exact H.
Defined.

(** ** vm_stat and netstat on macOS *)

Lemma substring_app_l (s t : string) :
  substring 0 (String.length s) (s ++ t) = s.
Proof. induction s as [|c s IH]; cbn; [now destruct t | now rewrite IH]. Qed.

Lemma substring_app_r (s t : string) :
  substring (String.length s) (String.length t) (s ++ t) = t.
Proof. induction s as [|c s IH]; cbn; [apply substring_all | exact IH]. Qed.

Lemma TrimSuffix_app (s suffix : string) :
  strings.TrimSuffix (s ++ suffix) suffix = s.
Proof.
  unfold strings.TrimSuffix, strings.HasSuffix. cbv zeta.
  rewrite length_app.
  replace (String.length s + String.length suffix - String.length suffix)%nat
    with (String.length s) by lia.
  rewrite substring_app_r, String.eqb_refl, substring_app_l.
  destruct (Nat.leb_spec (String.length suffix)
                         (String.length s + String.length suffix)) as [_|Hlt];
    [reflexivity | lia].
Qed.

Lemma Fields_loop_words_then (k : nat) (rest : string) (words : list string) :
  forall found,
    forallb plain words = true -> ~ In "" words -> words <> [] ->
    strings.Fields_loop (String.concat " " words ++ spaces (S k) ++ rest)
                        0 "" found
    = strings.Fields_loop rest 0 "" (rev words ++ found)%list.
Proof.
  induction words as [|w words IH]; intros found Hp Hne Hnil;
    [contradiction|].
  cbn [forallb] in Hp. apply andb_prop in Hp. destruct Hp as [Hw Hp].
  assert (Hw' : w <> "") by (intros ->; apply Hne; now left).
  assert (Hne' : ~ In "" words) by (intros Hin; apply Hne; now right).
  destruct words as [|w2 words].
  - cbn [String.concat rev app]. now rewrite Fields_loop_word.
  - change (String.concat " " (w :: w2 :: words))
      with (w ++ spaces 1 ++ String.concat " " (w2 :: words))%string.
    rewrite !append_assoc. rewrite Fields_loop_word by assumption.
    rewrite IH by (assumption || discriminate).
    change (rev (w :: w2 :: words)) with (rev (w2 :: words) ++ [w])%list.
    now rewrite <- app_assoc.
Qed.

Lemma Fields_value_line (k : nat) (words : list string) (value : string) :
  forallb plain words = true -> ~ In "" words -> words <> [] ->
  plain value = true -> value <> "" ->
  strings.Fields (String.concat " " words ++ spaces (S k) ++ value)
  = (words ++ [value])%list.
Proof.
  intros Hp Hne Hnil Hv Hv'. unfold strings.Fields.
  rewrite Fields_loop_words_then by assumption.
  rewrite Fields_loop_last by assumption.
  cbn [rev]. now rewrite app_nil_r, rev_involutive.
Qed.

Lemma HasSuffix_cons (c : ascii) (s suffix : string) :
  String.length suffix = 1%nat -> s <> "" ->
  strings.HasSuffix (String c s) suffix = strings.HasSuffix s suffix.
Proof.
  intros Hlen Hs. unfold strings.HasSuffix. cbv zeta. rewrite Hlen.
  destruct s as [|d s]; [contradiction|].
  cbn [String.length Nat.leb Nat.sub andb].
  rewrite !Nat.sub_0_r. reflexivity.
Qed.

Lemma HasSuffix_decimal (d : Decimal.uint) :
  strings.HasSuffix (DecimalString.NilEmpty.string_of_uint d) "." = false.
Proof.
  induction d as [|d IH|d IH|d IH|d IH|d IH|d IH|d IH|d IH|d IH|d IH];
    [reflexivity|..];
    cbn [DecimalString.NilEmpty.string_of_uint];
    (destruct (DecimalString.NilEmpty.string_of_uint d) as [|c s] eqn:E;
     [reflexivity | rewrite HasSuffix_cons by (reflexivity || discriminate);
                    exact IH]).
Qed.

Lemma TrimSuffix_itoa (n : Z) : strings.TrimSuffix (itoa n) "." = itoa n.
Proof.
  unfold strings.TrimSuffix.
  assert (H : strings.HasSuffix (itoa n) "." = false).
  { unfold itoa, DecimalString.NilZero.string_of_uint.
    destruct (N.to_uint (Z.to_N n)) as [|d|d|d|d|d|d|d|d|d|d];
      [reflexivity|..]; apply HasSuffix_decimal. }
  now rewrite H.
Qed.

Ltac digit_step_app IH Hacc Hlt :=
  cbn [DecimalString.NilEmpty.string_of_uint strconv.ParseUint_loop
       decimalValue append] in *;
  match goal with
  | |- context [decimalValue ?d ?a] =>
      pose proof (decimalValue_le d a ltac:(lia)) as Hle
  end;
  match goal with
  | |- context [byte_of ?c] =>
      let b := eval vm_compute in (byte_of c) in
      change (byte_of c) with b
  end;
  cbn [Z.leb Z.compare Pos.compare Pos.compare_cont andb];
  cbv zeta;
  change (strconv.maxUint64 / 10 + 1) with 1844674407370955162;
  change strconv.maxUint64 with 18446744073709551615;
  match goal with
  | |- context [?c <=? ?a] =>
      destruct (Z.leb_spec c a) as [Hbig|Hsmall]; [exfalso; lia|]
  end;
  rewrite Z.mod_small by lia;
  match goal with
  | |- context [(?x <? ?y) || (?u <? ?v)] =>
      destruct (Z.ltb_spec x y) as [H1|H1]; [exfalso; lia|];
      destruct (Z.ltb_spec u v) as [H2|H2]; [exfalso; lia|]
  end;
  cbn [orb];
  match type of Hlt with
  | decimalValue _ ?y < _ =>
      match goal with
      | |- context [strconv.ParseUint_loop _ ?x] => replace x with y by lia
      end
  end;
  apply IH; [lia | exact Hlt].

(** Reading a numeral that something follows. *)
Lemma ParseUint_loop_decimal_app (rest : string) (d : Decimal.uint) :
  forall acc, 0 <= acc -> decimalValue d acc < 2 ^ 64 ->
    strconv.ParseUint_loop (DecimalString.NilEmpty.string_of_uint d ++ rest)
                           acc
    = strconv.ParseUint_loop rest (decimalValue d acc).
Proof.
  induction d as [|d IH|d IH|d IH|d IH|d IH|d IH|d IH|d IH|d IH|d IH];
    intros acc Hacc Hlt; [reflexivity|..]; digit_step_app IH Hacc Hlt.
Qed.

Lemma ParseUint_itoa_stop (n : Z) :
  0 <= n < 2 ^ 64 ->
  strconv.ParseUint (itoa n ++ ".") = (0, Some "invalid syntax").
Proof.
  intros Hn. unfold itoa.
  pose proof (decimalValue_to_uint n (proj1 Hn)) as Hval.
  destruct (N.to_uint (Z.to_N n)) as [|d|d|d|d|d|d|d|d|d|d] eqn:E;
    [reflexivity|..];
    unfold DecimalString.NilZero.string_of_uint, strconv.ParseUint;
    cbn [DecimalString.NilEmpty.string_of_uint String.eqb append];
    match goal with
    | |- strconv.ParseUint_loop ?s 0 = _ =>
        match type of Hval with
        | decimalValue ?u 0 = _ =>
            change s with (DecimalString.NilEmpty.string_of_uint u ++ ".")
        end
    end;
    (rewrite ParseUint_loop_decimal_app; [reflexivity | lia | lia]).
Qed.

(** X21.  A value of vm_stat on macOS.  [parseVMStatValue] returns a
    64-bit number whatever the line is, and 0 for a line of fewer than two
    fields.  For a line made of a label of one or more words, spaces, and
    a number below 2^64 in decimal, it returns that number, with or
    without the full stop vm_stat prints after it; only one full stop is
    taken off, so a number followed by two reads as 0. *)
Theorem darwin_vm_stat_value (line : string) (words : list string)
        (k : nat) (n : Z) :
  0 <= Darwin.parseVMStatValue line < 2 ^ 64
  /\ ((List.length (strings.Fields line) < 2)%nat ->
      Darwin.parseVMStatValue line = 0)
  /\ (forallb plain words = true -> ~ In "" words -> words <> [] ->
      0 <= n < 2 ^ 64 ->
      let label := (String.concat " " words ++ spaces (S k))%string in
      Darwin.parseVMStatValue (label ++ itoa n ++ ".") = n
      /\ Darwin.parseVMStatValue (label ++ itoa n) = n
      /\ Darwin.parseVMStatValue (label ++ itoa n ++ "..") = 0).
Proof.
  split; [|split].
  - unfold Darwin.parseVMStatValue. cbv zeta.
    destruct (2 <=? List.length (strings.Fields line))%nat; [|lia].
    pose proof (ParseUint_range
                  (strings.TrimSuffix
                     (nth (List.length (strings.Fields line) - 1)
                          (strings.Fields line) "") ".")) as Hr.
    destruct (strconv.ParseUint _) as [val [e|]]; cbn [fst] in Hr;
      [lia | exact Hr].
  - intros Hlen. unfold Darwin.parseVMStatValue. cbv zeta.
    destruct (Nat.leb_spec 2 (List.length (strings.Fields line)));
      [lia | reflexivity].
  - intros Hp Hne Hnil Hn. cbv zeta.
    destruct (plain_itoa n) as [Hpi Hni].
    assert (Hlen : forall value,
               (2 <=? List.length (words ++ [value]))%nat = true).
    { intros value. apply Nat.leb_le. rewrite List.length_app. cbn.
      destruct words; [contradiction | cbn; lia]. }
    assert (Hlast : forall value,
               nth (List.length (words ++ [value]) - 1) (words ++ [value])%list
                   "" = value).
    { intros value. rewrite List.length_app. cbn [List.length].
      replace (List.length words + 1 - 1)%nat with (List.length words) by lia.
      now rewrite nth_middle. }
    assert (Hfields : forall tail,
               plain tail = true ->
               strings.Fields ((String.concat " " words ++ spaces (S k))
                               ++ itoa n ++ tail)
               = (words ++ [(itoa n ++ tail)%string])%list).
    { intros tail Ht. rewrite append_assoc.
      apply Fields_value_line; try assumption.
      - now rewrite plain_app, Hpi, Ht.
      - destruct (itoa n); [contradiction | discriminate]. }
    unfold Darwin.parseVMStatValue. cbv zeta. repeat split.
    + rewrite (Hfields "." eq_refl), Hlen, Hlast, TrimSuffix_app.
      now rewrite ParseUint_itoa.
    + pose proof (Hfields "" eq_refl) as Hplainly.
      rewrite append_nil_r in Hplainly.
      rewrite Hplainly, Hlen, Hlast, TrimSuffix_itoa.
      now rewrite ParseUint_itoa.
    + rewrite (Hfields ".." eq_refl), Hlen, Hlast.
      change (itoa n ++ "..")%string with (itoa n ++ "." ++ ".")%string.
      rewrite <- append_assoc, TrimSuffix_app.
      now rewrite ParseUint_itoa_stop.
Qed.

Lemma darwin_vm_stat_value_witness :
  Darwin.parseVMStatValue "Pages wired down:                      123456."
  = 123456.
Proof.
  apply (darwin_vm_stat_value "" ["Pages"; "wired"; "down:"] 21 123456);
    try reflexivity; try discriminate.
  - cbn. intros [H|[H|[H|H]]]; try discriminate; exact H.
  - split; [discriminate | reflexivity].
Defined.

Lemma fold_counts_perm (f : Z * Z -> string -> Z * Z)
      (counts : string -> option Z * option Z) :
  (forall totals line,
      f totals line = (addCount (fst totals) (fst (counts line)),
                       addCount (snd totals) (snd (counts line)))) ->
  forall ls ls', Permutation ls ls' ->
  forall totals, fold_left f ls totals = fold_left f ls' totals.
Proof.
  intros Hf ls ls'.
  induction 1 as [|x l l' _ IH|x y l|l l' l'' _ IH1 _ IH2]; intros totals;
    cbn [fold_left].
  - reflexivity.
  - apply IH.
  - f_equal. rewrite !Hf. cbn [fst snd]. f_equal; apply addCount_comm.
  - now rewrite IH1.
Qed.

Lemma fold_counts_range (f : Z * Z -> string -> Z * Z)
      (counts : string -> option Z * option Z) :
  (forall totals line,
      f totals line = (addCount (fst totals) (fst (counts line)),
                       addCount (snd totals) (snd (counts line)))) ->
  forall ls totals,
    0 <= fst totals < 2 ^ 64 -> 0 <= snd totals < 2 ^ 64 ->
    0 <= fst (fold_left f ls totals) < 2 ^ 64
    /\ 0 <= snd (fold_left f ls totals) < 2 ^ 64.
Proof.
  intros Hf. induction ls as [|l ls IH]; intros totals Hs Hr;
    cbn [fold_left]; [split; assumption|].
  apply IH; rewrite Hf; cbn [fst snd]; now apply addCount_range.
Qed.

Lemma netstatLine_counts (totals : Z * Z) (line : string) :
  Darwin.netstatLine totals line =
  (addCount (fst totals) (fst (netstatCounts line)),
   addCount (snd totals) (snd (netstatCounts line))).
Proof.
  destruct totals as [sent recv]. unfold Darwin.netstatLine, netstatCounts.
  cbv zeta.
  destruct (Nat.leb_spec 10 (List.length (strings.Fields line))) as [Hge|Hlt];
    destruct (Nat.ltb_spec (List.length (strings.Fields line)) 10)
    as [Hlt'|Hge']; try lia; [|reflexivity].
  assert (Hpos : (0 <? List.length (strings.Fields line))%nat = true)
    by (apply Nat.ltb_lt; lia).
  rewrite Hpos. cbn [andb].
  destruct (HasPrefix (nth 0 (strings.Fields line) "") "lo"); [reflexivity|].
  destruct (strconv.ParseUint (nth 6 (strings.Fields line) "")) as [r [e1|]];
    destruct (strconv.ParseUint (nth 9 (strings.Fields line) "")) as [s [e2|]];
    reflexivity.
Qed.

Lemma Split_loop_line (sep : ascii) (line rest : string) :
  forall piece,
    containsByte sep line = false ->
    strings.Split_loop sep (line ++ String sep rest) piece
    = (piece ++ line)%string :: strings.Split_loop sep rest "".
Proof.
  induction line as [|c line IH]; intros piece Hno.
  - cbn [append strings.Split_loop]. rewrite Ascii.eqb_refl.
    now rewrite append_nil_r.
  - rewrite containsByte_cons in Hno. apply orb_false_iff in Hno.
    destruct Hno as [Hc Hline].
    cbn [append strings.Split_loop]. rewrite Hc, IH by exact Hline.
    now rewrite append_assoc.
Qed.

Lemma Split_loop_end (sep : ascii) (line : string) :
  forall piece,
    containsByte sep line = false ->
    strings.Split_loop sep line piece = [(piece ++ line)%string].
Proof.
  induction line as [|c line IH]; intros piece Hno.
  - cbn [strings.Split_loop]. now rewrite append_nil_r.
  - rewrite containsByte_cons in Hno. apply orb_false_iff in Hno.
    destruct Hno as [Hc Hline].
    cbn [strings.Split_loop]. rewrite Hc, IH by exact Hline.
    now rewrite append_assoc.
Qed.

(** X22.  The network totals on macOS.  When netstat fails its error is
    returned with zeros; otherwise there is no error and both totals are
    64-bit numbers.  The first line of the output never counts, so an
    output of one line gives zeros.  A line after it adds its field 6 to
    the bytes received and its field 9 to the bytes sent, modulo 2^64,
    where they parse, unless it has fewer than ten fields or its first
    field starts with lo; the name of the interface need not be lo
    itself. *)
Theorem darwin_network_stats (header line rest : string) :
  let total out := Darwin.getNetworkStats (Darwin.OutputText out) in
  (forall err,
      Darwin.getNetworkStats (Darwin.OutputError err) = (0, 0, Some err))
  /\ (forall out,
         snd (total out) = None
         /\ 0 <= fst (fst (total out)) < 2 ^ 64
         /\ 0 <= snd (fst (total out)) < 2 ^ 64)
  /\ ((List.length (strings.Fields line) < 10)%nat
      \/ HasPrefix (nth 0 (strings.Fields line) "") "lo" = true ->
      netstatCounts line = (None, None))
  /\ (containsByte "010" header = false ->
      total header = (0, 0, None)
      /\ (containsByte "010" line = false ->
          let base := total (header ++ nl ++ rest)%string in
          total (header ++ nl ++ line ++ nl ++ rest)%string
          = (addCount (fst (fst base)) (fst (netstatCounts line)),
             addCount (snd (fst base)) (snd (netstatCounts line)), None))).
Proof.
  cbv zeta. split; [reflexivity|]. split; [|split].
  - intros out. unfold Darwin.getNetworkStats. cbv zeta.
    destruct (fold_counts_range Darwin.netstatLine netstatCounts
                netstatLine_counts
                (skipn 1 (strings.Split out "010")) (0, 0)) as [Hs Hr];
      try (cbn; lia).
    destruct (fold_left Darwin.netstatLine _ (0, 0)) as [sent recv].
    cbn [fst snd] in *. repeat split; lia.
  - intros [Hlen | Hlo]; unfold netstatCounts; cbv zeta.
    + apply Nat.ltb_lt in Hlen. now rewrite Hlen.
    + rewrite Hlo. now destruct (List.length (strings.Fields line) <? 10)%nat.
  - intros Hheader. split.
    + unfold Darwin.getNetworkStats, strings.Split.
      now rewrite Split_loop_end by exact Hheader.
    + intros Hline. unfold Darwin.getNetworkStats, strings.Split, nl.
      cbn [append].
      rewrite !(Split_loop_line _ header) by exact Hheader.
      rewrite Split_loop_line by exact Hline.
      cbn [skipn append].
      set (lines := strings.Split_loop "010" rest "").
      assert (Hperm : Permutation (line :: lines) (lines ++ [line]))
        by apply Permutation_cons_append.
      rewrite (fold_counts_perm Darwin.netstatLine netstatCounts
                 netstatLine_counts _ _ Hperm).
      rewrite fold_left_app. cbn [fold_left].
      rewrite netstatLine_counts.
      destruct (fold_left Darwin.netstatLine lines (0, 0)) as [sent recv].
      reflexivity.
Qed.

Lemma darwin_network_stats_witness :
  Darwin.getNetworkStats
    (Darwin.OutputText
       ("Name" ++ nl
        ++ "en0 1500 <Link#4> aa:bb 100 0 5000 200 0 7000 0" ++ nl ++ ""))
  = (7000, 5000, None).
Proof.
  destruct (darwin_network_stats
              "Name" "en0 1500 <Link#4> aa:bb 100 0 5000 200 0 7000 0" "")
    as (_ & _ & _ & Htext).
  destruct Htext as [_ Hline]; [reflexivity|].
  rewrite Hline by reflexivity. reflexivity.
Defined.

(** ** The metrics endpoint on Linux and on Windows *)

Lemma served_metrics_ok {F : Type} (OS : Type)
      (Hostname : OS -> string * error)
      (GetSystemMetrics : M OS (SystemMetrics F * error))
      (ShutdownSystem : bool -> M OS error) (fmt2f : F -> string)
      (s : Server) (r : http.Request) (o o1 : OS) (metrics : SystemMetrics F) :
  admits s (http.RemoteAddr r) = true ->
  http.Path r = "/metrics" ->
  http.Method r = "GET" ->
  GetSystemMetrics (mkWorld o [Called "GetSystemMetrics"])
  = ((metrics, None), mkWorld o1 [Called "GetSystemMetrics"]) ->
  serve OS Hostname GetSystemMetrics ShutdownSystem fmt2f s r o
  = mkWorld o1
      ([Called "GetSystemMetrics";
        HeaderSet "Content-Type" "text/plain; version=0.0.4"]
         ++ map Write (exposition fmt2f metrics))%list.
Proof.
  intros Hadm Hpath Hmethod Hcall.
  pose proof (requireTailscale_admits OS s r Hadm) as Hpass.
  unfold serve, exec.
  rewrite (route_metrics OS Hostname GetSystemMetrics ShutdownSystem fmt2f
                         s r _ Hpath), Hpass.
  unfold handleMetrics. rewrite Hmethod.
  change (negb (String.eqb "GET" http.MethodGet)) with false.
  cbv iota. unfold bind at 1 2. unfold emit at 1.
  cbn [os trace app]. rewrite Hcall.
  unfold bind, emit. cbn [os trace].
  change (FprintfAll OS ?l) with (FprintfAll OS (exposition fmt2f metrics)).
  rewrite FprintfAll_trace. reflexivity.
Qed.

Lemma linux_collector_nil {F : Type} `{Float64 F}
      (ParseFloat : string -> F * error) (uint64_of_float : F -> Z)
      (p : Linux.Proc) (last : Linux.cpuStats) :
  snd (fst (Linux.getSystemMetrics ParseFloat uint64_of_float p last)) = None.
Proof.
  unfold Linux.getSystemMetrics.
  destruct (Linux.getCPUUsage _ _ _) as [[cpu e1] st].
  destruct (Linux.getMemoryUsage _) as [[memUsed memTotal] e2].
  destruct (Linux.getDiskUsage _) as [[diskUsed diskTotal] e3].
  destruct (Linux.getNetworkStats _) as [[sent recv] e4].
  destruct (Linux.getUptime _ _ _) as [uptime e5].
  reflexivity.
Qed.

Lemma windows_collector_nil {F : Type} `{Float64 F}
      (k : Windows.Kernel32) (now : Time) (last : Windows.cpuTimes) :
  snd (fst (Windows.getSystemMetrics k now last)) = None.
Proof.
  unfold Windows.getSystemMetrics.
  destruct (Windows.getCPUUsage _ _ _) as [[cpu e1] st].
  destruct (Windows.getMemoryUsage _) as [[memUsed memTotal] e2].
  destruct (Windows.getDiskUsage _) as [[diskUsed diskTotal] e3].
  destruct (Windows.getUptime _) as [uptime e4].
  reflexivity.
Qed.

(** X23.  The metrics endpoint on Linux and on Windows, where
    [GetSystemMetrics] is the platform's collector.  An admitted GET
    /metrics is always answered 200 with the exposition text of what the
    collector returned, never 500: the collector returns no error, so the
    branch of [handleMetrics] that reports one is not taken, even when
    every measurement failed and the text is all zeros.  The request
    leaves the collector's CPU sample as the state, and nothing else of
    the system changes. *)
Theorem metrics_endpoint_never_fails {F : Type} (ops : Float64 F)
        (ParseFloat : string -> F * error) (uint64_of_float : F -> Z)
        (fmt2f : F -> string) (s : Server) (r : http.Request)
        (HostnameL : LinuxHost.System -> string * error)
        (ShutdownL : bool -> M LinuxHost.System error)
        (l : LinuxHost.System)
        (HostnameW : WindowsHost.System -> string * error)
        (ShutdownW : bool -> M WindowsHost.System error)
        (w : WindowsHost.System) :
  admits s (http.RemoteAddr r) = true ->
  http.Path r = "/metrics" ->
  http.Method r = "GET" ->
  let onLinux :=
    serve LinuxHost.System HostnameL
          (LinuxHost.GetSystemMetrics ParseFloat uint64_of_float)
          ShutdownL fmt2f s r l in
  let resL :=
    Linux.getSystemMetrics ParseFloat uint64_of_float (LinuxHost.proc l)
                           (LinuxHost.lastCPUStats l) in
  let onWindows :=
    serve WindowsHost.System HostnameW WindowsHost.GetSystemMetrics
          ShutdownW fmt2f s r w in
  let resW :=
    Windows.getSystemMetrics (WindowsHost.kernel32 w) (WindowsHost.now w)
                             (WindowsHost.lastCPUTimes w) in
  (http.statusOf (trace onLinux) = http.StatusOK
   /\ http.bodyOf (trace onLinux)
      = String.concat "" (exposition fmt2f (fst (fst resL)))
   /\ collectorCalls (trace onLinux) = 1%nat
   /\ os onLinux = LinuxHost.mkSystem (LinuxHost.proc l) (snd resL))
  /\ (http.statusOf (trace onWindows) = http.StatusOK
      /\ http.bodyOf (trace onWindows)
         = String.concat "" (exposition fmt2f (fst (fst resW)))
      /\ collectorCalls (trace onWindows) = 1%nat
      /\ os onWindows
         = WindowsHost.mkSystem (WindowsHost.kernel32 w) (WindowsHost.now w)
                                (snd resW)).
Proof.
  intros Hadm Hpath Hmethod. cbv zeta. split.
  - pose proof (linux_collector_nil ParseFloat uint64_of_float
                  (LinuxHost.proc l) (LinuxHost.lastCPUStats l)) as Hnil.
    destruct (Linux.getSystemMetrics ParseFloat uint64_of_float
                (LinuxHost.proc l) (LinuxHost.lastCPUStats l))
      as [[m err] last] eqn:Hres.
    cbn [fst snd] in *. subst err.
    rewrite (served_metrics_ok _ _ _ _ _ s r l
               (LinuxHost.mkSystem (LinuxHost.proc l) last) m
               Hadm Hpath Hmethod)
      by (unfold LinuxHost.GetSystemMetrics; cbn [os trace];
          now rewrite Hres).
    cbn [trace os]. split; [reflexivity|]. split; [|split; reflexivity].
    cbn [app http.bodyOf]. apply bodyOf_Writes.
  - pose proof (windows_collector_nil (WindowsHost.kernel32 w)
                  (WindowsHost.now w) (WindowsHost.lastCPUTimes w)) as Hnil.
    destruct (Windows.getSystemMetrics (WindowsHost.kernel32 w)
                (WindowsHost.now w) (WindowsHost.lastCPUTimes w))
      as [[m err] last] eqn:Hres.
    cbn [fst snd] in *. subst err.
    rewrite (served_metrics_ok _ _ _ _ _ s r w
               (WindowsHost.mkSystem (WindowsHost.kernel32 w)
                                     (WindowsHost.now w) last) m
               Hadm Hpath Hmethod)
      by (unfold WindowsHost.GetSystemMetrics; cbn [os trace];
          now rewrite Hres).
    cbn [trace os]. split; [reflexivity|]. split; [|split; reflexivity].
    cbn [app http.bodyOf]. apply bodyOf_Writes.
Qed.

Lemma metrics_endpoint_never_fails_witness :
  http.statusOf (trace unreadableServe) = http.StatusOK.
Proof.
  destruct (metrics_endpoint_never_fails ieee64
              (fun _ => (@of_uint64 spec_float ieee64 0, Some "invalid syntax"))
              (fun _ => 0) (fun _ => "0.00") (New ":6942")
              (http.mkRequest "GET" "/metrics" [] "127.0.0.1:5000")
              (fun _ => ("node", None)) (fun _ => ret None) unreadableLinux
              (fun _ => ("node", None)) (fun _ => ret None)
              (WindowsHost.mkSystem kernel32Sample (instant 1)
                                    Windows.zeroTimes)
              eq_refl eq_refl eq_refl) as [[Hstatus _] _].
  exact Hstatus.
Defined.

(** ** Times on Windows *)

(** X24.  Times on Windows.  [fileTimeToUint64] puts the high half of a
    FILETIME above the low half: for two 32-bit halves the result is
    high * 2^32 + low, a 64-bit number, and the halves can be read back
    from it, so different FILETIMEs give different counts.  [getUptime]
    fails exactly when GetTickCount64 returns 0; otherwise it returns the
    whole seconds of the tick count, rounded down, so that an uptime under
    one second is reported as 0 without an error. *)
Theorem windows_filetime_uptime (ft : Windows.Filetime) (k : Windows.Kernel32) :
  let lo := Windows.LowDateTime ft in
  let hi := Windows.HighDateTime ft in
  let n := Windows.fileTimeToUint64 ft in
  let ticks := Windows.GetTickCount64 k in
  (0 <= lo < 2 ^ 32 -> 0 <= hi < 2 ^ 32 ->
   n = hi * 2 ^ 32 + lo
   /\ 0 <= n < 2 ^ 64
   /\ filetime n = ft)
  /\ (ticks = 0 <-> snd (Windows.getUptime k) <> None)
  /\ (0 < ticks ->
      Windows.getUptime k = (ticks / 1000, None)
      /\ 1000 * fst (Windows.getUptime k) <= ticks
         < 1000 * (fst (Windows.getUptime k) + 1)
      /\ (ticks < 1000 -> Windows.getUptime k = (0, None))).
Proof.
  cbv zeta. split; [|split].
  - intros Hlo Hhi. destruct ft as [lo hi]. cbn [Windows.LowDateTime
      Windows.HighDateTime] in *.
    assert (Hn : Windows.fileTimeToUint64 (Windows.mkFiletime lo hi)
                 = hi * 2 ^ 32 + lo).
    { unfold Windows.fileTimeToUint64.
      cbn [Windows.LowDateTime Windows.HighDateTime].
      apply lor_shiftl_add; lia. }
    rewrite Hn. split; [reflexivity|]. split; [lia|].
    unfold filetime. f_equal.
    + change 0xffffffff with (Z.ones 32). rewrite Z.land_ones by lia.
      change (2 ^ 32) with 4294967296 in *.
      Z.div_mod_to_equations; lia.
    + rewrite Z.shiftr_div_pow2 by lia.
      change (2 ^ 32) with 4294967296 in *.
      Z.div_mod_to_equations; lia.
  - unfold Windows.getUptime. cbv zeta.
    destruct (Z.eqb_spec (Windows.GetTickCount64 k) 0) as [E|E]; cbn [snd].
    + split; [discriminate | intros _; exact E].
    + split; [contradiction | intros H; now contradiction H].
  - intros Hpos. unfold Windows.getUptime. cbv zeta.
    destruct (Z.eqb_spec (Windows.GetTickCount64 k) 0) as [E|E]; [lia|].
    cbn [fst]. split; [reflexivity|]. split.
    + Z.div_mod_to_equations; lia.
    + intros Hlt. f_equal. apply Z.div_small. lia.
Qed.

Lemma windows_filetime_uptime_witness :
  Windows.getUptime (Windows.mkKernel32
                       (0, None, (filetime 0, filetime 0, filetime 0))
                       (0, None, Windows.mkMemoryStatusEx 0 0 0 0 0 0 0 0 0)
                       (0, None, (0, 0, 0))
                       86400123)
  = (86400, None).
Proof.
  destruct (windows_filetime_uptime (filetime 0)
              (Windows.mkKernel32
                 (0, None, (filetime 0, filetime 0, filetime 0))
                 (0, None, Windows.mkMemoryStatusEx 0 0 0 0 0 0 0 0 0)
                 (0, None, (0, 0, 0))
                 86400123)) as (_ & _ & Hup).
  destruct Hup as [Hval _]; [reflexivity | exact Hval].
Defined.

(** ** The boot time on macOS *)

Lemma digits_decimal (d : Decimal.uint) :
  digits (DecimalString.NilEmpty.string_of_uint d) = true.
Proof.
  induction d as [|d IH|d IH|d IH|d IH|d IH|d IH|d IH|d IH|d IH|d IH];
    cbn [DecimalString.NilEmpty.string_of_uint digits];
    [reflexivity|..]; rewrite IH; reflexivity.
Qed.

Lemma digits_itoa (n : Z) : digits (itoa n) = true.
Proof.
  unfold itoa, DecimalString.NilZero.string_of_uint.
  destruct (N.to_uint (Z.to_N n)) as [|d|d|d|d|d|d|d|d|d|d];
    try reflexivity; apply digits_decimal.
Qed.

Lemma digit_not (c a : ascii) :
  (48 <=? byte_of c) && (byte_of c <=? 57) = true ->
  (byte_of a <? 48) || (57 <? byte_of a) = true ->
  Ascii.eqb c a = false.
Proof.
  intros Hc Ha. destruct (Ascii.eqb_spec c a) as [->|]; [|reflexivity].
  apply andb_prop in Hc. destruct Hc as [H1 H2].
  apply Z.leb_le in H1. apply Z.leb_le in H2.
  apply orb_prop in Ha. destruct Ha as [Ha|Ha]; apply Z.ltb_lt in Ha; lia.
Qed.

Lemma digits_without (a : ascii) (s : string) :
  (byte_of a <? 48) || (57 <? byte_of a) = true ->
  digits s = true -> containsByte a s = false.
Proof.
  intros Ha. induction s as [|c s IH]; intros Hs; [reflexivity|].
  cbn [digits] in Hs. apply andb_prop in Hs. destruct Hs as [Hc Hs].
  rewrite containsByte_cons, (digit_not c a Hc Ha), (IH Hs). reflexivity.
Qed.

Lemma Index_loop_byte (a : ascii) (s rest : string) :
  forall i,
    containsByte a s = false ->
    strings.Index_loop (s ++ String a rest) (String a "") i
    = i + Z.of_nat (String.length s).
Proof.
  induction s as [|c s IH]; intros i Hno.
  - cbn [append strings.Index_loop String.length].
    rewrite prefix_single, Ascii.eqb_refl. cbn. lia.
  - rewrite containsByte_cons in Hno. apply orb_false_iff in Hno.
    destruct Hno as [Hc Hs].
    cbn [append strings.Index_loop].
    rewrite prefix_single.
    rewrite (proj2 (Ascii.eqb_neq a c))
      by (intros ->; now rewrite Ascii.eqb_refl in Hc).
    rewrite IH by exact Hs. cbn [String.length]. lia.
Qed.

Lemma substring_middle (p a r : string) :
  substring (String.length p) (String.length a) (p ++ a ++ r) = a.
Proof.
  induction p as [|c p IH]; cbn [String.length append substring];
    [apply substring_app_l | exact IH].
Qed.

Lemma Contains_prefix (s substr : string) :
  String.prefix substr s = true -> Contains s substr = true.
Proof. intros Hp. destruct s; cbn [Contains]; now rewrite Hp. Qed.

Lemma Index_loop_prefix (s substr : string) (i : Z) :
  String.prefix substr s = true -> strings.Index_loop s substr i = i.
Proof. intros Hp. destruct s; cbn [strings.Index_loop]; now rewrite Hp. Qed.

Lemma boottime_found (text : string) :
  Contains ("{ sec = " ++ text) "sec = " = true
  /\ strings.Index ("{ sec = " ++ text) "sec = " = 2.
Proof.
  change ("{ sec = " ++ text)%string
    with (String "{" (String " " ("sec = " ++ text))).
  unfold strings.Index. cbn [Contains strings.Index_loop].
  rewrite (Contains_prefix _ _ (prefix_app "sec = " text)).
  rewrite (Index_loop_prefix _ _ _ (prefix_app "sec = " text)).
  change (String.prefix "sec = " (String "{" ?x)) with false.
  change (String.prefix "sec = " (String " " ?x)) with false.
  split; reflexivity.
Qed.

Lemma ParseInt_itoa (n : Z) :
  0 <= n < 2 ^ 63 -> strconv.ParseInt (itoa n) = (n, None).
Proof.
  intros Hn. pose proof (digits_itoa n) as Hd.
  pose proof (ParseUint_itoa n ltac:(lia)) as Hp.
  destruct (itoa n) as [|c rest]; [discriminate Hp|].
  cbn [digits] in Hd. apply andb_prop in Hd. destruct Hd as [Hc _].
  unfold strconv.ParseInt. cbv zeta.
  rewrite (digit_not c "-" Hc eq_refl), (digit_not c "+" Hc eq_refl).
  cbn [orb]. rewrite Hp. cbn [negb andb].
  destruct (Z.leb_spec (2 ^ 63) n); [lia | reflexivity].
Qed.

(** X25.  The uptime on macOS.  A failed sysctl returns its error with 0,
    and an output without "sec = " is refused.  From an output of the
    form { sec = <boot>, usec = ... with a boot time below 2^63 in
    decimal, the uptime is the current Unix time less the boot time,
    converted to a 64-bit unsigned number: the seconds since boot when
    the boot time is not after the current time, and a number near 2^64,
    without an error, when the clock reads earlier than the boot time. *)
Theorem darwin_uptime (line rest : string) (boot unix : Z) :
  let text := ("{ sec = " ++ itoa boot ++ ", usec = " ++ rest)%string in
  (forall err, Darwin.getUptime (Darwin.OutputError err) unix = (0, Some err))
  /\ (Contains line "sec = " = false ->
      Darwin.getUptime (Darwin.OutputText line) unix
      = (0, Some "could not parse uptime"))
  /\ (0 <= boot < 2 ^ 63 ->
      Darwin.getUptime (Darwin.OutputText text) unix
      = (u64 (unix - boot), None)
      /\ (boot <= unix < 2 ^ 63 ->
          Darwin.getUptime (Darwin.OutputText text) unix
          = (unix - boot, None))
      /\ (0 <= unix < boot ->
          Darwin.getUptime (Darwin.OutputText text) unix
          = (2 ^ 64 - (boot - unix), None))).
Proof.
  cbv zeta. split; [reflexivity|]. split.
  { intros Hno. unfold Darwin.getUptime. now rewrite Hno. }
  intros Hboot.
  assert (Heq : Darwin.getUptime
                  (Darwin.OutputText
                     ("{ sec = " ++ itoa boot ++ ", usec = " ++ rest)) unix
                = (u64 (unix - boot), None)).
  { unfold Darwin.getUptime.
    destruct (boottime_found (itoa boot ++ ", usec = " ++ rest))
      as [Hfound Hindex].
    rewrite Hfound, Hindex. cbv zeta.
    change (Z.to_nat (2 + 6)) with (String.length "{ sec = ").
    rewrite length_app.
    replace (String.length "{ sec = "
             + String.length (itoa boot ++ ", usec = " ++ rest)
             - String.length "{ sec = ")%nat
      with (String.length (itoa boot ++ ", usec = " ++ rest)) by lia.
    rewrite substring_app_r.
    change (", usec = " ++ rest)%string with (String "," (" usec = " ++ rest)).
    unfold strings.Index.
    rewrite (Index_loop_byte "," (itoa boot))
      by (apply digits_without; [reflexivity | apply digits_itoa]).
    destruct (plain_itoa boot) as [_ Hne].
    assert (Hlen : (0 < String.length (itoa boot))%nat)
      by (destruct (itoa boot); [contradiction | cbn; lia]).
    destruct (Z.ltb_spec 0 (0 + Z.of_nat (String.length (itoa boot))));
      [|lia].
    rewrite Z.add_0_l, Nat2Z.id, substring_middle.
    now rewrite ParseInt_itoa. }
  rewrite Heq. split; [reflexivity|]. split.
  - intros Hle. now rewrite u64_small by lia.
  - intros Hlt. unfold u64. f_equal.
    rewrite <- (Z_mod_plus_full _ 1 (2 ^ 64)).
    rewrite Z.mod_small; lia.
Qed.

Lemma darwin_uptime_witness :
  Darwin.getUptime
    (Darwin.OutputText
       "{ sec = 1707948123, usec = 0 } Thu Feb 15 12:15:23 2026")
    1707950000
  = (1877, None).
Proof.
  destruct (darwin_uptime "" "0 } Thu Feb 15 12:15:23 2026" 1707948123
              1707950000) as (_ & _ & Hboot).
  destruct Hboot as (_ & Hpast & _);
    [split; [discriminate | reflexivity]|].
  apply Hpast. split; [discriminate | reflexivity].
Defined.

(** ** A shutdown that fails *)

(** X26.  A shutdown that fails is only logged.  The goroutine that
    [handleShutdown] starts does what the actuator does and then logs
    "Shutdown failed" exactly when the actuator returned an error.  The
    response to the client is written before that and is the same, 200
    with the confirmation, whether the actuator succeeds or fails, and the
    handler itself leaves the system as it was.  On Linux the goroutine
    sleeps, runs the primary command, runs the fallback when the primary
    failed, and logs the failure when both failed; on macOS it sleeps,
    runs the one command and logs the failure when that failed. *)
Theorem shutdown_failure_only_logged
        {F : Type} (OS : Type) (Hostname : OS -> string * error)
        (GetSystemMetrics : M OS (SystemMetrics F * error))
        (ShutdownSystem : bool -> M OS error) (fmt2f : F -> string)
        (s : Server) (r : http.Request) (o : OS) :
  admits s (http.RemoteAddr r) = true ->
  http.Method r = "POST" ->
  http.Path r = "/shutdown" ->
  let force := String.eqb (http.Get (http.Query r) "force") "true" in
  let kind := if force then "forced" else "graceful" in
  let wd := serve OS Hostname GetSystemMetrics ShutdownSystem fmt2f s r o in
  let res := ShutdownSystem force (mkWorld o []) in
  let failure (e : error) :=
    match e with Some _ => [Logf "Shutdown failed: %v"] | None => [] end in
  os wd = o
  /\ http.statusOf (trace wd) = http.StatusOK
  /\ http.bodyOf (trace wd) = ("Shutdown initiated (" ++ kind ++ ")..." ++ nl)%string
  /\ existsb isGo (trace wd) = true
  /\ goroutine ShutdownSystem force o
     = (trace (snd res) ++ failure (fst res))%list
  /\ (forall (f : bool) (cmds : Commands),
         let primary := if f then ["systemctl"; "poweroff"; "-i"; "--force"]
                        else ["shutdown"; "-h"; "+1"] in
         let fallback := if f then ["shutdown"; "-h"; "now"]
                         else ["systemctl"; "poweroff"] in
         let only := if f then ["sudo"; "shutdown"; "-h"; "now"]
                     else ["sudo"; "shutdown"; "-h"; "+1"] in
         goroutine Linux.shutdownSystem f cmds
         = (Sleep 100 :: Exec primary
              :: match cmds primary with
                 | None => []
                 | Some _ => Exec fallback :: failure (cmds fallback)
                 end)
         /\ goroutine Darwin.shutdownSystem f cmds
            = (Sleep 100 :: Exec only :: failure (cmds only))).
Proof.
  intros Hadm Hpost Hpath. cbv zeta.
  assert (Hwd : serve OS Hostname GetSystemMetrics ShutdownSystem fmt2f s r o
                = mkWorld o
                    [Logf "Shutdown requested via web API (%s)";
                     HeaderSet "Content-Type" "text/plain";
                     Write ("Shutdown initiated ("
                              ++ (if String.eqb (http.Get (http.Query r) "force")
                                                "true"
                                  then "forced" else "graceful")
                              ++ ")..." ++ nl);
                     Flush;
                     Go (goroutine ShutdownSystem
                           (String.eqb (http.Get (http.Query r) "force") "true")
                           o)]).
  { unfold serve, exec.
    rewrite (route_shutdown OS Hostname GetSystemMetrics ShutdownSystem fmt2f
                            s r _ Hpath).
    rewrite (requireTailscale_admits OS s r Hadm).
    rewrite (handleShutdown_post OS ShutdownSystem s r _ Hpost).
    reflexivity. }
  rewrite Hwd. cbn [os trace].
  split; [reflexivity|]. split; [reflexivity|].
  split; [cbn [http.bodyOf]; now rewrite append_nil_r|].
  split; [reflexivity|]. split.
  - unfold goroutine, exec, bind.
    destruct (ShutdownSystem _ (mkWorld o [])) as [[e|] w1]; cbn [fst snd].
    + reflexivity.
    + now rewrite app_nil_r.
  - intros f cmds. split.
    + unfold Linux.shutdownSystem. run_actuator.
      destruct f; run_actuator;
        match goal with
        | |- context [cmds ?a] => destruct (cmds a)
        end; run_actuator; try reflexivity;
        match goal with
        | |- context [cmds ?a] => destruct (cmds a)
        end; reflexivity.
    + unfold Darwin.shutdownSystem. run_actuator.
      destruct f; run_actuator;
        match goal with
        | |- context [cmds ?a] => destruct (cmds a)
        end; reflexivity.
Qed.

Lemma shutdown_failure_only_logged_witness :
  http.statusOf
    (trace (demoServe (New ":6942")
              (http.mkRequest "POST" "/shutdown" [("force", ["true"])]
                              "100.100.1.1:40000")))
  = http.StatusOK.
Proof.
  apply (shutdown_failure_only_logged Commands nodeHostname zeroCollector
           Linux.shutdownSystem (fun _ => "0.00") (New ":6942")
           (http.mkRequest "POST" "/shutdown" [("force", ["true"])]
                           "100.100.1.1:40000")
           failingCommands eq_refl eq_refl eq_refl).
Defined.

(** ** Lines of /proc/meminfo and /proc/net/dev *)

Lemma plain_numerals (vals : list Z) :
  forallb plain (map itoa vals) = true /\ ~ In "" (map itoa vals).
Proof.
  induction vals as [|v vals [IH1 IH2]]; [split; [reflexivity | intros []]|].
  destruct (plain_itoa v) as [Hp Hne]. cbn [map forallb In].
  split; [now rewrite Hp, IH1|].
  intros [Hv|Hin]; [now apply Hne | now apply IH2].
Qed.

Lemma nth_numeral (vals : list Z) (k : nat) :
  (k < List.length vals)%nat ->
  nth k (map itoa vals) "" = itoa (nth k vals 0).
Proof.
  intros Hk. rewrite (nth_indep _ "" (itoa 0)) by now rewrite length_map.
  apply map_nth.
Qed.

(** X27.  A line of /proc/meminfo.  A line made of a key, spaces, a number
    in decimal and the unit gives that key the number times 1024, modulo
    2^64, and leaves every other key as it was; so the value of a key in a
    file that ends with such a line is that line's when the key is the
    line's, and the value in the lines before otherwise: the last line of
    a key wins. *)
Theorem linux_meminfo_line (key key' : string) (k : nat) (n : Z)
        (lines : list string) :
  let line := (key' ++ spaces (S k) ++ String.concat " " [itoa n; "kB"])%string in
  plain key' = true -> key' <> "" -> 0 <= n < 2 ^ 64 ->
  strings.Fields line = [key'; itoa n; "kB"]
  /\ meminfoValue key (lines ++ [line])
     = (if String.eqb key' key then u64 (n * 1024)
        else meminfoValue key lines)
  /\ (n * 1024 < 2 ^ 64 -> meminfoValue key' (lines ++ [line]) = n * 1024).
Proof.
  intros line Hp Hne Hn.
  assert (Hfields : strings.Fields line = [key'; itoa n; "kB"]).
  { unfold line. destruct (plain_itoa n) as [Hpi Hni].
    apply Fields_labelled; try assumption.
    - cbn [forallb]. now rewrite Hpi.
    - cbn [In]. intros [H|[H|H]]; [now apply Hni | discriminate H | exact H]. }
  assert (Hstep : forall key0,
             meminfoValue key0 (lines ++ [line])
             = (if String.eqb key' key0 then u64 (n * 1024)
                else meminfoValue key0 lines)).
  { intros key0. unfold meminfoValue. rewrite fold_left_app.
    cbn [fold_left]. unfold meminfoStep at 1. rewrite Hfields.
    now rewrite ParseUint_itoa by exact Hn. }
  split; [exact Hfields|]. split; [apply Hstep|].
  intros Hfit. rewrite Hstep, String.eqb_refl. apply u64_small. lia.
Qed.

Lemma linux_meminfo_line_witness :
  meminfoValue "MemTotal:"
    (["MemTotal:       1 kB"] ++ ["MemTotal:       16384 kB"])
  = 16384 * 1024.
Proof.
  apply (linux_meminfo_line "MemTotal:" "MemTotal:" 6 16384
           ["MemTotal:       1 kB"]);
    try reflexivity; try discriminate.
  split; [discriminate | reflexivity].
Defined.

(** X28.  A line of /proc/net/dev.  A line made of the name of an
    interface with its colon, spaces, and at least nine counters in
    decimal, adds its first counter to the bytes received and its ninth to
    the bytes sent, unless the name with its colon starts with "lo:".  An
    interface whose name only starts with lo, such as lo0, is counted, and
    with fewer than nine counters the line adds nothing. *)
Theorem linux_netdev_line (name : string) (k : nat) (vals : list Z)
        (h1 h2 : string) :
  let line :=
    ((name ++ ":") ++ spaces (S k) ++ String.concat " " (map itoa vals))%string in
  plain name = true ->
  Forall (fun v => 0 <= v < 2 ^ 64) vals ->
  strings.Fields line = (name ++ ":")%string :: map itoa vals
  /\ ((List.length vals < 9)%nat -> netdevCounts line = (None, None))
  /\ ((9 <= List.length vals)%nat ->
      netdevCounts line
      = (if HasPrefix (name ++ ":") "lo:" then (None, None)
         else (Some (nth 8 vals 0), Some (nth 0 vals 0)))
      /\ (HasPrefix (name ++ ":") "lo:" = false ->
          Linux.getNetworkStats (Linux.Lines [h1; h2; line])
          = (nth 8 vals 0, nth 0 vals 0, None))).
Proof.
  intros line Hp Hvals.
  destruct (plain_numerals vals) as [Hpn Hnn].
  assert (Hfields : strings.Fields line = (name ++ ":")%string :: map itoa vals).
  { unfold line. apply Fields_labelled; try assumption.
    - rewrite plain_app, Hp. reflexivity.
    - destruct name; discriminate. }
  assert (Hrange : forall i, (i < List.length vals)%nat ->
                             0 <= nth i vals 0 < 2 ^ 64).
  { intros i Hi. rewrite Forall_forall in Hvals. apply Hvals.
    now apply nth_In. }
  split; [exact Hfields|]. split.
  - intros Hshort. unfold netdevCounts. rewrite Hfields. cbv zeta.
    cbn [List.length]. rewrite length_map.
    destruct (Nat.ltb_spec (S (List.length vals)) 10); [reflexivity | lia].
  - intros Hlong.
    assert (Hcounts :
              netdevCounts line
              = (if HasPrefix (name ++ ":") "lo:" then (None, None)
                 else (Some (nth 8 vals 0), Some (nth 0 vals 0)))).
    { unfold netdevCounts. rewrite Hfields. cbv zeta.
      cbn [List.length nth]. rewrite length_map.
      destruct (Nat.ltb_spec (S (List.length vals)) 10); [lia|].
      destruct (HasPrefix (name ++ ":") "lo:"); [reflexivity|].
      rewrite !nth_numeral by lia.
      now rewrite !ParseUint_itoa by (apply Hrange; lia). }
    split; [exact Hcounts|].
    intros Hnotlo. unfold Linux.getNetworkStats. cbn [skipn fold_left].
    rewrite netdevLine_counts, Hcounts, Hnotlo. cbn [fst snd addCount].
    rewrite !Z.add_0_l, !u64_small by (apply Hrange; lia). reflexivity.
Qed.

Lemma linux_netdev_line_witness :
  Linux.getNetworkStats
    (Linux.Lines ["Inter-|   Receive"; " face |bytes";
                  "lo0: 5000 50 0 0 0 0 0 0 7000 70 0 0 0 0 0 0"])
  = (7000, 5000, None).
Proof.
  destruct (linux_netdev_line "lo0" 0
              [5000; 50; 0; 0; 0; 0; 0; 0; 7000; 70; 0; 0; 0; 0; 0; 0]
              "Inter-|   Receive" " face |bytes") as (_ & _ & Hlong).
  - reflexivity.
  - repeat constructor; discriminate.
  - destruct Hlong as [_ Htotal]; [cbn; lia|].
    apply Htotal. reflexivity.
Defined.

(** ** Names are not resolved *)

Lemma ParseAddr_scan_name (rest s : string) :
  containsByte "." rest = false -> containsByte ":" rest = false ->
  netip.ParseAddr_scan rest s = None.
Proof.
  induction rest as [|c rest IH]; intros Hdot Hcolon; [reflexivity|].
  rewrite containsByte_cons in Hdot, Hcolon.
  apply orb_false_iff in Hdot. apply orb_false_iff in Hcolon.
  destruct Hdot as [Hd Hdot]. destruct Hcolon as [Hc Hcolon].
  cbn [netip.ParseAddr_scan]. rewrite Hd, Hc.
  destruct (Ascii.eqb c "%"); [reflexivity | now apply IH].
Qed.

(** X29.  The gate does not resolve names.  A host without a dot and
    without a colon is never parsed as an address, so a request from it,
    with a port or without, is admitted exactly when the host is the
    literal localhost, in lower case; the roster does not change this.
    Any other name, a name that would resolve to a loopback or tailnet
    address included, is refused. *)
Theorem names_not_resolved (s : Server) (host port : string) :
  containsByte "." host = false -> containsByte ":" host = false ->
  containsByte "[" host = false -> containsByte "]" host = false ->
  containsByte ":" port = false ->
  containsByte "[" port = false -> containsByte "]" port = false ->
  netip.ParseAddr host = None
  /\ (admits s (host ++ ":" ++ port) = true <-> host = "localhost")
  /\ (admits s host = true <-> host = "localhost").
Proof.
  intros Hdot Hcolon Hob Hcb Hpc Hpob Hpcb.
  assert (Hparse : netip.ParseAddr host = None)
    by now apply ParseAddr_scan_name.
  assert (Hlocal : isLocalhost host = true <-> host = "localhost").
  { rewrite isLocalhost_cases. split; [|tauto].
    intros [E|[E|E]]; [| |exact E]; subst host; discriminate. }
  assert (Hwith : clientIPOf (host ++ ":" ++ port) = host).
  { unfold clientIPOf.
    now rewrite (SplitHostPort_host_port host port Hob Hcb Hcolon Hpc Hpob
                                         Hpcb). }
  assert (Hwithout : clientIPOf host = host).
  { unfold clientIPOf, net.SplitHostPort.
    now rewrite (cutLastByte_none ":" host Hcolon). }
  split; [exact Hparse|].
  unfold admits. cbv zeta. rewrite Hwith, Hwithout, Hparse, orb_false_r.
  split; exact Hlocal.
Qed.

Lemma names_not_resolved_witness :
  admits serverWithOwnIP ("LOCALHOST" ++ ":" ++ "8080") = true
  <-> "LOCALHOST" = "localhost".
Proof.
  apply (names_not_resolved serverWithOwnIP "LOCALHOST" "8080");
    reflexivity.
Defined.

(** ** The two refusals *)

(** X30.  What a refused client is told.  A refused request gets one of
    two answers, both 403 and both logged once: when the host does not
    parse as an address the body is "Forbidden" and the log line is the
    one for an invalid client IP; when it parses, and is outside the
    ranges and the roster, the body is "Forbidden: Only accessible from
    Tailscale network" and the log line is the one for a blocked request.
    Either way the answer is plain text marked nosniff, the wrapped
    handler is not called and the system is left as it was. *)
Theorem refusal_tells_why (OS : Type) (s : Server)
        (next : http.HandlerFunc OS) (w : http.ResponseWriter)
        (r : http.Request) (o : OS) :
  admits s (http.RemoteAddr r) = false ->
  let wd := exec (requireTailscale s next w r) (mkWorld o []) in
  let parses :=
    match netip.ParseAddr (clientIPOf (http.RemoteAddr r)) with
    | Some _ => true
    | None => false
    end in
  let format := if parses then "Blocked request from non-Tailscale IP: %s"
                else "Invalid client IP %s: %v" in
  let msg := if parses
             then "Forbidden: Only accessible from Tailscale network"
             else "Forbidden" in
  trace wd = [Logf format;
              HeaderDel "Content-Length";
              HeaderSet "Content-Type" "text/plain; charset=utf-8";
              HeaderSet "X-Content-Type-Options" "nosniff";
              WriteHeader http.StatusForbidden;
              Write (msg ++ nl)]
  /\ http.statusOf (trace wd) = http.StatusForbidden
  /\ http.bodyOf (trace wd) = (msg ++ nl)%string
  /\ headerOf (trace wd) "Content-Type" None
     = Some "text/plain; charset=utf-8"
  /\ os wd = o.
Proof.
  intros Hadm. cbv zeta.
  assert (Hwd : exec (requireTailscale s next w r) (mkWorld o [])
                = exec (match netip.ParseAddr (clientIPOf (http.RemoteAddr r))
                        with
                        | Some _ => blocked
                        | None => invalidClientIP
                        end) (mkWorld o [])).
  { unfold admits in Hadm. unfold requireTailscale, exec. cbv zeta in *.
    destruct (isLocalhost (clientIPOf (http.RemoteAddr r)));
      [discriminate Hadm|]. cbn [orb] in Hadm.
    destruct (netip.ParseAddr (clientIPOf (http.RemoteAddr r))) as [a|];
      [|reflexivity].
    apply orb_false_iff in Hadm. destruct Hadm as [-> ->]. reflexivity. }
  rewrite Hwd. unfold exec, blocked, invalidClientIP.
  destruct (netip.ParseAddr (clientIPOf (http.RemoteAddr r))) as [a|];
    rewrite refusal_trace; cbn [snd trace os app];
    repeat split; cbn [http.bodyOf]; now rewrite ?append_nil_r.
Qed.

Lemma refusal_tells_why_witness :
  http.bodyOf
    (trace (exec (requireTailscale (New ":6942") (fun _ _ => ret tt)
                                   http.response
                                   (http.mkRequest "GET" "/" []
                                                   "example.com:443"))
                 (mkWorld failingCommands [])))
  = ("Forbidden" ++ nl)%string.
Proof.
  apply (refusal_tells_why Commands (New ":6942") (fun _ _ => ret tt)
           http.response
           (http.mkRequest "GET" "/" [] "example.com:443") failingCommands).
  reflexivity.
Defined.
